(** * PortFlow clearing agent: the container clearance engine

    A shallow embedding of [core/models.py], [core/utils.py]
    ([validate_container_data] and [BillOfLadingParser]) and the request
    handlers of [core/api.py], followed by the properties of the clearance
    state machine and of the parser.

    Conventions.
    - A Python [str] is a [string] whose characters are read as code points
      below 256; on that range [\d] is [0-9] and [str.lower] only moves the
      Latin capital letters.
    - A [Decimal] that is finite is the rational it denotes ([Q]); the
      [DecimalField(max_digits=10, decimal_places=2)] column [cargo_weight]
      is the integer number of hundredths it holds.
    - A Python [float] is an IEEE 754 binary64 value ([spec_float] at
      precision 53, [emax] 1024).
    - The table of [Container] rows is a finite map from [container_id]
      (a unique column) to the row; a handler reads its row, works on the
      model instance and writes it back, as [save()] does.
    - Each handler receives [now : nat -> datetime], the successive readings
      of the system clock during the request. *)

From Stdlib Require Import ZArith QArith Qround Ascii Floats.SpecFloat.
From stdpp Require Import base option list strings gmap.

Open Scope Z_scope.

(** ** Python strings *)

Definition code (c : ascii) : N := N_of_ascii c.

Definition is_upper_AZ (c : ascii) : bool := ((65 <=? code c) && (code c <=? 90))%N.

Definition is_digit (c : ascii) : bool := ((48 <=? code c) && (code c <=? 57))%N.

(** [str.lower] on one character (code points below 256). *)
Definition lower_char (c : ascii) : ascii :=
  let n := code c in
  if ((65 <=? n) && (n <=? 90))%N then ascii_of_N (n + 32)
  else if ((192 <=? n) && (n <=? 222) && negb (n =? 215))%N then ascii_of_N (n + 32)
  else c.

Fixpoint lower (s : string) : string :=
  match s with
  | EmptyString => EmptyString
  | String c r => String (lower_char c) (lower r)
  end.

Fixpoint replace_char (a b : ascii) (s : string) : string :=
  match s with
  | EmptyString => EmptyString
  | String c r => String (if Ascii.eqb c a then b else c) (replace_char a b r)
  end.

Definition startswith (s p : string) : bool := String.prefix p s.

Fixpoint endswith (s suffix : string) : bool :=
  String.eqb s suffix ||
  match s with
  | EmptyString => false
  | String _ r => endswith r suffix
  end.

(** [sep.join(parts)] *)
Fixpoint join (sep : string) (parts : list string) : string :=
  match parts with
  | [] => EmptyString
  | [p] => p
  | p :: rest => p +:+ sep +:+ join sep rest
  end.

(** Truth value of an optional string: [None] and the empty string are
    falsy. *)
Definition truthy (o : option string) : bool :=
  match o with
  | Some (String _ _) => true
  | _ => false
  end.

(** ** The two regular expressions of [validate_container_data] *)

(** [p{n}] at the head of [s]: the rest of [s] after [n] characters in [p]. *)
Fixpoint re_repeat (p : ascii -> bool) (n : nat) (s : string) : option string :=
  match n with
  | O => Some s
  | S n' =>
      match s with
      | String c r => if p c then re_repeat p n' r else None
      | EmptyString => None
      end
  end.

(** [$] outside MULTILINE mode: at the end, or before a final newline. *)
Definition re_end (s : string) : bool :=
  match s with
  | EmptyString => true
  | String c EmptyString => Ascii.eqb c "010"%char
  | _ => false
  end.

(** [re.match(r'^[A-Z]{4}\d{7}$', s)] as a truth value. *)
Definition match_container_id (s : string) : bool :=
  match re_repeat is_upper_AZ 4 s with
  | Some r =>
      match re_repeat is_digit 7 r with
      | Some r' => re_end r'
      | None => false
      end
  | None => false
  end.

(** [p{n}$] at the head of [s]. *)
Definition re_repeat_end (p : ascii -> bool) (n : nat) (s : string) : bool :=
  match re_repeat p n s with
  | Some r => re_end r
  | None => false
  end.

(** [re.match(r'^\d{10,12}$', s)] as a truth value: the greedy count
    backtracks from 12 down to 10. *)
Definition match_tin (s : string) : bool :=
  re_repeat_end is_digit 12 s || re_repeat_end is_digit 11 s || re_repeat_end is_digit 10 s.

(** ** Python floats and decimals *)

Definition prec : Z := 53.
Definition emax : Z := 1024.

Definition float_mul : spec_float -> spec_float -> spec_float := SFmul prec emax.

(** The literals [100] (an [int], converted exactly) and [0.10]. *)
Definition float_100 : spec_float := S754_finite false 7036874417766400 (-46).
Definition float_0_10 : spec_float := S754_finite false 7205759403792794 (-56).

(** [float(d)] for the decimal [d = cents / 100]: the quotient rounded once,
    to nearest even. *)
Definition float_of_cents (cents : Z) : spec_float :=
  match cents with
  | Z0 => S754_zero false
  | Zpos p => SFdiv prec emax (S754_finite false p 0) (S754_finite false 100 0)
  | Zneg p => SFdiv prec emax (S754_finite true p 0) (S754_finite false 100 0)
  end.

(** [Decimal(x)] for a float [x]: the exact value when [x] is finite. *)
Definition Decimal_of_float (x : spec_float) : option Q :=
  match x with
  | S754_zero _ => Some 0%Q
  | S754_finite s m e =>
      let n := if s then Zneg m else Zpos m in
      Some (Qred (match e with
                  | Z0 => n # 1
                  | Zpos k => (n * 2 ^ Zpos k) # 1
                  | Zneg k => n # (2 ^ k)%positive
                  end))
  | S754_infinity _ | S754_nan => None
  end.

(** [bool(d)] and [a < b] on finite decimals. *)
Definition Decimal_bool (d : Q) : bool := negb (Qeq_bool d 0).
Definition Decimal_lt (a b : Q) : bool := negb (Qle_bool b a).

(** [q.quantize(Decimal(1))] under [ROUND_HALF_EVEN]: the nearest integer,
    the even one of the two when [q] is half way. *)
Definition round_half_even (q : Q) : Z :=
  let f := Qnum q / Z.pos (Qden q) in
  match 2 * (Qnum q mod Z.pos (Qden q)) ?= Z.pos (Qden q) with
  | Lt => f
  | Gt => f + 1
  | Eq => if Z.even f then f else f + 1
  end.

(** What the column [DecimalField(max_digits=12, decimal_places=2)] of
    [customs_duty_amount] holds for a decimal: the value quantized to
    hundredths, or nothing when that takes more than twelve digits (the
    quantization raises [InvalidOperation]). *)
Definition duty_column (amount : Q) : option Q :=
  let hundredths := round_half_even (amount * 100) in
  if Z.abs hundredths <? 10 ^ 12 then Some (Qred (hundredths # 100)) else None.

(** The value of a finite float with mantissa [m] and exponent [e], times
    [2 ^ 200]: an integer for every exponent from [-200] on. *)
Definition scaled (m e : Z) : Z := m * 2 ^ (e + 200).

(** Bounds used to show that the duty product never overflows: a rounding
    record whose mantissa is not negative and below [2 ^ D], and a float
    that is zero or finite with mantissa below [2 ^ D] and exponent at most
    [E]. *)
Definition small (D : Z) (mrs : shr_record) : Prop := 0 <= shr_m mrs < 2 ^ D.

Definition bounded_float (D E : Z) (x : spec_float) : Prop :=
  match x with
  | S754_zero _ => True
  | S754_finite _ m e => Zpos m < 2 ^ D /\ e <= E
  | S754_infinity _ | S754_nan => False
  end.

(** ** [core/models.py]: the status vocabularies *)

Module OverallStatus.
Inductive t :=
| PENDING_VALIDATION | VALIDATED | PENDING_CUSTOMS | CUSTOMS_CLEARED
| PENDING_INSPECTION | INSPECTION_PASSED | RELEASED | FAILED.

Definition value (s : t) : string :=
  match s with
  | PENDING_VALIDATION => "PENDING_VALIDATION"
  | VALIDATED => "VALIDATED"
  | PENDING_CUSTOMS => "PENDING_CUSTOMS"
  | CUSTOMS_CLEARED => "CUSTOMS_CLEARED"
  | PENDING_INSPECTION => "PENDING_INSPECTION"
  | INSPECTION_PASSED => "INSPECTION_PASSED"
  | RELEASED => "RELEASED"
  | FAILED => "FAILED"
  end.

(** Position in the workflow order of the state machine summary;
    [PENDING_CUSTOMS] and [FAILED] are not part of that order. *)
Definition rank (s : t) : option nat :=
  match s with
  | PENDING_VALIDATION => Some 0%nat
  | VALIDATED => Some 1%nat
  | CUSTOMS_CLEARED => Some 2%nat
  | PENDING_INSPECTION => Some 3%nat
  | INSPECTION_PASSED => Some 4%nat
  | RELEASED => Some 5%nat
  | PENDING_CUSTOMS | FAILED => None
  end.

Definition terminal (s : t) : bool :=
  match s with
  | FAILED | RELEASED => true
  | _ => false
  end.
End OverallStatus.

Module CustomsStatus.
Inductive t := PENDING | PAYMENT_REQUIRED | PAID | CLEARED | REJECTED.

Definition value (s : t) : string :=
  match s with
  | PENDING => "PENDING"
  | PAYMENT_REQUIRED => "PAYMENT_REQUIRED"
  | PAID => "PAID"
  | CLEARED => "CLEARED"
  | REJECTED => "REJECTED"
  end.

Definition eqb (a b : t) : bool :=
  match a, b with
  | PENDING, PENDING | PAYMENT_REQUIRED, PAYMENT_REQUIRED | PAID, PAID
  | CLEARED, CLEARED | REJECTED, REJECTED => true
  | _, _ => false
  end.
End CustomsStatus.

Module ShippingStatus.
Inductive t := IN_TRANSIT | ARRIVED | DISCHARGED | READY_FOR_PICKUP.

Definition value (s : t) : string :=
  match s with
  | IN_TRANSIT => "IN_TRANSIT"
  | ARRIVED => "ARRIVED"
  | DISCHARGED => "DISCHARGED"
  | READY_FOR_PICKUP => "READY_FOR_PICKUP"
  end.
End ShippingStatus.

Module InspectionStatus.
Inductive t := NOT_SCHEDULED | SCHEDULED | IN_PROGRESS | PASSED | FAILED.

Definition value (s : t) : string :=
  match s with
  | NOT_SCHEDULED => "NOT_SCHEDULED"
  | SCHEDULED => "SCHEDULED"
  | IN_PROGRESS => "IN_PROGRESS"
  | PASSED => "PASSED"
  | FAILED => "FAILED"
  end.

Definition eqb (a b : t) : bool :=
  match a, b with
  | NOT_SCHEDULED, NOT_SCHEDULED | SCHEDULED, SCHEDULED
  | IN_PROGRESS, IN_PROGRESS | PASSED, PASSED | FAILED, FAILED => true
  | _, _ => false
  end.
End InspectionStatus.

(** ** [core/utils.py]: extracted data and its validation *)

(** The [data] dictionary of a parse result; an absent key is [None]. *)
Record ExtractedData := {
  d_container_id : option string;
  d_original_filename : option string;
  d_vessel_name : option string;
  d_importer_name : option string;
  d_importer_address : option string;
  d_tin : option string;
  d_port_of_loading : option string;
  d_port_of_discharge : option string;
  d_cargo_description : option string;
  d_cargo_weight : option spec_float
}.

(** The dictionary [{"success": .., "errors": .., "data": ..}]. *)
Record ParseResult := {
  success : bool;
  errors : list string;
  data : ExtractedData
}.

Definition ERR_ID_REQUIRED : string := "Container ID is required".
Definition ERR_ID_FORMAT : string :=
  "Container ID format is invalid (expected: 4 letters + 7 digits)".
Definition ERR_TIN_FORMAT : string := "TIN format is invalid (expected: 10-12 digits)".
Definition ERR_VESSEL_MISSING : string := "Vessel name is missing (recommended)".
Definition ERR_IMPORTER_MISSING : string := "Importer name is missing (recommended)".

(** The five rules of [validate_container_data], each as the condition under
    which it appends its message. *)
Definition rule_id_required (d : ExtractedData) : bool := negb (truthy (d_container_id d)).

Definition rule_id_format (d : ExtractedData) : bool :=
  match d_container_id d with
  | Some (String _ _ as container_id) =>
      negb (match_container_id container_id) && negb (startswith container_id "DEMO")
  | _ => false
  end.

Definition rule_tin_format (d : ExtractedData) : bool :=
  match d_tin d with
  | Some (String _ _ as tin) => negb (match_tin tin)
  | _ => false
  end.

Definition rule_vessel_missing (d : ExtractedData) : bool := negb (truthy (d_vessel_name d)).

Definition rule_importer_missing (d : ExtractedData) : bool :=
  negb (truthy (d_importer_name d)).

(** [errors.append(msg)] under [if cond]. *)
Definition append_if (cond : bool) (msg : string) (errors : list string) : list string :=
  if cond then errors ++ [msg] else errors.

Definition validate_container_data (d : ExtractedData) : list string :=
  let errors := [] in
  let errors := append_if (rule_id_required d) ERR_ID_REQUIRED errors in
  let errors := append_if (rule_id_format d) ERR_ID_FORMAT errors in
  let errors := append_if (rule_tin_format d) ERR_TIN_FORMAT errors in
  let errors := append_if (rule_vessel_missing d) ERR_VESSEL_MISSING errors in
  let errors := append_if (rule_importer_missing d) ERR_IMPORTER_MISSING errors in
  errors.

(** [len(errors) == 0] *)
Definition no_errors (errors : list string) : bool :=
  match errors with
  | [] => true
  | _ :: _ => false
  end.

(** ** What the handlers take from Python, Django and the PDF library *)

Class Runtime := {
  (** values of [datetime.now()] and [timezone.now()] *)
  datetime : Type;
  (** [t.isoformat()] *)
  isoformat : datetime -> string;
  (** [t.strftime(fmt)] *)
  strftime : datetime -> string -> string;
  (** [(t + timedelta(days=1)).replace(hour=10, minute=0, second=0)] *)
  next_day_at_10 : datetime -> datetime;
  (** the naira sign followed by [format(x, ',.2f')] *)
  format_naira : Q -> string;
  (** [BillOfLadingParser().parse_bill_of_lading(file_content, filename)],
      whose text extraction is done by the PDF library *)
  parse_bill_of_lading : string -> string -> ParseResult;
  (** the hundredths a [DecimalField(max_digits=10, decimal_places=2)]
      stores for a float, or the text of the exception it raises *)
  weight_column : spec_float -> Z + string
}.

(** ** [core/models.py]: the [Container] model *)

(** One entry of the [logs] JSON list. *)
Record LogEntry := {
  timestamp : string;
  actor : string;
  action : string;
  details : string
}.

Record Container `{Runtime} := {
  container_id : string;
  overall_status : OverallStatus.t;
  vessel_name : option string;
  importer_name : option string;
  importer_address : option string;
  tin : option string;
  port_of_loading : option string;
  port_of_discharge : option string;
  cargo_description : option string;
  cargo_weight : option Z;
  customs_status : CustomsStatus.t;
  shipping_status : ShippingStatus.t;
  inspection_status : InspectionStatus.t;
  customs_duty_amount : option Q;
  customs_paid_at : option datetime;
  original_filename : option string;
  document_validated : bool;
  validation_errors : list string;
  logs : list LogEntry;
  created_at : datetime;
  updated_at : datetime
}.

(** ** [core/schemas.py] *)

Module ValidationRequestSchema.
Record t := { container_id : string; force_revalidate : bool }.
End ValidationRequestSchema.

Module CustomsPaymentRequestSchema.
Record t := { container_id : string; amount : Q; payment_reference : option string }.
End CustomsPaymentRequestSchema.

Module InspectionScheduleRequestSchema.
Record t := { container_id : string; preferred_date : option string }.
End InspectionScheduleRequestSchema.

Module ContainerCreateSchema.
Record t := { container_id : string; overall_status : OverallStatus.t; message : string }.
End ContainerCreateSchema.

Module ValidationResponseSchema.
Record t := {
  container_id : string;
  is_valid : bool;
  errors : list string;
  message : string
}.
End ValidationResponseSchema.

Module CustomsStatusResponseSchema.
Record t := {
  container_id : string;
  customs_status : CustomsStatus.t;
  amount_due : option Q;
  message : string
}.
End CustomsStatusResponseSchema.

Module CustomsPaymentResponseSchema.
Record t `{Runtime} := {
  container_id : string;
  status : CustomsStatus.t;
  amount_paid : Q;
  payment_date : option datetime;
  message : string
}.
End CustomsPaymentResponseSchema.

Module ShippingStatusResponseSchema.
Record t := {
  container_id : string;
  shipping_status : ShippingStatus.t;
  vessel_name : option string;
  port_of_discharge : option string;
  message : string
}.
End ShippingStatusResponseSchema.

Module InspectionScheduleResponseSchema.
Record t := {
  container_id : string;
  inspection_status : InspectionStatus.t;
  scheduled_date : option string;
  message : string
}.
End InspectionScheduleResponseSchema.

Module ErrorSchema.
Record t := { error : string; details : option string }.
End ErrorSchema.

(** Values of the [data] dictionary of a [SuccessSchema]. *)
Inductive json := JStr (s : string) | JBool (b : bool).

Module SuccessSchema.
Record t := { message : string; data : list (string * json) }.
End SuccessSchema.

(** What a handler answers: a 200 body, an explicit [return code, {...}],
    the [Http404] of [get_object_or_404], or an exception it does not catch. *)
Inductive Reply (A : Type) :=
| Ok (body : A)
| Error (code : Z) (e : ErrorSchema.t)
| Http404
| Raised.

Arguments Ok {A} body.
Arguments Error {A} code e.
Arguments Http404 {A}.
Arguments Raised {A}.

Section Engine.

Context `{RT : Runtime}.

(** *** Attribute assignment on a model instance *)

Definition set_overall_status (v : OverallStatus.t) (c : Container) : Container :=
  {| container_id := container_id c; overall_status := v; vessel_name := vessel_name c;
     importer_name := importer_name c; importer_address := importer_address c; tin := tin c;
     port_of_loading := port_of_loading c; port_of_discharge := port_of_discharge c;
     cargo_description := cargo_description c; cargo_weight := cargo_weight c;
     customs_status := customs_status c; shipping_status := shipping_status c;
     inspection_status := inspection_status c; customs_duty_amount := customs_duty_amount c;
     customs_paid_at := customs_paid_at c; original_filename := original_filename c;
     document_validated := document_validated c; validation_errors := validation_errors c;
     logs := logs c; created_at := created_at c; updated_at := updated_at c |}.

Definition set_customs_status (v : CustomsStatus.t) (c : Container) : Container :=
  {| container_id := container_id c; overall_status := overall_status c;
     vessel_name := vessel_name c; importer_name := importer_name c;
     importer_address := importer_address c; tin := tin c;
     port_of_loading := port_of_loading c; port_of_discharge := port_of_discharge c;
     cargo_description := cargo_description c; cargo_weight := cargo_weight c;
     customs_status := v; shipping_status := shipping_status c;
     inspection_status := inspection_status c; customs_duty_amount := customs_duty_amount c;
     customs_paid_at := customs_paid_at c; original_filename := original_filename c;
     document_validated := document_validated c; validation_errors := validation_errors c;
     logs := logs c; created_at := created_at c; updated_at := updated_at c |}.

Definition set_shipping_status (v : ShippingStatus.t) (c : Container) : Container :=
  {| container_id := container_id c; overall_status := overall_status c;
     vessel_name := vessel_name c; importer_name := importer_name c;
     importer_address := importer_address c; tin := tin c;
     port_of_loading := port_of_loading c; port_of_discharge := port_of_discharge c;
     cargo_description := cargo_description c; cargo_weight := cargo_weight c;
     customs_status := customs_status c; shipping_status := v;
     inspection_status := inspection_status c; customs_duty_amount := customs_duty_amount c;
     customs_paid_at := customs_paid_at c; original_filename := original_filename c;
     document_validated := document_validated c; validation_errors := validation_errors c;
     logs := logs c; created_at := created_at c; updated_at := updated_at c |}.

Definition set_inspection_status (v : InspectionStatus.t) (c : Container) : Container :=
  {| container_id := container_id c; overall_status := overall_status c;
     vessel_name := vessel_name c; importer_name := importer_name c;
     importer_address := importer_address c; tin := tin c;
     port_of_loading := port_of_loading c; port_of_discharge := port_of_discharge c;
     cargo_description := cargo_description c; cargo_weight := cargo_weight c;
     customs_status := customs_status c; shipping_status := shipping_status c;
     inspection_status := v; customs_duty_amount := customs_duty_amount c;
     customs_paid_at := customs_paid_at c; original_filename := original_filename c;
     document_validated := document_validated c; validation_errors := validation_errors c;
     logs := logs c; created_at := created_at c; updated_at := updated_at c |}.

Definition set_customs_duty_amount (v : option Q) (c : Container) : Container :=
  {| container_id := container_id c; overall_status := overall_status c;
     vessel_name := vessel_name c; importer_name := importer_name c;
     importer_address := importer_address c; tin := tin c;
     port_of_loading := port_of_loading c; port_of_discharge := port_of_discharge c;
     cargo_description := cargo_description c; cargo_weight := cargo_weight c;
     customs_status := customs_status c; shipping_status := shipping_status c;
     inspection_status := inspection_status c; customs_duty_amount := v;
     customs_paid_at := customs_paid_at c; original_filename := original_filename c;
     document_validated := document_validated c; validation_errors := validation_errors c;
     logs := logs c; created_at := created_at c; updated_at := updated_at c |}.

Definition set_customs_paid_at (v : option datetime) (c : Container) : Container :=
  {| container_id := container_id c; overall_status := overall_status c;
     vessel_name := vessel_name c; importer_name := importer_name c;
     importer_address := importer_address c; tin := tin c;
     port_of_loading := port_of_loading c; port_of_discharge := port_of_discharge c;
     cargo_description := cargo_description c; cargo_weight := cargo_weight c;
     customs_status := customs_status c; shipping_status := shipping_status c;
     inspection_status := inspection_status c; customs_duty_amount := customs_duty_amount c;
     customs_paid_at := v; original_filename := original_filename c;
     document_validated := document_validated c; validation_errors := validation_errors c;
     logs := logs c; created_at := created_at c; updated_at := updated_at c |}.

Definition set_document_validated (v : bool) (c : Container) : Container :=
  {| container_id := container_id c; overall_status := overall_status c;
     vessel_name := vessel_name c; importer_name := importer_name c;
     importer_address := importer_address c; tin := tin c;
     port_of_loading := port_of_loading c; port_of_discharge := port_of_discharge c;
     cargo_description := cargo_description c; cargo_weight := cargo_weight c;
     customs_status := customs_status c; shipping_status := shipping_status c;
     inspection_status := inspection_status c; customs_duty_amount := customs_duty_amount c;
     customs_paid_at := customs_paid_at c; original_filename := original_filename c;
     document_validated := v; validation_errors := validation_errors c; logs := logs c;
     created_at := created_at c; updated_at := updated_at c |}.

Definition set_validation_errors (v : list string) (c : Container) : Container :=
  {| container_id := container_id c; overall_status := overall_status c;
     vessel_name := vessel_name c; importer_name := importer_name c;
     importer_address := importer_address c; tin := tin c;
     port_of_loading := port_of_loading c; port_of_discharge := port_of_discharge c;
     cargo_description := cargo_description c; cargo_weight := cargo_weight c;
     customs_status := customs_status c; shipping_status := shipping_status c;
     inspection_status := inspection_status c; customs_duty_amount := customs_duty_amount c;
     customs_paid_at := customs_paid_at c; original_filename := original_filename c;
     document_validated := document_validated c; validation_errors := v; logs := logs c;
     created_at := created_at c; updated_at := updated_at c |}.

Definition set_logs (v : list LogEntry) (c : Container) : Container :=
  {| container_id := container_id c; overall_status := overall_status c;
     vessel_name := vessel_name c; importer_name := importer_name c;
     importer_address := importer_address c; tin := tin c;
     port_of_loading := port_of_loading c; port_of_discharge := port_of_discharge c;
     cargo_description := cargo_description c; cargo_weight := cargo_weight c;
     customs_status := customs_status c; shipping_status := shipping_status c;
     inspection_status := inspection_status c; customs_duty_amount := customs_duty_amount c;
     customs_paid_at := customs_paid_at c; original_filename := original_filename c;
     document_validated := document_validated c; validation_errors := validation_errors c;
     logs := v; created_at := created_at c; updated_at := updated_at c |}.

Definition set_updated_at (v : datetime) (c : Container) : Container :=
  {| container_id := container_id c; overall_status := overall_status c;
     vessel_name := vessel_name c; importer_name := importer_name c;
     importer_address := importer_address c; tin := tin c;
     port_of_loading := port_of_loading c; port_of_discharge := port_of_discharge c;
     cargo_description := cargo_description c; cargo_weight := cargo_weight c;
     customs_status := customs_status c; shipping_status := shipping_status c;
     inspection_status := inspection_status c; customs_duty_amount := customs_duty_amount c;
     customs_paid_at := customs_paid_at c; original_filename := original_filename c;
     document_validated := document_validated c; validation_errors := validation_errors c;
     logs := logs c; created_at := created_at c; updated_at := v |}.

(** *** [Container.save] and [Container.add_log]

    [updated_at] is an [auto_now] field: every [save()] stamps it. *)
Definition save (t : datetime) (c : Container) : Container := set_updated_at t c.

(** [add_log] reads the clock for the entry (reading [k]), appends the entry
    and saves (reading [k + 1]). *)
Definition add_log (now : nat -> datetime) (k : nat) (actor action details : string)
    (c : Container) : Container :=
  let log_entry :=
    {| timestamp := isoformat (now k); actor := actor; action := action;
       details := details |} in
  save (now (S k)) (set_logs (logs c ++ [log_entry]) c).

(** *** [core/api.py]: container operations *)

Definition upload_bill_of_lading (now : nat -> datetime) (file_name file_content : string)
    (db : gmap string Container) : Reply ContainerCreateSchema.t * gmap string Container :=
  if negb (endswith (lower file_name) ".pdf") then
    (Error 400 {| ErrorSchema.error := "Invalid file type";
                  ErrorSchema.details := Some "Only PDF files are accepted" |}, db)
  else
    let parse_result := parse_bill_of_lading file_content file_name in
    if negb (success parse_result) then
      (Error 400 {| ErrorSchema.error := "Document parsing failed";
                    ErrorSchema.details := Some (join "; " (errors parse_result)) |}, db)
    else
      let data := data parse_result in
      match d_container_id data with
      | None =>
          (Error 500 {| ErrorSchema.error := "Server error";
                        ErrorSchema.details := Some "'container_id'" |}, db)
      | Some id =>
          match db !! id with
          | Some existing =>
              (Error 400 {| ErrorSchema.error := "Container already exists";
                            ErrorSchema.details :=
                              Some ("Container " +:+ id +:+ " is already in the system") |},
               db)
          | None =>
              let validation_errors := validate_container_data data in
              let stored_weight :=
                match d_cargo_weight data with
                | None => inl None
                | Some w =>
                    match weight_column w with
                    | inl cents => inl (Some cents)
                    | inr exn => inr exn
                    end
                end in
              match stored_weight with
              | inr exn =>
                  (Error 500 {| ErrorSchema.error := "Server error";
                                ErrorSchema.details := Some exn |}, db)
              | inl weight =>
                  let container :=
                    {| container_id := id;
                       vessel_name := d_vessel_name data;
                       importer_name := d_importer_name data;
                       importer_address := d_importer_address data;
                       tin := d_tin data;
                       port_of_loading := d_port_of_loading data;
                       port_of_discharge :=
                         Some (default "Lagos, Nigeria" (d_port_of_discharge data));
                       cargo_description := d_cargo_description data;
                       cargo_weight := weight;
                       original_filename := Some file_name;
                       document_validated := no_errors validation_errors;
                       validation_errors := validation_errors;
                       overall_status := OverallStatus.PENDING_VALIDATION;
                       shipping_status := ShippingStatus.DISCHARGED;
                       customs_status := CustomsStatus.PENDING;
                       inspection_status := InspectionStatus.NOT_SCHEDULED;
                       customs_duty_amount := None;
                       customs_paid_at := None;
                       logs := [];
                       created_at := now 0%nat;
                       updated_at := now 1%nat |} in
                  let container :=
                    add_log now 2 "system" "document_upload"
                      ("Bill of Lading uploaded: " +:+ file_name) container in
                  (Ok {| ContainerCreateSchema.container_id := container_id container;
                         ContainerCreateSchema.overall_status := overall_status container;
                         ContainerCreateSchema.message :=
                           "Document uploaded and parsed successfully" |},
                   <[id := container]> db)
              end
          end
      end.

Definition get_container_status (id : string) (db : gmap string Container)
    : Reply Container * gmap string Container :=
  match db !! id with
  | Some container => (Ok container, db)
  | None =>
      (Error 404 {| ErrorSchema.error := "Container not found";
                    ErrorSchema.details := Some "No Container matches the given query." |},
       db)
  end.

Definition validate_container (now : nat -> datetime) (payload : ValidationRequestSchema.t)
    (db : gmap string Container) : Reply ValidationResponseSchema.t * gmap string Container :=
  let id := ValidationRequestSchema.container_id payload in
  match db !! id with
  | None => (Http404, db)
  | Some container =>
      let '(container, db) :=
        if ValidationRequestSchema.force_revalidate payload
           || negb (document_validated container)
        then
          let errors :=
            validate_container_data
              {| d_container_id := Some (container_id container);
                 d_vessel_name := vessel_name container;
                 d_importer_name := importer_name container;
                 d_tin := tin container;
                 d_original_filename := None; d_importer_address := None;
                 d_port_of_loading := None; d_port_of_discharge := None;
                 d_cargo_description := None; d_cargo_weight := None |} in
          let container := set_validation_errors errors container in
          let container := set_document_validated (no_errors errors) container in
          let container :=
            if document_validated container then
              let container := set_overall_status OverallStatus.VALIDATED container in
              add_log now 0 "agent" "validation" "Document validation passed" container
            else
              add_log now 0 "agent" "validation_failed"
                ("Validation errors: " +:+ join ", " errors) container in
          let container := save (now 2%nat) container in
          (container, <[id := container]> db)
        else (container, db) in
      (Ok {| ValidationResponseSchema.container_id := container_id container;
             ValidationResponseSchema.is_valid := document_validated container;
             ValidationResponseSchema.errors := validation_errors container;
             ValidationResponseSchema.message :=
               if document_validated container then "Validation successful"
               else "Validation failed" |},
       db)
  end.

(** *** Customs operations *)

(** [Decimal(float(cargo_weight) * 100 * 0.10)] *)
Definition duty_of_weight (cents : Z) : option Q :=
  let estimated_value := float_mul (float_of_cents cents) float_100 in
  Decimal_of_float (float_mul estimated_value float_0_10).

Definition FLAT_DUTY : Q := 150000.

(** A [Decimal] is falsy when it is zero, so a weight of [0.00] takes the
    flat amount like an unknown weight.  [save()] writes the amount into its
    column of two decimal places, so the row read back by later requests
    holds the quantized amount, while the answer of this call is built from
    the instance in memory, which still carries the decimal value of the
    float product.  An amount that is not finite or does not fit the column
    cannot be saved: [save()] raises and nothing is stored; this does not
    happen for a weight of at most ten digits ([duty_column_exact] below). *)
Definition check_customs_status (now : nat -> datetime) (id : string)
    (db : gmap string Container)
    : Reply CustomsStatusResponseSchema.t * gmap string Container :=
  match db !! id with
  | None => (Http404, db)
  | Some container =>
      let assessed :=
        match customs_duty_amount container with
        | Some _ => Some (container, db)
        | None =>
            let amount :=
              match cargo_weight container with
              | Some cents => if cents =? 0 then Some FLAT_DUTY else duty_of_weight cents
              | None => Some FLAT_DUTY
              end in
            match amount with
            | None => None
            | Some amount =>
                match duty_column amount with
                | None => None
                | Some held =>
                    let container := set_customs_duty_amount (Some amount) container in
                    let container :=
                      if CustomsStatus.eqb (customs_status container) CustomsStatus.PENDING
                      then set_customs_status CustomsStatus.PAYMENT_REQUIRED container
                      else container in
                    let container := save (now 0%nat) container in
                    Some (container,
                          <[id := set_customs_duty_amount (Some held) container]> db)
                end
            end
        end in
      match assessed with
      | None => (Raised, db)
      | Some (container, db) =>
          let amount_due :=
            if CustomsStatus.eqb (customs_status container) CustomsStatus.PAYMENT_REQUIRED
            then customs_duty_amount container else None in
          (Ok {| CustomsStatusResponseSchema.container_id := container_id container;
                 CustomsStatusResponseSchema.customs_status := customs_status container;
                 CustomsStatusResponseSchema.amount_due := amount_due;
                 CustomsStatusResponseSchema.message :=
                   match amount_due, customs_duty_amount container with
                   | Some due, Some amount =>
                       if Decimal_bool due then "Customs duty: " +:+ format_naira amount
                       else "Customs cleared"
                   | _, _ => "Customs cleared"
                   end |},
           db)
      end
  end.

Definition pay_customs_duty (now : nat -> datetime) (payload : CustomsPaymentRequestSchema.t)
    (db : gmap string Container)
    : Reply CustomsPaymentResponseSchema.t * gmap string Container :=
  let id := CustomsPaymentRequestSchema.container_id payload in
  let amount := CustomsPaymentRequestSchema.amount payload in
  match db !! id with
  | None => (Http404, db)
  | Some container =>
      if CustomsStatus.eqb (customs_status container) CustomsStatus.PAID then
        (Error 400 {| ErrorSchema.error := "Already paid";
                      ErrorSchema.details := Some "Customs duty has already been paid" |}, db)
      else if match customs_duty_amount container with
              | Some due => Decimal_bool due && Decimal_lt amount due
              | None => false
              end
      then
        (Error 400 {| ErrorSchema.error := "Insufficient payment";
                      ErrorSchema.details :=
                        Some ("Amount due: " +:+
                              match customs_duty_amount container with
                              | Some due => format_naira due
                              | None => EmptyString
                              end) |}, db)
      else
        let container := set_customs_status CustomsStatus.PAID container in
        let container := set_customs_paid_at (Some (now 0%nat)) container in
        let container := set_overall_status OverallStatus.CUSTOMS_CLEARED container in
        let '(payment_ref, k) :=
          match CustomsPaymentRequestSchema.payment_reference payload with
          | Some (String _ _ as ref) => (ref, 1%nat)
          | _ => ("PAY" +:+ strftime (now 1%nat) "%Y%m%d%H%M%S", 2%nat)
          end in
        let container :=
          add_log now k "agent" "customs_payment"
            ("Customs duty paid: " +:+ format_naira amount +:+ ". Reference: "
             +:+ payment_ref) container in
        let container := save (now (k + 2)%nat) container in
        (Ok {| CustomsPaymentResponseSchema.container_id := container_id container;
               CustomsPaymentResponseSchema.status := customs_status container;
               CustomsPaymentResponseSchema.amount_paid := amount;
               CustomsPaymentResponseSchema.payment_date := customs_paid_at container;
               CustomsPaymentResponseSchema.message :=
                 "Customs duty payment processed successfully" |},
         <[id := container]> db)
  end.

(** *** Shipping operations *)

Definition check_shipping_status (now : nat -> datetime) (id : string)
    (db : gmap string Container)
    : Reply ShippingStatusResponseSchema.t * gmap string Container :=
  match db !! id with
  | None => (Http404, db)
  | Some container =>
      let container :=
        add_log now 0 "agent" "shipping_status_check"
          ("Shipping status queried: " +:+ ShippingStatus.value (shipping_status container))
          container in
      (Ok {| ShippingStatusResponseSchema.container_id := container_id container;
             ShippingStatusResponseSchema.shipping_status := shipping_status container;
             ShippingStatusResponseSchema.vessel_name := vessel_name container;
             ShippingStatusResponseSchema.port_of_discharge := port_of_discharge container;
             ShippingStatusResponseSchema.message :=
               "Container is " +:+
               replace_char "_" " " (lower (ShippingStatus.value (shipping_status container)))
          |},
       <[id := container]> db)
  end.

(** *** Inspection operations *)

Definition schedule_inspection (now : nat -> datetime)
    (payload : InspectionScheduleRequestSchema.t) (db : gmap string Container)
    : Reply InspectionScheduleResponseSchema.t * gmap string Container :=
  let id := InspectionScheduleRequestSchema.container_id payload in
  match db !! id with
  | None => (Http404, db)
  | Some container =>
      if negb (CustomsStatus.eqb (customs_status container) CustomsStatus.PAID) then
        (Error 400 {| ErrorSchema.error := "Customs not cleared";
                      ErrorSchema.details :=
                        Some "Customs duty must be paid before scheduling inspection" |}, db)
      else if InspectionStatus.eqb (inspection_status container) InspectionStatus.SCHEDULED
      then
        (Error 400 {| ErrorSchema.error := "Already scheduled";
                      ErrorSchema.details := Some "Inspection is already scheduled" |}, db)
      else
        let container := set_inspection_status InspectionStatus.SCHEDULED container in
        let container := set_overall_status OverallStatus.PENDING_INSPECTION container in
        let scheduled_date := next_day_at_10 (now 0%nat) in
        let scheduled_date_str := strftime scheduled_date "%Y-%m-%dT%H:%M:%S" in
        let container :=
          add_log now 1 "agent" "inspection_scheduled"
            ("Physical inspection scheduled for " +:+ scheduled_date_str) container in
        let container := save (now 3%nat) container in
        (Ok {| InspectionScheduleResponseSchema.container_id := container_id container;
               InspectionScheduleResponseSchema.inspection_status :=
                 inspection_status container;
               InspectionScheduleResponseSchema.scheduled_date := Some scheduled_date_str;
               InspectionScheduleResponseSchema.message :=
                 "Inspection scheduled for " +:+
                 strftime scheduled_date "%B %d, %Y at %I:%M %p" |},
         <[id := container]> db)
  end.

Definition complete_inspection (now : nat -> datetime) (id : string) (passed : bool)
    (db : gmap string Container) : Reply SuccessSchema.t * gmap string Container :=
  match db !! id with
  | None => (Http404, db)
  | Some container =>
      let container :=
        if passed then
          let container := set_inspection_status InspectionStatus.PASSED container in
          let container := set_overall_status OverallStatus.INSPECTION_PASSED container in
          add_log now 0 "npa_inspector" "inspection_passed"
            "Physical inspection completed successfully" container
        else
          let container := set_inspection_status InspectionStatus.FAILED container in
          let container := set_overall_status OverallStatus.FAILED container in
          add_log now 0 "npa_inspector" "inspection_failed"
            "Physical inspection failed" container in
      let container := save (now 2%nat) container in
      (Ok {| SuccessSchema.message :=
               "Inspection marked as " +:+ (if passed then "passed" else "failed");
             SuccessSchema.data :=
               [("container_id", JStr id);
                ("status", JStr (InspectionStatus.value (inspection_status container)))] |},
       <[id := container]> db)
  end.

Definition release_container (now : nat -> datetime) (id : string)
    (db : gmap string Container) : Reply SuccessSchema.t * gmap string Container :=
  match db !! id with
  | None => (Http404, db)
  | Some container =>
      if negb (InspectionStatus.eqb (inspection_status container) InspectionStatus.PASSED)
      then
        (Error 400 {| ErrorSchema.error := "Inspection not passed";
                      ErrorSchema.details :=
                        Some "Container must pass inspection before release" |}, db)
      else
        let container := set_overall_status OverallStatus.RELEASED container in
        let container := set_shipping_status ShippingStatus.READY_FOR_PICKUP container in
        let container :=
          add_log now 0 "agent" "container_released"
            "Container cleared and released for pickup" container in
        let container := save (now 2%nat) container in
        (Ok {| SuccessSchema.message := "Container released successfully";
               SuccessSchema.data :=
                 [("container_id", JStr id);
                  ("status", JStr (OverallStatus.value (overall_status container)));
                  ("ready_for_pickup", JBool true)] |},
         <[id := container]> db)
  end.

(** *** Requests and runs of the engine

    [list_containers] only reads the table and is left out. *)

Inductive Call :=
| Upload (file_name file_content : string)
| GetContainer (id : string)
| Validate (payload : ValidationRequestSchema.t)
| CheckCustoms (id : string)
| Pay (payload : CustomsPaymentRequestSchema.t)
| CheckShipping (id : string)
| Schedule (payload : InspectionScheduleRequestSchema.t)
| Complete (id : string) (passed : bool)
| Release (id : string).

(** The outcome of a call with its body forgotten. *)
Inductive Outcome :=
| Accepted
| Rejected (code : Z) (error : string)
| NotFound
| Crashed.

Definition outcome {A : Type} (r : Reply A) : Outcome :=
  match r with
  | Ok _ => Accepted
  | Error code e => Rejected code (ErrorSchema.error e)
  | Http404 => NotFound
  | Raised => Crashed
  end.

Definition forget {A : Type} (r : Reply A * gmap string Container)
    : Outcome * gmap string Container :=
  (outcome r.1, r.2).

Definition exec (now : nat -> datetime) (call : Call) (db : gmap string Container)
    : Outcome * gmap string Container :=
  match call with
  | Upload file_name file_content =>
      forget (upload_bill_of_lading now file_name file_content db)
  | GetContainer id => forget (get_container_status id db)
  | Validate payload => forget (validate_container now payload db)
  | CheckCustoms id => forget (check_customs_status now id db)
  | Pay payload => forget (pay_customs_duty now payload db)
  | CheckShipping id => forget (check_shipping_status now id db)
  | Schedule payload => forget (schedule_inspection now payload db)
  | Complete id passed => forget (complete_inspection now id passed db)
  | Release id => forget (release_container now id db)
  end.

(** The table after a sequence of requests, each with its clock readings. *)
Fixpoint run (calls : list ((nat -> datetime) * Call)) (db : gmap string Container)
    : gmap string Container :=
  match calls with
  | [] => db
  | (now, call) :: rest => run rest (exec now call db).2
  end.

(** The container and the [overall_status] that a call assigns when it is
    accepted and reaches its assignment: validation assigns [VALIDATED] only
    when it runs and finds no error. *)
Definition writes (call : Call) : option (string * OverallStatus.t) :=
  match call with
  | Validate payload =>
      Some (ValidationRequestSchema.container_id payload, OverallStatus.VALIDATED)
  | Pay payload =>
      Some (CustomsPaymentRequestSchema.container_id payload, OverallStatus.CUSTOMS_CLEARED)
  | Schedule payload =>
      Some (InspectionScheduleRequestSchema.container_id payload,
            OverallStatus.PENDING_INSPECTION)
  | Complete id passed =>
      Some (id, if passed then OverallStatus.INSPECTION_PASSED else OverallStatus.FAILED)
  | Release id => Some (id, OverallStatus.RELEASED)
  | Upload _ _ | GetContainer _ | CheckCustoms _ | CheckShipping _ => None
  end.

End Engine.

(** ** A runtime and a document for the worked examples

    Clock readings are given as their ISO text; the parser stub answers with
    the fields of the sample bill of lading for container [MAEU4567890]
    (weight 18500 kg) whatever the file holds. *)

Definition sample_weight : spec_float := S754_finite false 5085241278464000 (-38).

Definition sample_data : ExtractedData :=
  {| d_container_id := Some "MAEU4567890";
     d_original_filename := Some "bill.pdf";
     d_vessel_name := Some "MV Lagos Star";
     d_importer_name := Some "Adeyemi Trading Ltd";
     d_importer_address := None;
     d_tin := Some "1234567890";
     d_port_of_loading := Some "Shanghai, China";
     d_port_of_discharge := None;
     d_cargo_description := None;
     d_cargo_weight := Some sample_weight |}.

(** Hundredths nearest to a finite float. *)
Definition sample_weight_column (w : spec_float) : Z + string :=
  match Decimal_of_float w with
  | Some q => inl (Qfloor (q * 100 + (1 # 2)))
  | None => inr "[<class 'decimal.InvalidOperation'>]"
  end.

Definition sample_runtime : Runtime :=
  {| datetime := string;
     isoformat := fun t => t;
     strftime := fun t fmt => t;
     next_day_at_10 := fun t => t;
     format_naira := fun q => "NGN";
     parse_bill_of_lading := fun content name =>
       {| success := true; errors := []; data := sample_data |};
     weight_column := sample_weight_column |}.

Section Samples.

#[local] Existing Instance sample_runtime.

Definition sample_clock : nat -> @datetime sample_runtime :=
  fun _ => "2025-01-15T09:30:00".

Definition SAMPLE_ID : string := "MAEU4567890".

(** The row of the sample container right after upload, with the given
    weight (in hundredths) and identifier. *)
Definition sample_container (id : string) (weight : option Z) : @Container sample_runtime :=
  {| container_id := id;
     overall_status := OverallStatus.PENDING_VALIDATION;
     vessel_name := Some "MV Lagos Star";
     importer_name := Some "Adeyemi Trading Ltd";
     importer_address := None;
     tin := Some "1234567890";
     port_of_loading := Some "Shanghai, China";
     port_of_discharge := Some "Lagos, Nigeria";
     cargo_description := None;
     cargo_weight := weight;
     customs_status := CustomsStatus.PENDING;
     shipping_status := ShippingStatus.DISCHARGED;
     inspection_status := InspectionStatus.NOT_SCHEDULED;
     customs_duty_amount := None;
     customs_paid_at := None;
     original_filename := Some "bill.pdf";
     document_validated := true;
     validation_errors := [];
     logs := [];
     created_at := "2025-01-15T09:30:00";
     updated_at := "2025-01-15T09:30:00" |}.

(** The end-to-end scenario up to release. *)
Definition scenario : list ((nat -> @datetime sample_runtime) * Call) :=
  [ (sample_clock, Upload "bill.pdf" "%PDF-1.4");
    (sample_clock, Validate {| ValidationRequestSchema.container_id := SAMPLE_ID;
                               ValidationRequestSchema.force_revalidate := false |});
    (sample_clock, CheckCustoms SAMPLE_ID);
    (sample_clock, Pay {| CustomsPaymentRequestSchema.container_id := SAMPLE_ID;
                          CustomsPaymentRequestSchema.amount := 185000;
                          CustomsPaymentRequestSchema.payment_reference := None |});
    (sample_clock, Schedule {| InspectionScheduleRequestSchema.container_id := SAMPLE_ID;
                               InspectionScheduleRequestSchema.preferred_date := None |});
    (sample_clock, Complete SAMPLE_ID true);
    (sample_clock, Release SAMPLE_ID) ].

(** Tables with one row. *)
Definition single (c : @Container sample_runtime) : gmap string (@Container sample_runtime) :=
  {[ container_id c := c ]}.

(** The sample container with its duty assessed and not yet paid. *)
Definition assessed_container : @Container sample_runtime :=
  set_customs_status CustomsStatus.PAYMENT_REQUIRED
    (set_customs_duty_amount (Some 185000%Q) (sample_container SAMPLE_ID (Some 1850000))).

(** The sample container after payment and a passed inspection. *)
Definition inspected_container : @Container sample_runtime :=
  set_overall_status OverallStatus.INSPECTION_PASSED
    (set_inspection_status InspectionStatus.PASSED
       (set_customs_status CustomsStatus.PAID assessed_container)).

Definition pay_request (amount : Q) : CustomsPaymentRequestSchema.t :=
  {| CustomsPaymentRequestSchema.container_id := SAMPLE_ID;
     CustomsPaymentRequestSchema.amount := amount;
     CustomsPaymentRequestSchema.payment_reference := Some "TEST-PAY-12345" |}.

Definition validate_request (id : string) (force : bool) : ValidationRequestSchema.t :=
  {| ValidationRequestSchema.container_id := id;
     ValidationRequestSchema.force_revalidate := force |}.

Definition schedule_request : InspectionScheduleRequestSchema.t :=
  {| InspectionScheduleRequestSchema.container_id := SAMPLE_ID;
     InspectionScheduleRequestSchema.preferred_date := None |}.

(** The table at the end of the scenario, and a second scenario in which
    the inspection fails. *)
Definition released_db : gmap string (@Container sample_runtime) := run scenario ∅.

Definition failed_db : gmap string (@Container sample_runtime) :=
  run (take 5 scenario ++ [(sample_clock, Complete SAMPLE_ID false)]) ∅.

Definition row (db : gmap string (@Container sample_runtime)) (id : string)
    : option (@Container sample_runtime) :=
  db !! id.

Definition overall_status_of (db : gmap string (@Container sample_runtime)) (id : string)
    : option OverallStatus.t :=
  overall_status <$> row db id.

(** The sample data under another identifier. *)
Definition data_with_id (id : string) : ExtractedData :=
  {| d_container_id := Some id;
     d_original_filename := d_original_filename sample_data;
     d_vessel_name := d_vessel_name sample_data;
     d_importer_name := d_importer_name sample_data;
     d_importer_address := d_importer_address sample_data;
     d_tin := d_tin sample_data;
     d_port_of_loading := d_port_of_loading sample_data;
     d_port_of_discharge := d_port_of_discharge sample_data;
     d_cargo_description := d_cargo_description sample_data;
     d_cargo_weight := d_cargo_weight sample_data |}.

Definition validation_errors_of (db : gmap string (@Container sample_runtime)) (id : string)
    : option (list string) :=
  validation_errors <$> row db id.

End Samples.

(** * Further vocabulary for the engine *)

Section MoreDefinitions.

Context `{RT : Runtime}.

(** The identifier a request works on: the one it looks up, or for an
    upload the one found in the parsed document. *)
Definition addressed (call : Call) : option string :=
  match call with
  | Upload file_name file_content =>
      d_container_id (data (parse_bill_of_lading file_content file_name))
  | GetContainer id | CheckCustoms id | CheckShipping id | Complete id _ | Release id =>
      Some id
  | Validate payload => Some (ValidationRequestSchema.container_id payload)
  | Pay payload => Some (CustomsPaymentRequestSchema.container_id payload)
  | Schedule payload => Some (InspectionScheduleRequestSchema.container_id payload)
  end.

(** The fields that come from the document and from creation. *)
Definition same_document (c c' : Container) : Prop :=
  container_id c' = container_id c /\
  vessel_name c' = vessel_name c /\
  importer_name c' = importer_name c /\
  importer_address c' = importer_address c /\
  tin c' = tin c /\
  port_of_loading c' = port_of_loading c /\
  port_of_discharge c' = port_of_discharge c /\
  cargo_description c' = cargo_description c /\
  cargo_weight c' = cargo_weight c /\
  original_filename c' = original_filename c /\
  created_at c' = created_at c.

(** Every row is stored under its own [container_id]. *)
Definition keyed (db : gmap string Container) : Prop :=
  forall k c, db !! k = Some c -> container_id c = k.

(** What a request may do to an existing row: the document fields are kept,
    at most one log entry is appended after the existing ones, and an amount
    of duty that is set is kept. *)
Definition row_step (c c' : Container) : Prop :=
  same_document c c' /\
  (exists new, logs c' = logs c ++ new /\ (length new <= 1)%nat) /\
  (forall a, customs_duty_amount c = Some a -> customs_duty_amount c' = Some a).

(** The tables the engine can hold: what a sequence of requests builds
    from the empty table. *)
Definition reachable (db : gmap string Container) : Prop :=
  exists calls, run calls ∅ = db.

(** Every assessed amount of the table is different from zero. *)
Definition assessed_nonzero (db : gmap string Container) : Prop :=
  forall id c due,
    db !! id = Some c -> customs_duty_amount c = Some due -> ~ (due == 0)%Q.

End MoreDefinitions.

Section MoreSamples.

#[local] Existing Instance sample_runtime.

Definition empty_db : gmap string (@Container sample_runtime) := ∅.

(** Requests on the sample container that write nothing but the log. *)
Definition polling : list ((nat -> @datetime sample_runtime) * Call) :=
  [ (sample_clock, CheckShipping SAMPLE_ID);
    (sample_clock, GetContainer SAMPLE_ID);
    (sample_clock, CheckCustoms SAMPLE_ID) ].

(** Requests on another container. *)
Definition elsewhere : list ((nat -> @datetime sample_runtime) * Call) :=
  [ (sample_clock, Complete "MSCU7890123" true);
    (sample_clock, Release "MSCU7890123") ].

End MoreSamples.

(** * [core/utils.py]: the bill of lading parser

    The regular expressions are matched the way [re.search] does: at each
    start position from the left, with greedy items giving back and the lazy
    group growing, and the first match wins.  [extract_field] is modelled
    for labels made of letters and spaces, as all its call sites pass; the
    fullwidth colon of its pattern is not a code point below 256. *)

(** [\s] and [str.isspace] on code points below 256. *)
Definition is_space (c : ascii) : bool :=
  let n := code c in
  (((9 <=? n) && (n <=? 13)) || ((28 <=? n) && (n <=? 32)) || (n =? 133) || (n =? 160))%N.

(** [\w] on code points below 256. *)
Definition is_word (c : ascii) : bool :=
  let n := code c in
  (((48 <=? n) && (n <=? 57)) || ((65 <=? n) && (n <=? 90)) || (n =? 95)
   || ((97 <=? n) && (n <=? 122)) || (n =? 170) || (n =? 178) || (n =? 179) || (n =? 181)
   || (n =? 185) || (n =? 186) || ((188 <=? n) && (n <=? 190))
   || ((192 <=? n) && (n <=? 214)) || ((216 <=? n) && (n <=? 246)) || (248 <=? n))%N.

Definition newline : ascii := "010"%char.

(** [s[:n]] *)
Fixpoint slice_to (n : nat) (s : string) : string :=
  match n, s with
  | S n', String c r => String c (slice_to n' r)
  | _, _ => EmptyString
  end.

Fixpoint lstrip (s : string) : string :=
  match s with
  | String c r => if is_space c then lstrip r else s
  | EmptyString => EmptyString
  end.

Fixpoint rstrip (s : string) : string :=
  match s with
  | String c r =>
      match rstrip r with
      | EmptyString => if is_space c then EmptyString else String c EmptyString
      | r' => String c r'
      end
  | EmptyString => EmptyString
  end.

(** [s.strip()] *)
Definition strip (s : string) : string := rstrip (lstrip s).

(** [re.search]: the first position, from the left, where [m] matches;
    [m] sees the character before the position and the text from it on. *)
Fixpoint search {A : Type} (m : option ascii -> string -> option A) (prev : option ascii)
    (s : string) : option A :=
  match m prev s with
  | Some x => Some x
  | None =>
      match s with
      | String c r => search m (Some c) r
      | EmptyString => None
      end
  end.

(** [\b] between the character [prev] and the text [s]. *)
Definition boundary (prev : option ascii) (s : string) : bool :=
  xorb (match prev with Some c => is_word c | None => false end)
       (match s with String c _ => is_word c | EmptyString => false end).

(** [\b[A-Z]{4}\d{7}\b] at one position. *)
Definition match_id_here (prev : option ascii) (s : string) : option string :=
  if boundary prev s then
    match re_repeat is_upper_AZ 4 s with
    | Some r =>
        match re_repeat is_digit 7 r with
        | Some r' => if boundary (String.get 10 s) r' then Some (slice_to 11 s) else None
        | None => None
        end
    | None => None
    end
  else None.

Definition extract_container_id (text : string) : option string :=
  search match_id_here None text.

(** [\d{n}\b] at one position. *)
Definition match_digits_here (n : nat) (s : string) : option string :=
  match re_repeat is_digit n s with
  | Some r => if boundary (String.get (n - 1) s) r then Some (slice_to n s) else None
  | None => None
  end.

(** [\b\d{10,12}\b] at one position: the count goes from 12 down to 10. *)
Definition match_tin_here (prev : option ascii) (s : string) : option string :=
  if boundary prev s then
    match match_digits_here 12 s with
    | Some t => Some t
    | None =>
        match match_digits_here 11 s with
        | Some t => Some t
        | None => match_digits_here 10 s
        end
    end
  else None.

Definition extract_tin (text : string) : option string :=
  search match_tin_here None text.

(** The label under [re.IGNORECASE]: the rest of [s] after it. *)
Fixpoint match_label (label s : string) : option string :=
  match label with
  | EmptyString => Some s
  | String l label' =>
      match s with
      | String c r =>
          if Ascii.eqb (lower_char c) (lower_char l) then match_label label' r else None
      | EmptyString => None
      end
  end.

(** [\s*] followed by [k]: as many spaces as possible first, then fewer. *)
Fixpoint spaces_then {A : Type} (k : string -> option A) (s : string) : option A :=
  match s with
  | String c r =>
      if is_space c then
        match spaces_then k r with
        | Some x => Some x
        | None => k s
        end
      else k s
  | EmptyString => k s
  end.

(** [(.+?)] under [re.DOTALL] followed by a terminator: the shortest
    non-empty group after which [stop] holds. *)
Fixpoint lazy_group (stop : string -> bool) (group s : string) : option string :=
  match s with
  | String c r =>
      if stop r then Some (group +:+ String c EmptyString)
      else lazy_group stop (group +:+ String c EmptyString) r
  | EmptyString => None
  end.

(** [(?:\n|$)] and [(?:\n\n|$)] *)
Definition stop_line (r : string) : bool :=
  startswith r (String newline EmptyString) || re_end r.

Definition stop_paragraph (r : string) : bool :=
  startswith r (String newline (String newline EmptyString)) || re_end r.

(** [label\s*[:]\s*(.+?)(terminator)] at one position: group 1. *)
Definition match_field_here (label : string) (stop : string -> bool) (s : string)
    : option string :=
  match match_label label s with
  | Some r =>
      spaces_then
        (fun r1 =>
           match r1 with
           | String c r2 =>
               if Ascii.eqb c ":" then spaces_then (lazy_group stop EmptyString) r2
               else None
           | EmptyString => None
           end) r
  | None => None
  end.

Definition extract_field (text label : string) (multiline : bool) : option string :=
  match search (fun _ => match_field_here label
                           (if multiline then stop_paragraph else stop_line)) None text with
  | Some group => Some (strip group)
  | None => None
  end.

(** [\d+] followed by [k]: as many digits as possible first, then fewer;
    [k] gets the text matched so far and the rest. *)
Fixpoint digits_then {A : Type} (k : string -> string -> option A) (matched s : string)
    : option A :=
  match s with
  | String c r =>
      if is_digit c then
        match digits_then k (matched +:+ String c EmptyString) r with
        | Some x => Some x
        | None => k (matched +:+ String c EmptyString) r
        end
      else None
  | EmptyString => None
  end.

(** [(?:sep\d+)?] followed by [k]. *)
Definition optional_part {A : Type} (sep : ascii) (k : string -> string -> option A)
    (matched s : string) : option A :=
  match
    match s with
    | String c r =>
        if Ascii.eqb c sep then digits_then k (matched +:+ String sep EmptyString) r
        else None
    | EmptyString => None
    end
  with
  | Some x => Some x
  | None => k matched s
  end.

(** [(?:KG|kg|Kg|MT|mt|Mt)] *)
Definition weight_unit (s : string) : bool :=
  startswith s "KG" || startswith s "kg" || startswith s "Kg"
  || startswith s "MT" || startswith s "mt" || startswith s "Mt".

(** [(\d+(?:,\d+)?(?:\.\d+)?)\s*(?:KG|kg|Kg|MT|mt|Mt)] at one position:
    group 1. *)
Definition match_weight_here (s : string) : option string :=
  digits_then
    (optional_part ","
       (optional_part "."
          (fun matched r =>
             spaces_then (fun r' => if weight_unit r' then Some matched else None) r)))
    EmptyString s.

(** [s.replace(',', '')] *)
Fixpoint remove_commas (s : string) : string :=
  match s with
  | String c r => if Ascii.eqb c "," then remove_commas r else String c (remove_commas r)
  | EmptyString => EmptyString
  end.

(** The digits of [s] as a number, with the count of digits after the
    point: [(123456, 3)] for ["123.456"]. *)
Fixpoint read_decimal (value : N) (after_point : option nat) (s : string) : N * nat :=
  match s with
  | String c r =>
      if is_digit c then
        read_decimal (10 * value + (code c - 48))%N (option_map S after_point) r
      else read_decimal value (Some O) r
  | EmptyString => (value, default O after_point)
  end.

(** [float(s)] for digits with an optional fraction: the decimal value
    rounded once, to nearest even. *)
Definition float_of_decimal_string (s : string) : spec_float :=
  let '(value, places) := read_decimal 0 None s in
  match value with
  | N0 => S754_zero false
  | Npos p =>
      SFdiv prec emax (S754_finite false p 0)
        (S754_finite false (Z.to_pos (10 ^ Z.of_nat places)) 0)
  end.

(** [re.search] of the weight pattern: group 1. *)
Definition match_weight (text : string) : option string :=
  search (fun _ => match_weight_here) None text.

(** What the parser takes from the PDF library and from Python. *)
Class PdfLibrary := {
  (** the text of each page of the document that [fitz] opens from the
      bytes, or the text of the exception it raises *)
  page_texts : string -> list string + string;
  (** the built-in [hash] on strings *)
  str_hash : string -> Z
}.

(** The seven digits of [format(n, '07d')] for [0 <= n < 10 ** 7]. *)
Definition digit_char (n : Z) : ascii := ascii_of_N (Z.to_N (48 + n mod 10)).

Definition format_07d (n : Z) : string :=
  String (digit_char (n / 1000000))
    (String (digit_char (n / 100000))
       (String (digit_char (n / 10000))
          (String (digit_char (n / 1000))
             (String (digit_char (n / 100))
                (String (digit_char (n / 10)) (String (digit_char n) EmptyString)))))).

(** [a or b or c]: the first truthy value, else the last one. *)
Fixpoint first_truthy (values : list (option string)) : option string :=
  match values with
  | [] => None
  | [v] => v
  | v :: rest => if truthy v then v else first_truthy rest
  end.

(** [if value: data[key] = value[:n]] as the entry of [key]. *)
Definition stored (n : nat) (value : option string) : option string :=
  match value with
  | Some (String _ _ as v) => Some (slice_to n v)
  | _ => None
  end.

(** [if value: data[key] = value] *)
Definition stored_whole (value : option string) : option string :=
  match value with
  | Some (String _ _ as v) => Some v
  | _ => None
  end.

(** The empty [data] dictionary. *)
Definition no_data : ExtractedData :=
  {| d_container_id := None; d_original_filename := None; d_vessel_name := None;
     d_importer_name := None; d_importer_address := None; d_tin := None;
     d_port_of_loading := None; d_port_of_discharge := None;
     d_cargo_description := None; d_cargo_weight := None |}.

Definition ERR_UNREADABLE : string := "Document appears to be empty or unreadable".
Definition ERR_NO_CONTAINER_ID : string := "Container ID not found in document".

Module BillOfLadingParser.

Section Parser.

Context `{PL : PdfLibrary}.

(** The page texts concatenated; an exception of the library becomes a
    [ValueError] with the text returned on the right. *)
Definition extract_text_from_pdf (file_content : string) : string + string :=
  match page_texts file_content with
  | inl pages => inl (foldl (fun text page => text +:+ page) EmptyString pages)
  | inr exn => inr ("Failed to parse PDF: " +:+ exn)
  end.

Definition parse_bill_of_lading (file_content filename : string) : ParseResult :=
  match extract_text_from_pdf file_content with
  | inr exn =>
      {| success := false; errors := ["Parsing error: " +:+ exn]; data := no_data |}
  | inl text =>
      if negb (truthy (Some text)) || (String.length (strip text) <? 50)%nat then
        {| success := false; errors := [ERR_UNREADABLE]; data := no_data |}
      else
        let '(errors, container_id) :=
          match extract_container_id text with
          | Some (String _ _ as container_id) => ([], container_id)
          | _ =>
              ([ERR_NO_CONTAINER_ID],
               "DEMO" +:+ format_07d (str_hash (slice_to 100 text) mod 10000000))
          end in
        let vessel_name :=
          first_truthy [extract_field text "Vessel Name" false;
                        extract_field text "Vessel" false;
                        extract_field text "Ship Name" false] in
        let importer_name :=
          first_truthy [extract_field text "Consignee" false;
                        extract_field text "Importer" false;
                        extract_field text "Notify Party" false] in
        let importer_address :=
          first_truthy [extract_field text "Consignee Address" true;
                        extract_field text "Importer Address" true] in
        let tin := extract_tin text in
        let port_of_loading :=
          first_truthy [extract_field text "Port of Loading" false;
                        extract_field text "POL" false;
                        extract_field text "Loading Port" false] in
        let port_of_discharge :=
          first_truthy [extract_field text "Port of Discharge" false;
                        extract_field text "POD" false;
                        extract_field text "Discharge Port" false] in
        let cargo_description :=
          first_truthy [extract_field text "Description of Goods" true;
                        extract_field text "Cargo Description" true;
                        extract_field text "Goods Description" true] in
        let cargo_weight :=
          match match_weight text with
          | Some group => Some (float_of_decimal_string (remove_commas group))
          | None => None
          end in
        {| success := true;
           errors := errors;
           data :=
             {| d_container_id := Some container_id;
                d_original_filename := Some filename;
                d_vessel_name := stored 120 vessel_name;
                d_importer_name := stored 200 importer_name;
                d_importer_address := stored 500 importer_address;
                d_tin := stored_whole tin;
                d_port_of_loading := stored 100 port_of_loading;
                d_port_of_discharge := stored 100 port_of_discharge;
                d_cargo_description := stored 1000 cargo_description;
                d_cargo_weight := cargo_weight |} |}
  end.

End Parser.

End BillOfLadingParser.

(** A runtime whose parser is the one above. *)
Definition with_parser (RT : Runtime) (PL : PdfLibrary) : Runtime :=
  {| datetime := @datetime RT;
     isoformat := @isoformat RT;
     strftime := @strftime RT;
     next_day_at_10 := @next_day_at_10 RT;
     format_naira := @format_naira RT;
     parse_bill_of_lading := BillOfLadingParser.parse_bill_of_lading;
     weight_column := @weight_column RT |}.

(** ** Vocabulary for the properties of the parser *)

(** The last character of [pre], or [prev] when [pre] is empty. *)
Fixpoint char_before (prev : option ascii) (pre : string) : option ascii :=
  match pre with
  | EmptyString => prev
  | String c r => char_before (Some c) r
  end.

(** A word character stands right before, or right after, a position. *)
Definition word_char (prev : option ascii) : bool :=
  match prev with Some c => is_word c | None => false end.

Definition word_before (pre : string) : bool := word_char (char_before None pre).

Definition word_after (post : string) : bool :=
  match post with String c _ => is_word c | EmptyString => false end.

(** [all(p(c) for c in s)] *)
Fixpoint all_chars (p : ascii -> bool) (s : string) : bool :=
  match s with
  | String c r => p c && all_chars p r
  | EmptyString => true
  end.

(** Four capital letters and seven digits, and nothing more. *)
Definition container_id_shape (id : string) : bool :=
  match re_repeat is_upper_AZ 4 id with
  | Some r =>
      match re_repeat is_digit 7 r with
      | Some EmptyString => true
      | _ => false
      end
  | None => false
  end.

(** Ten to twelve digits, and nothing more. *)
Definition tin_shape (t : string) : bool :=
  all_chars is_digit t && (10 <=? String.length t)%nat && (String.length t <=? 12)%nat.

(** [word] stands in [text] between [pre] and [post] as a whole word. *)
Definition whole_word_at (text pre word post : string) : Prop :=
  text = pre +:+ word +:+ post /\ word_before pre = false /\ word_after post = false.

(** [v] is a piece of [text]. *)
Definition occurs_in (v text : string) : Prop :=
  exists pre post, text = pre +:+ v +:+ post.

Definition not_newline (c : ascii) : bool := negb (Ascii.eqb c newline).

(** No two line breaks in a row. *)
Fixpoint no_blank_line (s : string) : bool :=
  match s with
  | String a (String b _ as r) =>
      negb (Ascii.eqb a newline && Ascii.eqb b newline) && no_blank_line r
  | _ => true
  end.

(** [max_length] of the [CharField] columns of [Container] that the parser
    fills ([core/models.py]). *)
Definition max_length_container_id : nat := 20.
Definition max_length_vessel_name : nat := 120.
Definition max_length_importer_name : nat := 200.
Definition max_length_tin : nat := 50.
Definition max_length_port_of_loading : nat := 100.
Definition max_length_port_of_discharge : nat := 100.

(** An optional value has at most [max_length] characters. *)
Definition fits (max_length : nat) (value : option string) : bool :=
  match value with
  | Some v => (String.length v <=? max_length)%nat
  | None => true
  end.

(** A PDF library for the worked instances: two documents, and an
    exception for every other content. *)
Definition SAMPLE_PDF : string := "%PDF-1.7 sample bill of lading".

Definition sample_page_1 : string :=
  "BILL OF LADING" +:+ String newline
  ("Container No: MSKU1234567" +:+ String newline
  ("Vessel Name: MV Lagos Star" +:+ String newline
  ("Consignee: Acme Imports Ltd" +:+ String newline EmptyString))).

Definition sample_page_2 : string :=
  "TIN: 1234567890" +:+ String newline
  ("Port of Loading: Shanghai" +:+ String newline
  ("Gross Weight: 18,500.50 KG" +:+ String newline EmptyString)).

(** A second document, whose weight is a numeral of 400 digits. *)
Definition HEAVY_PDF : string := "%PDF-1.7 heavy cargo".

Fixpoint repeat_char (c : ascii) (n : nat) : string :=
  match n with
  | O => EmptyString
  | S n' => String c (repeat_char c n')
  end.

Definition heavy_page : string :=
  "Container No: TGHU7654321" +:+ String newline
  ("Vessel Name: MV Atlas" +:+ String newline
  ("Consignee: Deep Sea Freight" +:+ String newline
  ("Gross Weight: " +:+ repeat_char "9" 400 +:+ " KG" +:+ String newline EmptyString))).

(** Two more documents, of one page each: a cargo of weight 0.00 and a
    cargo of weight 1.10. *)
Definition ZERO_PDF : string := "%PDF-1.7 zero weight".
Definition LIGHT_PDF : string := "%PDF-1.7 light cargo".
Definition ZERO_ID : string := "MSCU0000000".
Definition LIGHT_ID : string := "MSCU0000110".

Definition bill_page (id weight : string) : string :=
  "BILL OF LADING" +:+ String newline
  ("Container No: " +:+ id +:+ String newline
  ("Vessel Name: MV Lagos Star" +:+ String newline
  ("Consignee: Acme Imports Ltd" +:+ String newline
  ("Gross Weight: " +:+ weight +:+ " KG" +:+ String newline EmptyString)))).

Definition sample_pdf : PdfLibrary :=
  {| page_texts := fun file_content =>
       if String.eqb file_content SAMPLE_PDF then inl [sample_page_1; sample_page_2]
       else if String.eqb file_content HEAVY_PDF then inl [heavy_page]
       else if String.eqb file_content ZERO_PDF then inl [bill_page ZERO_ID "0.00"]
       else if String.eqb file_content LIGHT_PDF then inl [bill_page LIGHT_ID "1.10"]
       else inr "cannot open broken document";
     str_hash := fun s => Z.of_nat (String.length s) * 2654435761 - 7 |}.

(** The sample runtime with the parser of [core/utils.py] in place, and its
    empty table. *)
Definition parser_runtime : Runtime := with_parser sample_runtime sample_pdf.

Definition parser_db : gmap string (@Container parser_runtime) := ∅.

Definition parser_row (db : gmap string (@Container parser_runtime)) (id : string)
    : option (@Container parser_runtime) := db !! id.

Definition sample_text : string := sample_page_1 +:+ sample_page_2.

(** The tables after the upload of the documents of weight 0.00 and 1.10,
    and the customs answers as far as the examples look at them. *)
Definition zero_weight_db : gmap string (@Container parser_runtime) :=
  run (RT := parser_runtime) [(sample_clock, Upload "zero.pdf" ZERO_PDF)] parser_db.







(** * Properties of the clearance engine *)

Section Properties.

Context `{RT : Runtime}.

Implicit Types (db : gmap string Container) (c : Container) (now : nat -> datetime).

(** ** Enumerations and decimals *)

Lemma CustomsStatus_eqb_eq (a b : CustomsStatus.t) : CustomsStatus.eqb a b = true <-> a = b.
Proof. destruct a, b; simpl; split; intros E; try reflexivity; discriminate E. Qed.

Lemma CustomsStatus_eqb_neq (a b : CustomsStatus.t) : CustomsStatus.eqb a b = false <-> a <> b.
Proof.
  rewrite <- CustomsStatus_eqb_eq. destruct (CustomsStatus.eqb a b); split; intros E;
    try reflexivity; try discriminate E; try (intros E'; discriminate E').
  exfalso. apply E. reflexivity.
Qed.

Lemma InspectionStatus_eqb_eq (a b : InspectionStatus.t) :
  InspectionStatus.eqb a b = true <-> a = b.
Proof. destruct a, b; simpl; split; intros E; try reflexivity; discriminate E. Qed.

Lemma InspectionStatus_eqb_neq (a b : InspectionStatus.t) :
  InspectionStatus.eqb a b = false <-> a <> b.
Proof.
  rewrite <- InspectionStatus_eqb_eq. destruct (InspectionStatus.eqb a b); split; intros E;
    try reflexivity; try discriminate E; try (intros E'; discriminate E').
  exfalso. apply E. reflexivity.
Qed.

Lemma Decimal_lt_spec (a b : Q) : Decimal_lt a b = true <-> (a < b)%Q.
Proof.
  unfold Decimal_lt. rewrite negb_true_iff. split.
  - intros E. apply Qnot_le_lt. intros L. apply Qle_bool_iff in L. congruence.
  - intros L. destruct (Qle_bool b a) eqn:E; [| reflexivity].
    apply Qle_bool_iff in E. exfalso. exact (Qlt_not_le _ _ L E).
Qed.

Lemma Decimal_lt_false (a b : Q) : Decimal_lt a b = false <-> (b <= a)%Q.
Proof.
  unfold Decimal_lt. rewrite negb_false_iff. apply Qle_bool_iff.
Qed.

Lemma Decimal_bool_spec (d : Q) : Decimal_bool d = false <-> (d == 0)%Q.
Proof. unfold Decimal_bool. rewrite negb_false_iff. apply Qeq_bool_iff. Qed.

Lemma Decimal_bool_true (d : Q) : Decimal_bool d = true <-> ~ (d == 0)%Q.
Proof.
  rewrite <- Decimal_bool_spec. destruct (Decimal_bool d); split; intros E;
    try reflexivity; try discriminate E; try (intros E'; discriminate E').
  exfalso. apply E. reflexivity.
Qed.

(** ** ReleaseContainer *)

(** C7. ReleaseContainer on an existing container is refused with
    "Inspection not passed" and leaves the table as it is unless
    [inspection_status] is [PASSED]; when it is [PASSED] the call is accepted,
    the row gets [overall_status = RELEASED] and
    [shipping_status = READY_FOR_PICKUP], its other status and customs fields
    are kept, and one [container_released] entry by actor [agent] is appended
    to its log. *)
Theorem release_container_guard now id db c :
  db !! id = Some c ->
  (inspection_status c <> InspectionStatus.PASSED ->
     release_container now id db =
       (Error 400 {| ErrorSchema.error := "Inspection not passed";
                     ErrorSchema.details :=
                       Some "Container must pass inspection before release" |}, db)) /\
  (inspection_status c = InspectionStatus.PASSED ->
     exists c',
       (release_container now id db).2 = <[id := c']> db /\
       outcome (release_container now id db).1 = Accepted /\
       overall_status c' = OverallStatus.RELEASED /\
       shipping_status c' = ShippingStatus.READY_FOR_PICKUP /\
       inspection_status c' = InspectionStatus.PASSED /\
       customs_status c' = customs_status c /\
       customs_duty_amount c' = customs_duty_amount c /\
       logs c' = logs c ++ [ {| timestamp := isoformat (now 0%nat); actor := "agent";
                                action := "container_released";
                                details := "Container cleared and released for pickup" |} ]).
Proof.
  intros Hc. unfold release_container. rewrite Hc. split.
  - intros Hne. apply InspectionStatus_eqb_neq in Hne. rewrite Hne. reflexivity.
  - intros He. rewrite He. simpl. eexists. split; [reflexivity |].
    simpl. rewrite He. repeat split; reflexivity.
Qed.

(** ** One request, seen from one row *)

(** Every request keeps every row; a row that is [PAID] stays [PAID]; and
    [overall_status] is either kept or assigned by an accepted writer. *)
Lemma exec_row now call db id c :
  db !! id = Some c ->
  exists c',
    (exec now call db).2 !! id = Some c' /\
    (customs_status c = CustomsStatus.PAID -> customs_status c' = CustomsStatus.PAID) /\
    (overall_status c' = overall_status c \/
     ((exec now call db).1 = Accepted /\ writes call = Some (id, overall_status c'))).
Proof.
  intros Hc. destruct call as [fn fc | i | p | i | p | i | p | i passed | i]; simpl.
  - (* Upload *)
    unfold upload_bill_of_lading.
    destruct (negb (endswith (lower fn) ".pdf")); [simpl; eauto |].
    destruct (negb (success (parse_bill_of_lading fc fn))); [simpl; eauto |].
    destruct (d_container_id (data (parse_bill_of_lading fc fn))) as [i |]; [| simpl; eauto].
    destruct (db !! i) as [existing |] eqn:Hi; [simpl; eauto |].
    destruct (d_cargo_weight (data (parse_bill_of_lading fc fn))) as [w |];
      [destruct (weight_column w) |]; simpl; eauto.
    all: exists c; rewrite lookup_insert_ne by congruence; eauto.
  - (* GetContainer *)
    unfold get_container_status. destruct (db !! i); simpl; eauto.
  - (* Validate *)
    unfold validate_container. destruct p as [i force]; simpl.
    destruct (db !! i) as [ci |] eqn:Hi; [| simpl; eauto].
    destruct (force || negb (document_validated ci)); [| simpl; eauto].
    destruct (decide (i = id)) as [-> |].
    + rewrite Hc in Hi. injection Hi as <-. simpl. rewrite lookup_insert_eq.
      eexists. split; [reflexivity |]. simpl.
      destruct (no_errors _); simpl; eauto.
    + simpl. rewrite lookup_insert_ne by assumption. eauto.
  - (* CheckCustoms *)
    unfold check_customs_status.
    destruct (db !! i) as [ci |] eqn:Hi; [| simpl; eauto].
    destruct (customs_duty_amount ci); [simpl; eauto |].
    destruct (match cargo_weight ci with
              | Some cents => if cents =? 0 then Some FLAT_DUTY else duty_of_weight cents
              | None => Some FLAT_DUTY
              end) as [amount |]; [| simpl; eauto].
    destruct (duty_column amount) as [held |]; [| simpl; eauto].
    simpl. destruct (decide (i = id)) as [-> |].
    + rewrite Hc in Hi. injection Hi as <-. rewrite lookup_insert_eq.
      eexists. split; [reflexivity |].
      destruct (customs_status c) eqn:Hs; simpl; rewrite ?Hs;
        (split; [intros E; try discriminate E |]); auto.
    + rewrite lookup_insert_ne by assumption. eauto.
  - (* Pay *)
    unfold pay_customs_duty. destruct p as [i amount ref]; simpl.
    destruct (db !! i) as [ci |] eqn:Hi; [| simpl; eauto].
    destruct (CustomsStatus.eqb (customs_status ci) CustomsStatus.PAID); [simpl; eauto |].
    destruct (match customs_duty_amount ci with
              | Some due => Decimal_bool due && Decimal_lt amount due
              | None => false
              end); [simpl; eauto |].
    destruct ref as [[| a r] |]; simpl.
    all: destruct (decide (i = id)) as [-> |];
      [ rewrite Hc in Hi; injection Hi as <-; rewrite lookup_insert_eq;
        eexists; split; [reflexivity |]; simpl; auto
      | rewrite lookup_insert_ne by assumption; eauto ].
  - (* CheckShipping *)
    unfold check_shipping_status.
    destruct (db !! i) as [ci |] eqn:Hi; [| simpl; eauto].
    simpl. destruct (decide (i = id)) as [-> |].
    + rewrite Hc in Hi. injection Hi as <-. rewrite lookup_insert_eq.
      eexists. split; [reflexivity |]. simpl. auto.
    + rewrite lookup_insert_ne by assumption. eauto.
  - (* Schedule *)
    unfold schedule_inspection. destruct p as [i pref]; simpl.
    destruct (db !! i) as [ci |] eqn:Hi; [| simpl; eauto].
    destruct (CustomsStatus.eqb (customs_status ci) CustomsStatus.PAID) eqn:Hpaid;
      [| simpl; eauto].
    destruct (InspectionStatus.eqb (inspection_status ci) InspectionStatus.SCHEDULED);
      [simpl; eauto |].
    simpl. destruct (decide (i = id)) as [-> |].
    + rewrite Hc in Hi. injection Hi as <-. rewrite lookup_insert_eq.
      eexists. split; [reflexivity |]. simpl. auto.
    + rewrite lookup_insert_ne by assumption. eauto.
  - (* Complete *)
    unfold complete_inspection.
    destruct (db !! i) as [ci |] eqn:Hi; [| simpl; eauto].
    simpl. destruct (decide (i = id)) as [-> |].
    + rewrite Hc in Hi. injection Hi as <-. rewrite lookup_insert_eq.
      eexists. split; [reflexivity |]. destruct passed; simpl; auto.
    + rewrite lookup_insert_ne by assumption. eauto.
  - (* Release *)
    unfold release_container.
    destruct (db !! i) as [ci |] eqn:Hi; [| simpl; eauto].
    destruct (negb (InspectionStatus.eqb (inspection_status ci) InspectionStatus.PASSED));
      [simpl; eauto |].
    simpl. destruct (decide (i = id)) as [-> |].
    + rewrite Hc in Hi. injection Hi as <-. rewrite lookup_insert_eq.
      eexists. split; [reflexivity |]. simpl. auto.
    + rewrite lookup_insert_ne by assumption. eauto.
Qed.

(** A row that is [PAID] is [PAID] after any run. *)
Lemma run_keeps_paid calls db id c :
  db !! id = Some c ->
  customs_status c = CustomsStatus.PAID ->
  exists c', run calls db !! id = Some c' /\ customs_status c' = CustomsStatus.PAID.
Proof.
  revert db c. induction calls as [| [now call] rest IH]; intros db c Hc Hpaid; simpl.
  - eauto.
  - destruct (exec_row now call db id c Hc) as (c1 & H1 & Hkeep & _).
    apply (IH _ c1 H1). auto.
Qed.

(** A run without a writer on [id] keeps the [overall_status] of [id]. *)
Lemma run_keeps_overall_status calls db id c :
  db !! id = Some c ->
  (forall now call s, In (now, call) calls -> writes call <> Some (id, s)) ->
  exists c', run calls db !! id = Some c' /\ overall_status c' = overall_status c.
Proof.
  revert db c. induction calls as [| [now call] rest IH]; intros db c Hc Hnow; simpl.
  - eauto.
  - destruct (exec_row now call db id c Hc) as (c1 & H1 & _ & [Hsame | [_ Hw]]).
    + destruct (IH _ c1 H1) as (c' & H' & E).
      * intros now' call' s Hin. apply (Hnow now' call' s). right. exact Hin.
      * exists c'. split; [exact H' | congruence].
    + exfalso. apply (Hnow now call (overall_status c1)); [left; reflexivity | exact Hw].
Qed.

(** ** Overall status *)

(** C1 (amended). No request deletes a row.  The [overall_status] of a
    container changes only through an accepted ValidateContainer,
    PayCustomsDuty, ScheduleInspection, CompleteInspection or ReleaseContainer
    on that container, which assign [VALIDATED], [CUSTOMS_CLEARED],
    [PENDING_INSPECTION], [INSPECTION_PASSED] or [FAILED], and [RELEASED]
    whatever the previous value was; every other request and every refused
    request keeps it, so along a run without such a request on the container
    an [overall_status] of [FAILED] or [RELEASED] (like any other) is kept. *)
Theorem overall_status_changes_only_by_writers db id c :
  db !! id = Some c ->
  (forall now call,
     exists c',
       (exec now call db).2 !! id = Some c' /\
       (overall_status c' = overall_status c \/
        ((exec now call db).1 = Accepted /\ writes call = Some (id, overall_status c')))) /\
  (forall calls,
     (forall now call s, In (now, call) calls -> writes call <> Some (id, s)) ->
     exists c', run calls db !! id = Some c' /\ overall_status c' = overall_status c).
Proof.
  intros Hc. split.
  - intros now call. destruct (exec_row now call db id c Hc) as (c' & H' & _ & Hs).
    exists c'. split; assumption.
  - intros calls Hnow. exact (run_keeps_overall_status calls db id c Hc Hnow).
Qed.

(** ** PayCustomsDuty *)

Lemma pay_already_paid now payload db c :
  db !! CustomsPaymentRequestSchema.container_id payload = Some c ->
  customs_status c = CustomsStatus.PAID ->
  pay_customs_duty now payload db =
    (Error 400 {| ErrorSchema.error := "Already paid";
                  ErrorSchema.details := Some "Customs duty has already been paid" |}, db).
Proof.
  intros Hc Hpaid. unfold pay_customs_duty. rewrite Hc, Hpaid. reflexivity.
Qed.

(** What an accepted payment does to the row. *)
Lemma pay_accepted now payload db c :
  db !! CustomsPaymentRequestSchema.container_id payload = Some c ->
  customs_status c <> CustomsStatus.PAID ->
  match customs_duty_amount c with
  | Some due => Decimal_bool due && Decimal_lt (CustomsPaymentRequestSchema.amount payload) due
  | None => false
  end = false ->
  exists c',
    (pay_customs_duty now payload db).2 =
      <[CustomsPaymentRequestSchema.container_id payload := c']> db /\
    outcome (pay_customs_duty now payload db).1 = Accepted /\
    customs_status c' = CustomsStatus.PAID /\
    overall_status c' = OverallStatus.CUSTOMS_CLEARED /\
    customs_paid_at c' = Some (now 0%nat) /\
    customs_duty_amount c' = customs_duty_amount c /\
    exists entry,
      logs c' = logs c ++ [entry] /\ actor entry = "agent" /\
      action entry = "customs_payment".
Proof.
  intros Hc Hne Hguard. unfold pay_customs_duty. rewrite Hc.
  apply CustomsStatus_eqb_neq in Hne. rewrite Hne, Hguard.
  destruct (CustomsPaymentRequestSchema.payment_reference payload) as [[| a r] |]; simpl;
    (eexists; split; [reflexivity |]; simpl; repeat split; eauto).
Qed.

(** The guard on a row whose assessed amount is not zero: a payment below
    the amount is refused and writes nothing, a payment of the amount or
    more is accepted, and every later payment is refused. *)
Lemma pay_customs_duty_guard_nonzero now payload db c due :
  db !! CustomsPaymentRequestSchema.container_id payload = Some c ->
  customs_status c <> CustomsStatus.PAID ->
  customs_duty_amount c = Some due ->
  ~ (due == 0)%Q ->
  ((CustomsPaymentRequestSchema.amount payload < due)%Q ->
     pay_customs_duty now payload db =
       (Error 400 {| ErrorSchema.error := "Insufficient payment";
                     ErrorSchema.details := Some ("Amount due: " +:+ format_naira due) |},
        db)) /\
  ((due <= CustomsPaymentRequestSchema.amount payload)%Q ->
     exists c',
       (pay_customs_duty now payload db).2 =
         <[CustomsPaymentRequestSchema.container_id payload := c']> db /\
       outcome (pay_customs_duty now payload db).1 = Accepted /\
       customs_status c' = CustomsStatus.PAID /\
       forall calls now' payload',
         CustomsPaymentRequestSchema.container_id payload' =
           CustomsPaymentRequestSchema.container_id payload ->
         pay_customs_duty now' payload' (run calls (pay_customs_duty now payload db).2) =
           (Error 400 {| ErrorSchema.error := "Already paid";
                         ErrorSchema.details := Some "Customs duty has already been paid" |},
            run calls (pay_customs_duty now payload db).2)).
Proof.
  intros Hc Hne Hdue Hnz. apply Decimal_bool_true in Hnz. split.
  - intros Hlt. apply Decimal_lt_spec in Hlt.
    unfold pay_customs_duty. rewrite Hc.
    apply CustomsStatus_eqb_neq in Hne. rewrite Hne, Hdue, Hnz, Hlt. reflexivity.
  - intros Hge. apply Decimal_lt_false in Hge.
    destruct (pay_accepted now payload db c Hc Hne) as (c' & Hdb & Hok & Hpaid & _).
    { rewrite Hdue, Hnz, Hge. reflexivity. }
    exists c'. repeat split; try assumption.
    intros calls now' payload' Hid. rewrite Hdb.
    destruct (run_keeps_paid calls
                (<[CustomsPaymentRequestSchema.container_id payload := c']> db)
                (CustomsPaymentRequestSchema.container_id payload) c') as (c'' & H'' & Hp'').
    { apply lookup_insert_eq. }
    { exact Hpaid. }
    apply (pay_already_paid now' payload' _ c''); [rewrite Hid; exact H'' | exact Hp''].
Qed.

(** C9. PayCustomsDuty does not need an assessment: on a container whose
    [customs_status] is not [PAID] and whose [customs_duty_amount] is unset,
    or set to zero, every amount is accepted; the call sets
    [customs_status = PAID] and [overall_status = CUSTOMS_CLEARED] and leaves
    the amount as it was. *)
Theorem pay_customs_duty_unassessed now payload db c :
  db !! CustomsPaymentRequestSchema.container_id payload = Some c ->
  customs_status c <> CustomsStatus.PAID ->
  (customs_duty_amount c = None \/
   exists due, customs_duty_amount c = Some due /\ (due == 0)%Q) ->
  exists c',
    (pay_customs_duty now payload db).2 =
      <[CustomsPaymentRequestSchema.container_id payload := c']> db /\
    outcome (pay_customs_duty now payload db).1 = Accepted /\
    customs_status c' = CustomsStatus.PAID /\
    overall_status c' = OverallStatus.CUSTOMS_CLEARED /\
    customs_duty_amount c' = customs_duty_amount c.
Proof.
  intros Hc Hne Hdue.
  destruct (pay_accepted now payload db c Hc Hne) as (c' & Hdb & Hok & Hpaid & Hov & _ & Ha & _).
  { destruct Hdue as [-> | (due & -> & Hz)]; [reflexivity |].
    apply Decimal_bool_spec in Hz. rewrite Hz. reflexivity. }
  exists c'. repeat split; assumption.
Qed.

(** ** CheckCustomsStatus *)



(** ** ValidateContainer *)

(** The dictionary that [validate_container] hands to the rules. *)
Lemma validate_container_runs now payload db c :
  db !! ValidationRequestSchema.container_id payload = Some c ->
  ValidationRequestSchema.force_revalidate payload = true \/ document_validated c = false ->
  exists c' entry,
    (validate_container now payload db).2 =
      <[ValidationRequestSchema.container_id payload := c']> db /\
    validation_errors c' =
      validate_container_data
        {| d_container_id := Some (container_id c);
           d_vessel_name := vessel_name c;
           d_importer_name := importer_name c;
           d_tin := tin c;
           d_original_filename := None; d_importer_address := None;
           d_port_of_loading := None; d_port_of_discharge := None;
           d_cargo_description := None; d_cargo_weight := None |} /\
    document_validated c' = no_errors (validation_errors c') /\
    overall_status c' =
      (if document_validated c' then OverallStatus.VALIDATED else overall_status c) /\
    logs c' = logs c ++ [entry] /\
    timestamp entry = isoformat (now 0%nat) /\
    actor entry = "agent" /\
    action entry = (if document_validated c' then "validation" else "validation_failed").
Proof.
  intros Hc Hrun. unfold validate_container. rewrite Hc.
  assert (ValidationRequestSchema.force_revalidate payload || negb (document_validated c)
          = true) as ->.
  { destruct Hrun as [-> | ->]; [reflexivity | apply orb_true_r]. }
  cbv zeta.
  set (errs := validate_container_data _).
  assert (forall x, document_validated (set_document_validated (no_errors errs) x)
                    = no_errors errs) as Hdv by reflexivity.
  rewrite Hdv.
  destruct (no_errors errs) eqn:Hno; do 2 eexists; (split; [reflexivity |]); simpl;
    rewrite Hno; repeat split; reflexivity.
Qed.

(** C6. ValidateContainer is a pure read when [force_revalidate] is false
    and [document_validated] is true: it answers the stored validation state
    and leaves the table, log included, as it is.  In the other cases, and
    only in them, validation runs: the errors are recomputed and one log
    entry by actor [agent] is appended. *)
Theorem validate_container_read_guard now payload db c :
  db !! ValidationRequestSchema.container_id payload = Some c ->
  (ValidationRequestSchema.force_revalidate payload = false ->
   document_validated c = true ->
     validate_container now payload db =
       (Ok {| ValidationResponseSchema.container_id := container_id c;
              ValidationResponseSchema.is_valid := true;
              ValidationResponseSchema.errors := validation_errors c;
              ValidationResponseSchema.message := "Validation successful" |}, db)) /\
  (ValidationRequestSchema.force_revalidate payload = true \/ document_validated c = false ->
     exists c' entry,
       (validate_container now payload db).2 =
         <[ValidationRequestSchema.container_id payload := c']> db /\
       logs c' = logs c ++ [entry] /\ actor entry = "agent" /\
       (action entry = "validation" \/ action entry = "validation_failed")).
Proof.
  intros Hc. split.
  - intros Hforce Hvalid. unfold validate_container. rewrite Hc, Hforce, Hvalid. simpl.
    rewrite Hvalid. reflexivity.
  - intros Hrun.
    destruct (validate_container_runs now payload db c Hc Hrun)
      as (c' & entry & Hdb & _ & _ & _ & Hlog & _ & Hactor & Haction).
    exists c', entry. repeat split; try assumption.
    rewrite Haction. destruct (document_validated c'); [left | right]; reflexivity.
Qed.

(** ** ScheduleInspection *)

(** C10. With [customs_status = PAID], ScheduleInspection is refused with
    "Already scheduled" exactly when [inspection_status] is [SCHEDULED]; in
    every other inspection state ([NOT_SCHEDULED], [IN_PROGRESS], and also
    [PASSED] and [FAILED], that is after completion) it is accepted and sets
    [inspection_status = SCHEDULED] and [overall_status = PENDING_INSPECTION]. *)
Theorem schedule_inspection_reschedulable now payload db c :
  db !! InspectionScheduleRequestSchema.container_id payload = Some c ->
  customs_status c = CustomsStatus.PAID ->
  (inspection_status c <> InspectionStatus.SCHEDULED ->
     exists c',
       (schedule_inspection now payload db).2 =
         <[InspectionScheduleRequestSchema.container_id payload := c']> db /\
       outcome (schedule_inspection now payload db).1 = Accepted /\
       inspection_status c' = InspectionStatus.SCHEDULED /\
       overall_status c' = OverallStatus.PENDING_INSPECTION) /\
  (inspection_status c = InspectionStatus.SCHEDULED ->
     schedule_inspection now payload db =
       (Error 400 {| ErrorSchema.error := "Already scheduled";
                     ErrorSchema.details := Some "Inspection is already scheduled" |}, db)) /\
  (outcome (schedule_inspection now payload db).1 = Rejected 400 "Already scheduled" ->
     inspection_status c = InspectionStatus.SCHEDULED).
Proof.
  intros Hc Hpaid. unfold schedule_inspection. rewrite Hc, Hpaid. simpl.
  split; [| split].
  - intros Hne. apply InspectionStatus_eqb_neq in Hne. rewrite Hne. simpl.
    eexists. repeat split; reflexivity.
  - intros He. rewrite He. reflexivity.
  - destruct (InspectionStatus.eqb (inspection_status c) InspectionStatus.SCHEDULED) eqn:E.
    + intros _. apply InspectionStatus_eqb_eq. exact E.
    + simpl. intros H. discriminate H.
Qed.

(** ** CreateContainer *)

(** C8. When the identifier extracted from the uploaded document already
    exists, the upload never touches the table, whatever the other extracted
    fields are; for a PDF file that parsed, the answer is the error
    "Container already exists" with code 400. *)
Theorem upload_duplicate_rejected now file_name file_content db id existing :
  d_container_id (data (parse_bill_of_lading file_content file_name)) = Some id ->
  db !! id = Some existing ->
  (upload_bill_of_lading now file_name file_content db).2 = db /\
  (endswith (lower file_name) ".pdf" = true ->
   success (parse_bill_of_lading file_content file_name) = true ->
     upload_bill_of_lading now file_name file_content db =
       (Error 400 {| ErrorSchema.error := "Container already exists";
                     ErrorSchema.details :=
                       Some ("Container " +:+ id +:+ " is already in the system") |}, db)).
Proof.
  intros Hid Hex. unfold upload_bill_of_lading. split.
  - destruct (negb (endswith (lower file_name) ".pdf")); [reflexivity |].
    destruct (negb (success (parse_bill_of_lading file_content file_name))); [reflexivity |].
    rewrite Hid, Hex. reflexivity.
  - intros Hpdf Hok. rewrite Hpdf, Hok. simpl. rewrite Hid, Hex. reflexivity.
Qed.

(** ** Validation rules *)

(** The rules do not short-circuit: every rule contributes its message
    exactly when its own condition holds, whatever the other rules found. *)
Lemma validate_container_data_rules d msg :
  In msg (validate_container_data d) <->
    (rule_id_required d = true /\ msg = ERR_ID_REQUIRED) \/
    (rule_id_format d = true /\ msg = ERR_ID_FORMAT) \/
    (rule_tin_format d = true /\ msg = ERR_TIN_FORMAT) \/
    (rule_vessel_missing d = true /\ msg = ERR_VESSEL_MISSING) \/
    (rule_importer_missing d = true /\ msg = ERR_IMPORTER_MISSING).
Proof.
  unfold validate_container_data, append_if.
  destruct (rule_id_required d), (rule_id_format d), (rule_tin_format d),
    (rule_vessel_missing d), (rule_importer_missing d); simpl;
    intuition (try discriminate; auto).
Qed.

Lemma no_errors_false_of_In msg errs : In msg errs -> no_errors errs = false.
Proof. destruct errs; simpl; [intros [] | reflexivity]. Qed.

Lemma rule_id_format_malformed d id :
  d_container_id d = Some id ->
  id <> EmptyString ->
  match_container_id id = false ->
  startswith id "DEMO" = false ->
  rule_id_format d = true.
Proof.
  intros Hid Hne Hm Hp. unfold rule_id_format. rewrite Hid.
  destruct id as [| a r]; [congruence |]. rewrite Hm, Hp. reflexivity.
Qed.

(** What a successful upload stores. *)
Lemma upload_creates now file_name file_content db id :
  endswith (lower file_name) ".pdf" = true ->
  success (parse_bill_of_lading file_content file_name) = true ->
  d_container_id (data (parse_bill_of_lading file_content file_name)) = Some id ->
  db !! id = None ->
  (forall w, d_cargo_weight (data (parse_bill_of_lading file_content file_name)) = Some w ->
             exists cents, weight_column w = inl cents) ->
  exists c',
    (upload_bill_of_lading now file_name file_content db).2 = <[id := c']> db /\
    outcome (upload_bill_of_lading now file_name file_content db).1 = Accepted /\
    container_id c' = id /\
    validation_errors c' =
      validate_container_data (data (parse_bill_of_lading file_content file_name)) /\
    document_validated c' = no_errors (validation_errors c') /\
    overall_status c' = OverallStatus.PENDING_VALIDATION /\
    shipping_status c' = ShippingStatus.DISCHARGED /\
    customs_status c' = CustomsStatus.PENDING /\
    exists entry,
      logs c' = [entry] /\ actor entry = "system" /\ action entry = "document_upload".
Proof.
  intros Hpdf Hok Hid Hnew Hw. unfold upload_bill_of_lading.
  rewrite Hpdf, Hok. simpl. rewrite Hid, Hnew.
  destruct (d_cargo_weight (data (parse_bill_of_lading file_content file_name))) as [w |].
  - destruct (Hw w eq_refl) as (cents & ->). simpl.
    eexists. split; [reflexivity |]. simpl. repeat split; eauto.
  - simpl. eexists. split; [reflexivity |]. simpl. repeat split; eauto.
Qed.

(** C5. The rules of validation are all checked and each contributes its
    message exactly when its own condition holds.  For a container
    identifier that is present (not empty), does not match
    [^[A-Z]{4}\d{7}$] and does not start with [DEMO], the list of errors
    contains the identifier-format message and is not empty; so a container
    created from data with that identifier, and a container with that
    identifier on which ValidateContainer runs (forced, or not yet
    validated), get the message in [validation_errors] and
    [document_validated = false]. *)
Theorem malformed_identifier_flagged id :
  id <> EmptyString ->
  match_container_id id = false ->
  startswith id "DEMO" = false ->
  (forall d msg,
     In msg (validate_container_data d) <->
       (rule_id_required d = true /\ msg = ERR_ID_REQUIRED) \/
       (rule_id_format d = true /\ msg = ERR_ID_FORMAT) \/
       (rule_tin_format d = true /\ msg = ERR_TIN_FORMAT) \/
       (rule_vessel_missing d = true /\ msg = ERR_VESSEL_MISSING) \/
       (rule_importer_missing d = true /\ msg = ERR_IMPORTER_MISSING)) /\
  (forall d,
     d_container_id d = Some id ->
     In ERR_ID_FORMAT (validate_container_data d) /\
     no_errors (validate_container_data d) = false) /\
  (forall now file_name file_content db,
     endswith (lower file_name) ".pdf" = true ->
     success (parse_bill_of_lading file_content file_name) = true ->
     d_container_id (data (parse_bill_of_lading file_content file_name)) = Some id ->
     db !! id = None ->
     (forall w, d_cargo_weight (data (parse_bill_of_lading file_content file_name)) = Some w ->
                exists cents, weight_column w = inl cents) ->
     exists c',
       (upload_bill_of_lading now file_name file_content db).2 !! id = Some c' /\
       In ERR_ID_FORMAT (validation_errors c') /\
       document_validated c' = false) /\
  (forall now payload db c,
     db !! ValidationRequestSchema.container_id payload = Some c ->
     container_id c = id ->
     ValidationRequestSchema.force_revalidate payload = true \/ document_validated c = false ->
     exists c',
       (validate_container now payload db).2 !! ValidationRequestSchema.container_id payload
         = Some c' /\
       In ERR_ID_FORMAT (validation_errors c') /\
       document_validated c' = false /\
       overall_status c' = overall_status c).
Proof.
  intros Hne Hm Hp.
  assert (forall d, d_container_id d = Some id ->
                    In ERR_ID_FORMAT (validate_container_data d) /\
                    no_errors (validate_container_data d) = false) as Hdata.
  { intros d Hid.
    assert (In ERR_ID_FORMAT (validate_container_data d)) as Hin.
    { apply validate_container_data_rules. right. left. split; [| reflexivity].
      exact (rule_id_format_malformed d id Hid Hne Hm Hp). }
    split; [exact Hin | exact (no_errors_false_of_In _ _ Hin)]. }
  split; [exact validate_container_data_rules |].
  split; [exact Hdata |]. split.
  - intros now file_name file_content db Hpdf Hok Hid Hnew Hw.
    destruct (upload_creates now file_name file_content db id Hpdf Hok Hid Hnew Hw)
      as (c' & Hdb & _ & _ & Herrs & Hdv & _).
    exists c'. rewrite Hdb, lookup_insert_eq. split; [reflexivity |].
    rewrite Hdv, Herrs. apply Hdata. exact Hid.
  - intros now payload db c Hc Hcid Hrun.
    destruct (validate_container_runs now payload db c Hc Hrun)
      as (c' & entry & Hdb & Herrs & Hdv & Hov & _).
    exists c'. rewrite Hdb, lookup_insert_eq. split; [reflexivity |].
    assert (In ERR_ID_FORMAT (validation_errors c') /\ no_errors (validation_errors c') = false)
      as [Hin Hno].
    { rewrite Herrs. apply Hdata. simpl. rewrite Hcid. reflexivity. }
    rewrite Hov, Hdv, Hno. repeat split; [exact Hin].
Qed.

(** ** Binary64 products of column weights are finite *)

Lemma Zdigits2_log2 (p : positive) : Zdigits2 (Zpos p) = Z.succ (Z.log2 (Zpos p)).
Proof.
  simpl. change (digits2_pos p) with (Pos.size p).
  destruct p; simpl; rewrite ?Pos2Z.inj_succ; reflexivity.
Qed.

Lemma Zdigits2_lt (m D : Z) : 0 <= m -> 0 <= D -> (Zdigits2 m <= D <-> m < 2 ^ D).
Proof.
  intros Hm HD. destruct m as [| p | p].
  - simpl. split; intros _; [apply Z.pow_pos_nonneg; lia | exact HD].
  - rewrite Zdigits2_log2, Z.log2_lt_pow2 by lia. lia.
  - lia.
Qed.

Lemma shr_1_small D mrs : 0 <= D -> small D mrs -> small D (shr_1 mrs).
Proof.
  intros HD. destruct mrs as [m r s]. unfold small. simpl.
  destruct m as [| [p | p |] | p]; simpl; intros [H0 H1]; split; try lia.
  all: try (apply Z.pow_pos_nonneg; lia).
Qed.

Lemma iter_pos_small D n mrs : 0 <= D -> small D mrs -> small D (SpecFloat.iter_pos shr_1 n mrs).
Proof.
  intros HD. revert mrs. induction n as [n IH | n IH |]; intros mrs H; simpl.
  - apply IH, IH, shr_1_small; assumption.
  - apply IH, IH; assumption.
  - apply shr_1_small; assumption.
Qed.

Lemma fexp_le (x B : Z) : x <= B -> fexp prec emax x <= Z.max (B - 53) (-1074).
Proof. unfold fexp, emin, prec, emax. lia. Qed.

Lemma shr_fexp_small D E m e l :
  0 <= D -> 0 <= m < 2 ^ D -> e <= E -> -1074 <= E ->
  small D (shr_fexp prec emax m e l).1 /\ (shr_fexp prec emax m e l).2 <= E + D.
Proof.
  intros HD Hm He HE. unfold shr_fexp, shr.
  assert (Zdigits2 m <= D) as Hd by (apply Zdigits2_lt; lia).
  assert (small D (shr_record_of_loc m l)) as Hs.
  { unfold small. destruct l as [| []]; simpl; exact Hm. }
  pose proof (fexp_le (Zdigits2 m + e) (D + E) ltac:(lia)) as Hf.
  destruct (fexp prec emax (Zdigits2 m + e) - e) as [| n | n] eqn:En; simpl.
  - split; [exact Hs | lia].
  - split; [apply iter_pos_small; assumption | lia].
  - split; [exact Hs | lia].
Qed.

Lemma round_nearest_even_le m l : m <= round_nearest_even m l <= m + 1.
Proof. destruct l as [| []]; simpl; try lia. destruct (Z.even m); lia. Qed.

Lemma binary_round_aux_bounded s m e l D E :
  0 <= D -> 0 <= m < 2 ^ D -> e <= E -> -1074 <= E -> E + 2 * D + 1 <= 971 ->
  bounded_float (D + 1) (E + 2 * D + 1) (binary_round_aux prec emax s m e l).
Proof.
  intros HD Hm He HE Hfit. unfold binary_round_aux.
  pose proof (shr_fexp_small D E m e l HD Hm He HE) as [Hs1 He1].
  destruct (shr_fexp prec emax m e l) as [mrs' e'] eqn:H1. simpl in Hs1, He1.
  pose proof (round_nearest_even_le (shr_m mrs') (loc_of_shr_record mrs')) as Hr.
  unfold small in Hs1.
  assert (2 ^ (D + 1) = 2 * 2 ^ D) as Hpow by (rewrite Z.pow_add_r by lia; lia).
  pose proof (shr_fexp_small (D + 1) (E + D)
                (round_nearest_even (shr_m mrs') (loc_of_shr_record mrs')) e' loc_Exact
                ltac:(lia) ltac:(lia) ltac:(lia) ltac:(lia)) as [Hs2 He2].
  destruct (shr_fexp prec emax _ e' loc_Exact) as [mrs'' e''] eqn:H2. simpl in Hs2, He2.
  unfold small in Hs2.
  destruct (shr_m mrs'') as [| p | p] eqn:Hm2; simpl; [exact I | | lia].
  assert ((e'' <=? emax - prec) = true) as -> by (apply Z.leb_le; unfold emax, prec; lia).
  simpl. lia.
Qed.

Lemma float_mul_bounded D1 E1 D2 E2 x y :
  0 <= D1 -> 0 <= D2 -> -1074 <= E1 + E2 -> E1 + E2 + 2 * (D1 + D2) + 1 <= 971 ->
  bounded_float D1 E1 x -> bounded_float D2 E2 y ->
  bounded_float (D1 + D2 + 1) (E1 + E2 + 2 * (D1 + D2) + 1) (float_mul x y).
Proof.
  intros HD1 HD2 HE Hfit Hx Hy.
  destruct x as [sx | sx | | sx mx ex], y as [sy | sy | | sy my ey]; simpl in *;
    try exact I; try contradiction.
  destruct Hx as [Hmx Hex], Hy as [Hmy Hey].
  apply binary_round_aux_bounded; try lia.
  rewrite Pos2Z.inj_mul, Z.pow_add_r by lia. split; [lia |].
  apply Z.mul_lt_mono_nonneg; lia.
Qed.

Lemma float_of_cents_bounded cents :
  - 10 ^ 10 < cents < 10 ^ 10 -> bounded_float 95 189 (float_of_cents cents).
Proof.
  intros Hrange.
  assert (forall s p, Zpos p < 10 ^ 10 ->
            bounded_float 95 189
              (SFdiv prec emax (S754_finite s p 0) (S754_finite false 100 0))) as Hdiv.
  { intros s p Hp. unfold SFdiv, SFdiv_core_binary.
    set (e' := Z.min (fexp prec emax (Zdigits2 (Z.pos p) + 0 - (Zdigits2 100 + 0))) (0 - 0)).
    assert (-59 <= e' <= 0) as He'.
    { subst e'. pose proof (Zdigits2_log2 p) as Hd. pose proof (Z.log2_nonneg (Z.pos p)).
      change (Zdigits2 100) with 7. unfold fexp, emin, prec, emax. lia. }
    set (m' := match 0 - 0 - e' with
               | Z0 => Z.pos p
               | Zpos _ => Z.shiftl (Z.pos p) (0 - 0 - e')
               | Zneg _ => 0
               end).
    assert (0 <= m' < 2 ^ 94) as Hm'.
    { subst m'. destruct (0 - 0 - e') as [| n | n] eqn:Es.
      - split; [lia |]. apply Z.lt_trans with (10 ^ 10); [exact Hp | reflexivity].
      - rewrite Z.shiftl_mul_pow2 by lia. split; [apply Z.mul_nonneg_nonneg; lia |].
        apply Z.lt_le_trans with (2 ^ 34 * 2 ^ 60); [| reflexivity].
        assert (Z.pos p < 2 ^ 34) as Hp34
          by (apply Z.lt_trans with (10 ^ 10); [exact Hp | reflexivity]).
        assert (2 ^ Z.pos n < 2 ^ 60) as Hn60 by (apply Z.pow_lt_mono_r; lia).
        apply Z.mul_lt_mono_nonneg; try assumption; [lia | apply Z.pow_nonneg; lia].
      - split; [lia | reflexivity]. }
    pose proof (Z_div_mod m' 100 ltac:(reflexivity)) as Hqr.
    destruct (Z.div_eucl m' 100) as [q r]. destruct Hqr as [Hq Hr].
    apply (binary_round_aux_bounded (xorb s false) q e' (new_location 100 r) 94 0); lia. }
  destruct cents as [| p | p]; unfold float_of_cents.
  - exact I.
  - apply Hdiv. lia.
  - apply Hdiv. lia.
Qed.

Lemma Decimal_of_float_bounded D E x :
  bounded_float D E x -> exists amount, Decimal_of_float x = Some amount.
Proof. destruct x; simpl; intros H; try contradiction; eauto. Qed.

(** For every weight that the column can hold the product is finite. *)
Lemma duty_of_weight_finite cents :
  - 10 ^ 10 < cents < 10 ^ 10 -> exists amount, duty_of_weight cents = Some amount.
Proof.
  intros Hrange. unfold duty_of_weight.
  apply (Decimal_of_float_bounded 203 789).
  apply (float_mul_bounded 149 440 53 (-56)); try lia; [| split; reflexivity].
  apply (float_mul_bounded 95 189 53 (-46)); try lia; [| split; reflexivity].
  apply float_of_cents_bounded. exact Hrange.
Qed.

(** ** Duty assessment *)

(** The two float literals are the correctly rounded values of 100 and
    1/10. *)
Lemma float_literals :
  float_100 = binary_normalize prec emax 100 0 false /\
  float_0_10 = SFdiv prec emax (binary_normalize prec emax 1 0 false)
                 (binary_normalize prec emax 10 0 false).
Proof. split; vm_compute; reflexivity. Qed.

Lemma duty_of_weight_18500 : duty_of_weight 1850000 = Some 185000%Q.
Proof. vm_compute. reflexivity. Qed.

Lemma shr_1_half mrs : 0 <= shr_m mrs -> shr_m (shr_1 mrs) = shr_m mrs / 2.
Proof.
  destruct mrs as [m r s]. cbn [shr_m]. intros Hm.
  destruct m as [| [p | p |] | p]; cbn [shr_1 shr_m]; try lia.
  all: try reflexivity.
  - apply Z.div_unique with 1; lia.
  - apply Z.div_unique with 0; lia.
Qed.

Lemma iter_pos_shr_1 n mrs :
  0 <= shr_m mrs ->
  shr_m (SpecFloat.iter_pos shr_1 n mrs) = shr_m mrs / 2 ^ Z.pos n.
Proof.
  revert mrs. induction n as [n IH | n IH |]; intros mrs Hm; cbn [SpecFloat.iter_pos].
  - assert (0 <= shr_m (shr_1 mrs)) as H1 by (rewrite shr_1_half by lia; apply Z.div_pos; lia).
    assert (0 <= shr_m (SpecFloat.iter_pos shr_1 n (shr_1 mrs))) as H2
      by (rewrite IH by lia; apply Z.div_pos; [lia | apply Z.pow_pos_nonneg; lia]).
    rewrite IH, IH, shr_1_half by lia.
    rewrite !Z.div_div by (try apply Z.pow_pos_nonneg; lia).
    f_equal. replace (Z.pos n~1) with (1 + Z.pos n + Z.pos n) by lia.
    rewrite !Z.pow_add_r by lia. lia.
  - assert (0 <= shr_m (SpecFloat.iter_pos shr_1 n mrs)) as H2
      by (rewrite IH by lia; apply Z.div_pos; [lia | apply Z.pow_pos_nonneg; lia]).
    rewrite IH, IH by lia.
    rewrite !Z.div_div by (try apply Z.pow_pos_nonneg; lia).
    f_equal. replace (Z.pos n~0) with (Z.pos n + Z.pos n) by lia.
    rewrite !Z.pow_add_r by lia. lia.
  - rewrite shr_1_half by lia. reflexivity.
Qed.

Lemma shr_m_record_of_loc m l : shr_m (shr_record_of_loc m l) = m.
Proof. destruct l as [| []]; reflexivity. Qed.

(** The mantissa after [shr_fexp]: the leading 53 bits of a mantissa of 53
    bits or more. *)
Lemma shr_fexp_leading m e l :
  2 ^ 52 <= m -> -1074 <= e ->
  exists n,
    0 <= n /\ (shr_fexp prec emax m e l).2 = e + n /\
    shr_m (shr_fexp prec emax m e l).1 = m / 2 ^ n /\
    2 ^ 52 <= m / 2 ^ n < 2 ^ 53.
Proof.
  intros Hm He. unfold shr_fexp.
  destruct m as [| p | p]; try lia.
  pose proof (Zdigits2_log2 p) as Hd.
  pose proof (Z.log2_spec (Z.pos p) ltac:(lia)) as [Hlo Hhi].
  assert (52 <= Z.log2 (Z.pos p)) as Hl by (apply Z.log2_le_pow2; lia).
  set (d := Zdigits2 (Z.pos p)) in *.
  assert (fexp prec emax (d + e) - e = d - 53) as ->
    by (unfold fexp, emin, prec, emax; lia).
  exists (d - 53). split; [lia |].
  assert (2 ^ 52 <= Z.pos p / 2 ^ (d - 53) < 2 ^ 53) as Hrange.
  { assert (0 < 2 ^ (d - 53)) by (apply Z.pow_pos_nonneg; lia).
    assert (2 ^ Z.log2 (Z.pos p) = 2 ^ 52 * 2 ^ (d - 53)) as E1
      by (rewrite <- Z.pow_add_r by lia; f_equal; lia).
    assert (2 ^ Z.succ (Z.log2 (Z.pos p)) = 2 ^ 53 * 2 ^ (d - 53)) as E2
      by (rewrite <- Z.pow_add_r by lia; f_equal; lia).
    split.
    - apply Z.div_le_lower_bound; lia.
    - apply Z.div_lt_upper_bound; lia. }
  unfold shr. destruct (d - 53) as [| n | n] eqn:En; try lia.
  - cbn [fst snd]. rewrite shr_m_record_of_loc. rewrite Z.add_0_r.
    change (2 ^ 0) with 1 in *. rewrite Z.div_1_r in *. repeat split; lia.
  - cbn [fst snd]. rewrite iter_pos_shr_1 by (rewrite shr_m_record_of_loc; lia).
    rewrite shr_m_record_of_loc. repeat split; lia.
Qed.

(** Rounding encloses: the rounded value and the value rounded lie between
    two neighbours [L] and [U] that are [2 ^ -52] apart, relatively. *)
Lemma binary_round_aux_encloses s m e l :
  2 ^ 52 <= m -> -200 <= e ->
  match binary_round_aux prec emax s m e l with
  | S754_finite s' mR eR =>
      s' = s /\ e <= eR /\
      exists L U,
        L <= scaled (Z.pos mR) eR <= U /\
        L <= scaled m e /\ scaled (m + 1) e <= U /\ (U - L) * 2 ^ 52 <= L
  | S754_infinity _ => True
  | _ => False
  end.
Proof.
  intros Hm He. unfold binary_round_aux.
  destruct (shr_fexp_leading m e l Hm ltac:(lia)) as (n & Hn & He' & HM & HMr).
  destruct (shr_fexp prec emax m e l) as [mrs' e'] eqn:H1. cbn [fst snd] in He', HM.
  pose proof (round_nearest_even_le (shr_m mrs') (loc_of_shr_record mrs')) as Hr.
  set (r := round_nearest_even (shr_m mrs') (loc_of_shr_record mrs')) in *.
  rewrite HM in Hr. set (M := m / 2 ^ n) in *.
  destruct (shr_fexp_leading r e' loc_Exact ltac:(lia) ltac:(lia)) as (n2 & Hn2 & He2 & HM2 & HM2r).
  destruct (shr_fexp prec emax r e' loc_Exact) as [mrs'' e''] eqn:H2.
  cbn [fst snd] in He2, HM2.
  assert (0 < 2 ^ n) as Hpn by (apply Z.pow_pos_nonneg; lia).
  assert (0 < 2 ^ (e + 200)) as Hpe by (apply Z.pow_pos_nonneg; lia).
  assert (2 ^ (e' + 200) = 2 ^ n * 2 ^ (e + 200)) as Epow
    by (rewrite <- Z.pow_add_r by lia; f_equal; lia).
  assert (M * 2 ^ n <= m < (M + 1) * 2 ^ n) as Hdiv.
  { unfold M. pose proof (Z.div_mod m (2 ^ n) ltac:(lia)) as Hdm.
    pose proof (Z.mod_pos_bound m (2 ^ n) Hpn). lia. }
  (* the second shift keeps the value *)
  assert (scaled (shr_m mrs'') e'' = scaled r e') as Hval.
  { unfold scaled. rewrite HM2, He2.
    assert (n2 = 0 \/ n2 = 1) as [-> | ->].
    { destruct (Z.eq_dec n2 0) as [| Hne]; [now left | right].
      assert (2 <= 2 ^ n2) by (change 2 with (2 ^ 1) at 1; apply Z.pow_le_mono_r; lia).
      destruct (Z.eq_dec n2 1) as [| Hne1]; [assumption | exfalso].
      assert (4 <= 2 ^ n2) by (change 4 with (2 ^ 2); apply Z.pow_le_mono_r; lia).
      assert (r / 2 ^ n2 < 2 ^ 52); [| lia].
      apply Z.div_lt_upper_bound; [lia |]. change (2 ^ 52) with 4503599627370496 in *.
      change (2 ^ 53) with 9007199254740992 in *. nia. }
    - change (2 ^ 0) with 1. rewrite Z.div_1_r, Z.add_0_r. reflexivity.
    - change (2 ^ 1) with 2 in *.
      assert (r = 2 ^ 53) as Er.
      { change (2 ^ 52) with 4503599627370496 in *.
        change (2 ^ 53) with 9007199254740992 in *.
        assert (9007199254740992 <= r); [| lia].
        destruct (Z.le_gt_cases 9007199254740992 r) as [|Hlt]; [assumption | exfalso].
        assert (r / 2 < 4503599627370496); [apply Z.div_lt_upper_bound; lia | lia]. }
      rewrite Er. change (2 ^ 53 / 2) with (2 ^ 52).
      replace (e' + 1 + 200) with (1 + (e' + 200)) by lia.
      rewrite Z.pow_add_r by lia. change (2 ^ 53) with (2 ^ 52 * 2 ^ 1). lia. }
  destruct (shr_m mrs'') as [| mR | mR] eqn:HmR; try lia.
  destruct (e'' <=? emax - prec); [| exact I].
  split; [reflexivity |]. split; [lia |].
  exists (scaled M e'), (scaled (M + 1) e').
  rewrite Hval. unfold scaled. rewrite Epow. repeat split; try nia.
Qed.

Lemma scaled_lt (m e : Z) : -200 <= e -> scaled m e < scaled (m + 1) e.
Proof.
  intros He. unfold scaled.
  assert (0 < 2 ^ (e + 200)) by (apply Z.pow_pos_nonneg; lia). nia.
Qed.

Lemma scaled_shift (m c k e : Z) :
  -200 <= e - k -> 0 <= k ->
  scaled (m * (c * 2 ^ k)) (e - k) = c * scaled m e.
Proof.
  intros He Hk. unfold scaled.
  replace (e + 200) with (k + (e - k + 200)) by lia.
  rewrite (Z.pow_add_r 2 k (e - k + 200)) by lia. ring.
Qed.

(** The float of the duty, for a weight of [p] hundredths with sign [s]:
    when it is finite its value is [p / 10] up to a relative error of
    [2 ^ -49]. *)
Lemma duty_float_accurate (s : bool) (p : positive) :
  match float_mul
          (float_mul (SFdiv prec emax (S754_finite s p 0) (S754_finite false 100 0))
             float_100) float_0_10 with
  | S754_finite s' m e =>
      s' = s /\ -200 <= e /\
      - (Z.pos p * 2 ^ 200) <= (10 * scaled (Z.pos m) e - Z.pos p * 2 ^ 200) * 2 ^ 49
        <= Z.pos p * 2 ^ 200
  | S754_infinity _ => True
  | _ => False
  end.
Proof.
  unfold SFdiv, SFdiv_core_binary.
  pose proof (Zdigits2_log2 p) as Hd.
  pose proof (Z.log2_spec (Z.pos p) ltac:(lia)) as [Hlo Hhi].
  pose proof (Z.log2_nonneg (Z.pos p)) as Hlog.
  set (d := Zdigits2 (Z.pos p)) in *.
  set (e' := Z.min (fexp prec emax (d + 0 - (Zdigits2 100 + 0))) (0 - 0)).
  assert (e' = Z.min (d - 60) 0) as Ee'
    by (subst e'; change (Zdigits2 100) with 7; unfold fexp, emin, prec, emax; lia).
  assert (-59 <= e' <= 0) as He' by lia.
  set (m' := match 0 - 0 - e' with
             | Z0 => Z.pos p
             | Zpos _ => Z.shiftl (Z.pos p) (0 - 0 - e')
             | Zneg _ => 0
             end).
  assert (m' = Z.pos p * 2 ^ (- e')) as Em'.
  { subst m'. destruct (0 - 0 - e') as [| n | n] eqn:Es; try lia.
    - replace (- e') with 0 by lia. lia.
    - rewrite Z.shiftl_mul_pow2 by lia. f_equal. f_equal. lia. }
  assert (2 ^ 59 <= m') as Hm'.
  { rewrite Em'. destruct (Z.le_gt_cases 60 d) as [Hge | Hlt].
    - replace (- e') with 0 by lia. change (2 ^ 0) with 1.
      assert (2 ^ 59 <= 2 ^ Z.log2 (Z.pos p)) by (apply Z.pow_le_mono_r; lia). lia.
    - replace (- e') with (60 - d) by lia.
      assert (2 ^ 59 = 2 ^ Z.log2 (Z.pos p) * 2 ^ (60 - d)) as ->
        by (rewrite <- Z.pow_add_r by lia; f_equal; lia).
      apply Z.mul_le_mono_nonneg_r; [apply Z.pow_nonneg; lia | lia]. }
  pose proof (Z_div_mod m' 100 ltac:(reflexivity)) as Hqr.
  destruct (Z.div_eucl m' 100) as [q r]. destruct Hqr as [Hq Hr].
  assert (2 ^ 52 <= q) as Hq52.
  { change (2 ^ 59) with 576460752303423488 in Hm'.
    change (2 ^ 52) with 4503599627370496. lia. }
  assert (scaled m' e' = Z.pos p * 2 ^ 200) as Hsc.
  { unfold scaled. rewrite Em'. rewrite <- Z.mul_assoc, <- Z.pow_add_r by lia.
    f_equal. f_equal. lia. }
  assert (100 * scaled q e' <= Z.pos p * 2 ^ 200 /\
          Z.pos p * 2 ^ 200 < 100 * scaled (q + 1) e') as [Hlow Hupp].
  { rewrite <- Hsc. unfold scaled.
    assert (0 < 2 ^ (e' + 200)) by (apply Z.pow_pos_nonneg; lia). nia. }
  pose proof (binary_round_aux_encloses (xorb s false) q e' (new_location 100 r)
                Hq52 ltac:(lia)) as H1.
  unfold float_mul, float_100, float_0_10.
  destruct (binary_round_aux prec emax (xorb s false) q e' (new_location 100 r))
    as [s1 | s1 | | s1 m1 e1]; try contradiction; [cbn [SFmul]; exact I |].
  destruct H1 as (-> & He1 & L1 & U1 & HR1 & HL1 & HU1 & Hrel1).
  cbn [SFmul].
  assert (2 ^ 52 <= Z.pos (m1 * 7036874417766400)) as Hm2.
  { rewrite Pos2Z.inj_mul. change (2 ^ 52) with 4503599627370496. lia. }
  pose proof (binary_round_aux_encloses (xorb (xorb s false) false)
                (Z.pos (m1 * 7036874417766400)) (e1 + -46) loc_Exact Hm2 ltac:(lia)) as H2.
  destruct (binary_round_aux prec emax (xorb (xorb s false) false)
              (Z.pos (m1 * 7036874417766400)) (e1 + -46) loc_Exact)
    as [s2 | s2 | | s2 m2 e2]; try contradiction; [cbn [SFmul]; exact I |].
  destruct H2 as (-> & He2 & L2 & U2 & HR2 & HL2 & HU2 & Hrel2).
  cbn [SFmul].
  assert (2 ^ 52 <= Z.pos (m2 * 7205759403792794)) as Hm3.
  { rewrite Pos2Z.inj_mul. change (2 ^ 52) with 4503599627370496. lia. }
  pose proof (binary_round_aux_encloses (xorb (xorb (xorb s false) false) false)
                (Z.pos (m2 * 7205759403792794)) (e2 + -56) loc_Exact Hm3 ltac:(lia)) as H3.
  destruct (binary_round_aux prec emax (xorb (xorb (xorb s false) false) false)
              (Z.pos (m2 * 7205759403792794)) (e2 + -56) loc_Exact)
    as [s3 | s3 | | s3 m3 e3]; try contradiction; [exact I |].
  destruct H3 as (-> & He3 & L3 & U3 & HR3 & HL3 & HU3 & Hrel3).
  split; [now destruct s |]. split; [lia |].
  (* the exact products, on the common scale *)
  pose proof (scaled_lt (Z.pos (m1 * 7036874417766400)) (e1 + -46) ltac:(lia)) as Hlt2.
  pose proof (scaled_lt (Z.pos (m2 * 7205759403792794)) (e2 + -56) ltac:(lia)) as Hlt3.
  assert (scaled (Z.pos (m1 * 7036874417766400)) (e1 + -46) = 100 * scaled (Z.pos m1) e1)
    as E2.
  { rewrite Pos2Z.inj_mul. change (Z.pos 7036874417766400) with (100 * 2 ^ 46).
    apply (scaled_shift (Z.pos m1) 100 46 e1); lia. }
  set (Y := Z.pos m2 * 2 ^ (e2 - 56 + 200)).
  assert (scaled (Z.pos m2) e2 = 2 ^ 56 * Y) as EY.
  { unfold scaled, Y. replace (e2 + 200) with (56 + (e2 - 56 + 200)) by lia.
    rewrite (Z.pow_add_r 2 56 (e2 - 56 + 200)) by lia. ring. }
  assert (scaled (Z.pos (m2 * 7205759403792794)) (e2 + -56) = 7205759403792794 * Y) as E3.
  { unfold scaled, Y. rewrite Pos2Z.inj_mul.
    replace (e2 + -56 + 200) with (e2 - 56 + 200) by lia. ring. }
  rewrite E2 in *. rewrite E3 in *. rewrite EY in *.
  set (R1 := scaled (Z.pos m1) e1) in *. set (R3 := scaled (Z.pos m3) e3) in *.
  set (Q1 := scaled q e') in *. set (Q2 := scaled (q + 1) e') in *.
  set (P := Z.pos p * 2 ^ 200) in *.
  clearbody R1 R3 Q1 Q2 P Y.
  change (2 ^ 52) with 4503599627370496 in *.
  change (2 ^ 56) with 72057594037927936 in *.
  change (2 ^ 49) with 562949953421312.
  clear - Hlow Hupp HR1 HL1 HU1 Hrel1 HR2 HL2 HU2 Hrel2 HR3 HL3 HU3 Hrel3 Hlt2 Hlt3.
  lia.
Qed.

Lemma round_half_even_nearest (q : Q) (n : Z) :
  - Z.pos (Qden q) < 2 * Qnum q - 2 * n * Z.pos (Qden q) < Z.pos (Qden q) ->
  round_half_even q = n.
Proof.
  intros H. unfold round_half_even.
  pose proof (Z.div_mod (Qnum q) (Z.pos (Qden q)) ltac:(lia)) as Hdm.
  pose proof (Z.mod_pos_bound (Qnum q) (Z.pos (Qden q)) ltac:(lia)) as Hr.
  set (f := Qnum q / Z.pos (Qden q)) in *. set (r := Qnum q mod Z.pos (Qden q)) in *.
  set (b := Z.pos (Qden q)) in *. assert (0 < b) as Hb by (subst b; lia).
  clearbody f r b.
  assert (f = n \/ f = n - 1) as Hf by nia.
  destruct (Z.compare_spec (2 * r) b) as [E | E | E].
  - exfalso. nia.
  - destruct Hf as [-> | ->]; [reflexivity | exfalso; nia].
  - destruct Hf as [-> | ->]; [exfalso; nia | lia].
Qed.

(** The value of a finite float, on the scale [2 ^ 200]. *)
Lemma Decimal_of_float_scaled s m e v :
  -200 <= e ->
  Decimal_of_float (S754_finite s m e) = Some v ->
  Qnum v * 2 ^ 200 =
    (if s then - scaled (Z.pos m) e else scaled (Z.pos m) e) * Z.pos (Qden v).
Proof.
  intros He. cbn [Decimal_of_float]. intros E. injection E as <-.
  set (n := if s then Z.neg m else Z.pos m).
  assert ((if s then - scaled (Z.pos m) e else scaled (Z.pos m) e) = n * 2 ^ (e + 200)) as ->.
  { unfold scaled, n. destruct s; lia. }
  match goal with |- context [Qred ?x] => set (x0 := x) end.
  pose proof (Qred_correct x0) as Hq. unfold Qeq in Hq.
  assert (Qnum x0 * 2 ^ 200 = n * 2 ^ (e + 200) * Z.pos (Qden x0)) as Hx.
  { unfold x0. destruct e as [| k | k]; cbn [Qnum Qden].
    - change (2 ^ (0 + 200)) with (2 ^ 200). lia.
    - replace (Z.pos k + 200) with (200 + Z.pos k) by lia.
      rewrite (Z.pow_add_r 2 200 (Z.pos k)) by lia. lia.
    - rewrite Pos2Z.inj_pow. change (Z.pos 2) with 2.
      assert (2 ^ 200 = 2 ^ (Z.neg k + 200) * 2 ^ Z.pos k) as ->
        by (rewrite <- Z.pow_add_r by lia; f_equal; lia).
      ring. }
  assert (0 < Z.pos (Qden x0)) by lia.
  apply (Z.mul_cancel_r _ _ (Z.pos (Qden x0))); [lia |].
  transitivity (Qnum x0 * 2 ^ 200 * Z.pos (Qden (Qred x0))); [| rewrite Hx; ring].
  transitivity (Qnum (Qred x0) * Z.pos (Qden x0) * 2 ^ 200); [ring |].
  rewrite Hq. ring.
Qed.

(** How far the duty computed in floats is from a tenth of the weight in
    hundredths: less than [2 ^ -49] of it. *)
Lemma duty_of_weight_accurate cents v :
  cents <> 0 ->
  duty_of_weight cents = Some v ->
  - (Z.abs cents * Z.pos (Qden v)) <=
    (10 * Qnum v - cents * Z.pos (Qden v)) * 2 ^ 49 <= Z.abs cents * Z.pos (Qden v).
Proof.
  intros Hnz. unfold duty_of_weight.
  assert (forall (s : bool) (p : positive),
            cents = (if s then Z.neg p else Z.pos p) ->
            Decimal_of_float
              (float_mul
                 (float_mul (SFdiv prec emax (S754_finite s p 0) (S754_finite false 100 0))
                    float_100) float_0_10) = Some v ->
            - (Z.abs cents * Z.pos (Qden v)) <=
            (10 * Qnum v - cents * Z.pos (Qden v)) * 2 ^ 49 <= Z.abs cents * Z.pos (Qden v))
    as Hcase.
  { intros s p Hcents Hv. pose proof (duty_float_accurate s p) as Hacc.
    match type of Hv with Decimal_of_float ?f = _ => set (fl := f) in * end.
    destruct fl as [s' | s' | | s' m e]; try discriminate Hv; try contradiction.
    destruct Hacc as (-> & He & Hacc).
    pose proof (Decimal_of_float_scaled s m e v He Hv) as Hval.
    set (D := Z.pos (Qden v)) in *. assert (0 < D) as HD by (subst D; lia).
    set (R := scaled (Z.pos m) e) in *. set (N := Qnum v) in *.
    assert (Z.abs cents = Z.pos p) as -> by (subst cents; destruct s; lia).
    assert (0 < 2 ^ 200) as HT by (apply Z.pow_pos_nonneg; lia).
    set (T := 2 ^ 200) in *. change (2 ^ 49) with 562949953421312 in *.
    clearbody D R N T.
    destruct s; subst cents.
    - (* negative weight *)
      assert ((10 * N - Z.neg p * D) * 562949953421312 * T =
              - ((10 * R - Z.pos p * T) * 562949953421312) * D) as E
        by (replace (Z.neg p) with (- Z.pos p) by lia; nia).
      split; apply (Z.mul_le_mono_pos_r _ _ T HT); nia.
    - assert ((10 * N - Z.pos p * D) * 562949953421312 * T =
              (10 * R - Z.pos p * T) * 562949953421312 * D) as E by nia.
      split; apply (Z.mul_le_mono_pos_r _ _ T HT); nia. }
  destruct cents as [| p | p]; [congruence | |]; cbn [float_of_cents].
  - apply (Hcase false p). reflexivity.
  - apply (Hcase true p). reflexivity.
Qed.

(** Rounding to the nearest integer is at most a half away. *)
Lemma round_half_even_close (q : Q) :
  - Z.pos (Qden q) <= 2 * Qnum q - 2 * round_half_even q * Z.pos (Qden q) <= Z.pos (Qden q).
Proof.
  unfold round_half_even.
  pose proof (Z.div_mod (Qnum q) (Z.pos (Qden q)) ltac:(lia)) as Hdm.
  pose proof (Z.mod_pos_bound (Qnum q) (Z.pos (Qden q)) ltac:(lia)) as Hr.
  set (f := Qnum q / Z.pos (Qden q)) in *. set (r := Qnum q mod Z.pos (Qden q)) in *.
  set (b := Z.pos (Qden q)) in *. clearbody f r b.
  destruct (Z.compare_spec (2 * r) b) as [E | E | E]; [destruct (Z.even f) | |]; nia.
Qed.

(** For a weight the column can hold, the column of the duty holds exactly
    a tenth of the weight in hundredths: [weight * 100 * 0.10]. *)
Lemma duty_column_exact cents :
  cents <> 0 -> - 10 ^ 10 < cents < 10 ^ 10 ->
  exists v, duty_of_weight cents = Some v /\ duty_column v = Some (Qred (cents # 10)).
Proof.
  intros Hnz Hrange. destruct (duty_of_weight_finite cents Hrange) as (v & Hv).
  exists v. split; [exact Hv |].
  pose proof (duty_of_weight_accurate cents v Hnz Hv) as Hacc.
  assert (round_half_even (v * 100) = 10 * cents) as Hround.
  { apply round_half_even_nearest. cbn [Qmult Qnum Qden]. rewrite Pos.mul_1_r.
    set (D := Z.pos (Qden v)) in *. assert (0 < D) by (subst D; lia).
    set (N := Qnum v) in *. clearbody D N.
    change (2 ^ 49) with 562949953421312 in Hacc. change (10 ^ 10) with 10000000000 in Hrange.
    nia. }
  unfold duty_column. rewrite Hround.
  assert ((Z.abs (10 * cents) <? 10 ^ 12) = true) as ->
    by (apply Z.ltb_lt; change (10 ^ 10) with 10000000000 in Hrange;
        change (10 ^ 12) with 1000000000000; lia).
  f_equal. apply Qred_complete. unfold Qeq. cbn [Qnum Qden]. lia.
Qed.

(** Whatever the weight, an amount that the column holds for it is not
    zero; neither is the flat amount. *)
Lemma duty_column_nonzero cents v held :
  cents <> 0 -> duty_of_weight cents = Some v -> duty_column v = Some held ->
  ~ (held == 0)%Q.
Proof.
  intros Hnz Hv. pose proof (duty_of_weight_accurate cents v Hnz Hv) as Hacc.
  unfold duty_column. destruct (Z.abs _ <? 10 ^ 12); [| intros E; discriminate E].
  intros E. injection E as <-. rewrite Qred_correct. unfold Qeq. cbn [Qnum Qden].
  pose proof (round_half_even_close (v * 100)) as Hclose.
  cbn [Qmult Qnum Qden] in Hclose. rewrite Pos.mul_1_r in Hclose.
  set (h := round_half_even (v * 100)) in *.
  set (D := Z.pos (Qden v)) in *. assert (0 < D) by (subst D; lia).
  set (N := Qnum v) in *. clearbody D N h.
  change (2 ^ 49) with 562949953421312 in Hacc. nia.
Qed.

Lemma duty_column_flat : duty_column FLAT_DUTY = Some 150000%Q.
Proof. reflexivity. Qed.

(** The first assessment of a container, given the amount that the weight
    branch selects and what the column holds for it. *)
Lemma check_customs_status_assesses now id db c amount held :
  db !! id = Some c ->
  customs_duty_amount c = None ->
  match cargo_weight c with
  | Some cents => if cents =? 0 then Some FLAT_DUTY else duty_of_weight cents
  | None => Some FLAT_DUTY
  end = Some amount ->
  duty_column amount = Some held ->
  exists c',
    (check_customs_status now id db).2 = <[id := c']> db /\
    outcome (check_customs_status now id db).1 = Accepted /\
    customs_duty_amount c' = Some held /\
    (customs_status c = CustomsStatus.PENDING ->
       customs_status c' = CustomsStatus.PAYMENT_REQUIRED) /\
    (customs_status c <> CustomsStatus.PENDING -> customs_status c' = customs_status c) /\
    overall_status c' = overall_status c /\
    logs c' = logs c.
Proof.
  intros Hc Hnone Hamount Hheld. unfold check_customs_status.
  rewrite Hc, Hnone, Hamount, Hheld.
  destruct (CustomsStatus.eqb (customs_status c) CustomsStatus.PENDING) eqn:E; simpl;
    (eexists; split; [reflexivity |]); rewrite E; simpl; repeat split; auto.
  - intros Hne. exfalso. apply Hne. apply CustomsStatus_eqb_eq. exact E.
  - intros He. apply CustomsStatus_eqb_eq in He. congruence.
Qed.

(** C2 (amended). On the first CheckCustomsStatus of a container whose
    [customs_duty_amount] is unset, the amount stored is the flat 150000.00
    when the cargo weight is unknown or is zero, and otherwise, for every
    weight that the column can hold, exactly [weight * 100 * 0.10] (for
    weight 18500 exactly 185000.00): the product is computed in floats, and
    the column of two decimal places rounds its error away; in each case
    the call is accepted, a [customs_status] of [PENDING] becomes
    [PAYMENT_REQUIRED] and any other status is kept. *)
Theorem duty_assessment now id db c :
  db !! id = Some c ->
  customs_duty_amount c = None ->
  (cargo_weight c = None \/ cargo_weight c = Some 0 ->
     exists c',
       (check_customs_status now id db).2 = <[id := c']> db /\
       outcome (check_customs_status now id db).1 = Accepted /\
       customs_duty_amount c' = Some 150000%Q /\
       (customs_status c = CustomsStatus.PENDING ->
          customs_status c' = CustomsStatus.PAYMENT_REQUIRED) /\
       (customs_status c <> CustomsStatus.PENDING -> customs_status c' = customs_status c)) /\
  (forall cents,
     cargo_weight c = Some cents ->
     cents <> 0 ->
     - 10 ^ 10 < cents < 10 ^ 10 ->
     exists due c',
       (due == (cents # 100) * 100 * (10 # 100))%Q /\
       (check_customs_status now id db).2 = <[id := c']> db /\
       outcome (check_customs_status now id db).1 = Accepted /\
       customs_duty_amount c' = Some due /\
       (customs_status c = CustomsStatus.PENDING ->
          customs_status c' = CustomsStatus.PAYMENT_REQUIRED) /\
       (customs_status c <> CustomsStatus.PENDING -> customs_status c' = customs_status c)) /\
  (cargo_weight c = Some 1850000 ->
     exists c',
       (check_customs_status now id db).2 = <[id := c']> db /\
       customs_duty_amount c' = Some 185000%Q /\
       (customs_status c = CustomsStatus.PENDING ->
          customs_status c' = CustomsStatus.PAYMENT_REQUIRED)).
Proof.
  intros Hc Hnone.
  assert (forall cents,
            cargo_weight c = Some cents -> cents <> 0 -> - 10 ^ 10 < cents < 10 ^ 10 ->
            exists c',
              (check_customs_status now id db).2 = <[id := c']> db /\
              outcome (check_customs_status now id db).1 = Accepted /\
              customs_duty_amount c' = Some (Qred (cents # 10)) /\
              (customs_status c = CustomsStatus.PENDING ->
                 customs_status c' = CustomsStatus.PAYMENT_REQUIRED) /\
              (customs_status c <> CustomsStatus.PENDING ->
                 customs_status c' = customs_status c)) as Hweight.
  { intros cents Hw Hnz Hrange.
    destruct (duty_column_exact cents Hnz Hrange) as (v & Hv & Hheld).
    destruct (check_customs_status_assesses now id db c v (Qred (cents # 10)) Hc Hnone)
      as (c' & Hdb & Hok & Ha & Hp & Hk & _); [| exact Hheld |].
    { rewrite Hw. apply Z.eqb_neq in Hnz. rewrite Hnz. exact Hv. }
    exists c'. repeat split; assumption. }
  split; [| split].
  - intros Hw.
    destruct (check_customs_status_assesses now id db c FLAT_DUTY 150000%Q Hc Hnone)
      as (c' & Hdb & Hok & Ha & Hp & Hk & _); [| exact duty_column_flat |].
    { destruct Hw as [-> | ->]; reflexivity. }
    exists c'. repeat split; assumption.
  - intros cents Hw Hnz Hrange.
    destruct (Hweight cents Hw Hnz Hrange) as (c' & Hdb & Hok & Ha & Hp & Hk).
    exists (Qred (cents # 10)), c'. split; [| repeat split; assumption].
    rewrite Qred_correct. unfold Qeq. cbn [Qmult Qnum Qden]. lia.
  - intros Hw.
    destruct (Hweight 1850000 Hw ltac:(lia) ltac:(lia)) as (c' & Hdb & _ & Ha & Hp & _).
    exists c'. repeat split; assumption.
Qed.

End Properties.

(** * Worked instances *)

(** ** The end-to-end scenario *)

Example scenario_released :
  overall_status_of released_db SAMPLE_ID = Some OverallStatus.RELEASED /\
  (shipping_status <$> row released_db SAMPLE_ID) = Some ShippingStatus.READY_FOR_PICKUP /\
  (customs_duty_amount <$> row released_db SAMPLE_ID) = Some (Some 185000%Q).
Proof. vm_compute. repeat split; reflexivity. Qed.

(** C1, counterexample. The scenario ends with [overall_status = RELEASED],
    a terminal status; one more CompleteInspection(passed) moves it back to
    [INSPECTION_PASSED], one place earlier in the workflow order, and a
    CompleteInspection(failed) moves it to [FAILED].  After a failed
    inspection the status is [FAILED]; a forced ValidateContainer then moves
    it to [VALIDATED]. *)
Lemma terminal_status_overwritten :
  OverallStatus.terminal OverallStatus.RELEASED = true /\
  OverallStatus.terminal OverallStatus.FAILED = true /\
  OverallStatus.rank OverallStatus.INSPECTION_PASSED = Some 4%nat /\
  OverallStatus.rank OverallStatus.RELEASED = Some 5%nat /\
  overall_status_of released_db SAMPLE_ID = Some OverallStatus.RELEASED /\
  overall_status_of (exec sample_clock (Complete SAMPLE_ID true) released_db).2 SAMPLE_ID
    = Some OverallStatus.INSPECTION_PASSED /\
  overall_status_of (exec sample_clock (Complete SAMPLE_ID false) released_db).2 SAMPLE_ID
    = Some OverallStatus.FAILED /\
  overall_status_of failed_db SAMPLE_ID = Some OverallStatus.FAILED /\
  overall_status_of
    (exec sample_clock (Validate (validate_request SAMPLE_ID true)) failed_db).2 SAMPLE_ID
    = Some OverallStatus.VALIDATED.
Proof. vm_compute. repeat split; reflexivity. Qed.

Lemma overall_status_changes_only_by_writers_witness :
  row (single inspected_container) SAMPLE_ID = Some inspected_container /\
  exists c',
    row (run [(sample_clock, CheckShipping SAMPLE_ID); (sample_clock, CheckCustoms SAMPLE_ID)]
           (single inspected_container)) SAMPLE_ID = Some c' /\
    overall_status c' = OverallStatus.INSPECTION_PASSED.
Proof.
  split; [reflexivity |].
  apply (proj2 (overall_status_changes_only_by_writers (RT := sample_runtime)
                  (single inspected_container) SAMPLE_ID inspected_container eq_refl)).
  intros now call s [E | [E | []]]; injection E as _ <-; discriminate.
Defined.

(** ** Duty assessment *)

(** C2, counterexample. The uploaded bill of lading gives the weight 0.00 KG,
    so the cargo weight of the container is known; its first
    CheckCustomsStatus stores the flat 150000, not [0.00 * 100 * 0.10 = 0]. *)
Lemma duty_formula_counterexample :
  (cargo_weight <$> parser_row zero_weight_db ZERO_ID) = Some (Some 0) /\
  (customs_duty_amount <$> parser_row zero_weight_db ZERO_ID) = Some None /\
  (customs_duty_amount <$>
     parser_row (check_customs_status (RT := parser_runtime) sample_clock ZERO_ID
                   zero_weight_db).2 ZERO_ID)
    = Some (Some 150000%Q) /\
  ~ (150000 == (0 # 100) * 100 * (10 # 100))%Q.
Proof.
  split; [vm_compute; reflexivity |]. split; [vm_compute; reflexivity |].
  split; [vm_compute; reflexivity |]. vm_compute; discriminate.
Qed.

Lemma duty_assessment_witness :
  row (single (sample_container SAMPLE_ID (Some 110))) SAMPLE_ID
    = Some (sample_container SAMPLE_ID (Some 110)) /\
  exists due c',
    (due == (110 # 100) * 100 * (10 # 100))%Q /\
    (check_customs_status sample_clock SAMPLE_ID
       (single (sample_container SAMPLE_ID (Some 110)))).2
      = <[SAMPLE_ID := c']> (single (sample_container SAMPLE_ID (Some 110))) /\
    customs_duty_amount c' = Some due /\
    customs_status c' = CustomsStatus.PAYMENT_REQUIRED.
Proof.
  split; [reflexivity |].
  destruct (proj1 (proj2 (duty_assessment (RT := sample_runtime) sample_clock SAMPLE_ID
                            (single (sample_container SAMPLE_ID (Some 110)))
                            (sample_container SAMPLE_ID (Some 110)) eq_refl eq_refl))
              110 eq_refl ltac:(lia) ltac:(lia)) as (due & c' & Hdue & Hdb & _ & Ha & Hs & _).
  exists due, c'. split; [exact Hdue |]. split; [exact Hdb |]. split; [exact Ha |].
  apply Hs. reflexivity.
Defined.



(** ** Payment *)

Lemma pay_customs_duty_unassessed_witness :
  row (single (sample_container SAMPLE_ID None)) SAMPLE_ID
    = Some (sample_container SAMPLE_ID None) /\
  exists c',
    (pay_customs_duty sample_clock (pay_request 1) (single (sample_container SAMPLE_ID None))).2
      = <[SAMPLE_ID := c']> (single (sample_container SAMPLE_ID None)) /\
    outcome
      (pay_customs_duty sample_clock (pay_request 1)
         (single (sample_container SAMPLE_ID None))).1 = Accepted /\
    customs_status c' = CustomsStatus.PAID /\
    overall_status c' = OverallStatus.CUSTOMS_CLEARED /\
    customs_duty_amount c' = None.
Proof.
  split; [reflexivity |].
  apply (pay_customs_duty_unassessed (RT := sample_runtime) sample_clock (pay_request 1)
           (single (sample_container SAMPLE_ID None)) (sample_container SAMPLE_ID None)
           eq_refl ltac:(discriminate) (or_introl eq_refl)).
Defined.

(** ** Validation *)

Lemma malformed_identifier_flagged_witness :
  "maeu-4567890" <> EmptyString /\
  match_container_id "maeu-4567890" = false /\
  startswith "maeu-4567890" "DEMO" = false /\
  In ERR_ID_FORMAT (validate_container_data (data_with_id "maeu-4567890")) /\
  no_errors (validate_container_data (data_with_id "maeu-4567890")) = false.
Proof.
  split; [discriminate |]. split; [reflexivity |]. split; [reflexivity |].
  apply (proj1 (proj2 (malformed_identifier_flagged (RT := sample_runtime) "maeu-4567890"
                         ltac:(discriminate) eq_refl eq_refl))).
  reflexivity.
Defined.

Lemma validate_container_read_guard_witness :
  row (single (sample_container SAMPLE_ID None)) SAMPLE_ID
    = Some (sample_container SAMPLE_ID None) /\
  validate_container sample_clock (validate_request SAMPLE_ID false)
    (single (sample_container SAMPLE_ID None)) =
    (Ok {| ValidationResponseSchema.container_id := SAMPLE_ID;
           ValidationResponseSchema.is_valid := true;
           ValidationResponseSchema.errors := [];
           ValidationResponseSchema.message := "Validation successful" |},
     single (sample_container SAMPLE_ID None)).
Proof.
  split; [reflexivity |].
  apply (proj1 (validate_container_read_guard (RT := sample_runtime) sample_clock
                  (validate_request SAMPLE_ID false) (single (sample_container SAMPLE_ID None))
                  (sample_container SAMPLE_ID None) eq_refl));
    reflexivity.
Defined.

(** ** Inspection and release *)

Lemma release_container_guard_witness :
  row (single inspected_container) SAMPLE_ID = Some inspected_container /\
  exists c',
    (release_container sample_clock SAMPLE_ID (single inspected_container)).2
      = <[SAMPLE_ID := c']> (single inspected_container) /\
    outcome (release_container sample_clock SAMPLE_ID (single inspected_container)).1
      = Accepted /\
    overall_status c' = OverallStatus.RELEASED /\
    shipping_status c' = ShippingStatus.READY_FOR_PICKUP.
Proof.
  split; [reflexivity |].
  destruct (proj2 (release_container_guard (RT := sample_runtime) sample_clock SAMPLE_ID
                     (single inspected_container) inspected_container eq_refl) eq_refl)
    as (c' & Hdb & Hok & Hov & Hship & _).
  exists c'. repeat split; assumption.
Defined.

Lemma schedule_inspection_reschedulable_witness :
  row (single inspected_container) SAMPLE_ID = Some inspected_container /\
  customs_status inspected_container = CustomsStatus.PAID /\
  inspection_status inspected_container = InspectionStatus.PASSED /\
  exists c',
    (schedule_inspection sample_clock schedule_request (single inspected_container)).2
      = <[SAMPLE_ID := c']> (single inspected_container) /\
    outcome (schedule_inspection sample_clock schedule_request (single inspected_container)).1
      = Accepted /\
    inspection_status c' = InspectionStatus.SCHEDULED /\
    overall_status c' = OverallStatus.PENDING_INSPECTION.
Proof.
  split; [reflexivity |]. split; [reflexivity |]. split; [reflexivity |].
  apply (proj1 (schedule_inspection_reschedulable (RT := sample_runtime) sample_clock
                  schedule_request (single inspected_container) inspected_container
                  eq_refl eq_refl)).
  discriminate.
Defined.

(** ** Creation *)

Lemma upload_duplicate_rejected_witness :
  row (single (sample_container SAMPLE_ID None)) SAMPLE_ID
    = Some (sample_container SAMPLE_ID None) /\
  upload_bill_of_lading sample_clock "bill.pdf" "%PDF-1.4"
    (single (sample_container SAMPLE_ID None)) =
    (Error 400 {| ErrorSchema.error := "Container already exists";
                  ErrorSchema.details :=
                    Some "Container MAEU4567890 is already in the system" |},
     single (sample_container SAMPLE_ID None)).
Proof.
  split; [reflexivity |].
  apply (proj2 (upload_duplicate_rejected (RT := sample_runtime) sample_clock "bill.pdf"
                  "%PDF-1.4" (single (sample_container SAMPLE_ID None)) SAMPLE_ID
                  (sample_container SAMPLE_ID None) eq_refl eq_refl));
    reflexivity.
Defined.

(** * Further properties of the engine *)

Section MoreProperties.

Context `{RT : Runtime}.

Implicit Types (db : gmap string Container) (c : Container) (now : nat -> datetime).

Lemma same_document_refl c : same_document c c.
Proof. repeat split. Qed.

Lemma same_document_trans c1 c2 c3 :
  same_document c1 c2 -> same_document c2 c3 -> same_document c1 c3.
Proof.
  unfold same_document. intros H12 H23.
  destruct H12 as (?&?&?&?&?&?&?&?&?&?&?), H23 as (?&?&?&?&?&?&?&?&?&?&?).
  repeat split; congruence.
Qed.

(** A request changes no row but the one it addresses. *)
Lemma exec_other now call db id :
  addressed call <> Some id -> (exec now call db).2 !! id = db !! id.
Proof.
  intros Hne. destruct call as [fn fc | i | p | i | p | i | p | i passed | i]; simpl in *.
  - unfold upload_bill_of_lading.
    destruct (negb (endswith (lower fn) ".pdf")); [reflexivity |].
    destruct (negb (success (parse_bill_of_lading fc fn))); [reflexivity |].
    destruct (d_container_id (data (parse_bill_of_lading fc fn))) as [i |]; [| reflexivity].
    destruct (db !! i) as [existing |]; [reflexivity |].
    destruct (d_cargo_weight (data (parse_bill_of_lading fc fn))) as [w |];
      [destruct (weight_column w) |]; simpl; try reflexivity;
      apply lookup_insert_ne; congruence.
  - unfold get_container_status. destruct (db !! i); reflexivity.
  - unfold validate_container. destruct p as [i force]; simpl in *.
    destruct (db !! i) as [ci |]; [| reflexivity].
    destruct (force || negb (document_validated ci)); [| reflexivity].
    simpl. apply lookup_insert_ne. congruence.
  - unfold check_customs_status. destruct (db !! i) as [ci |]; [| reflexivity].
    destruct (customs_duty_amount ci); [reflexivity |].
    destruct (match cargo_weight ci with
              | Some cents => if cents =? 0 then Some FLAT_DUTY else duty_of_weight cents
              | None => Some FLAT_DUTY
              end) as [amount |]; [| reflexivity].
    destruct (duty_column amount); [| reflexivity].
    simpl. apply lookup_insert_ne. congruence.
  - unfold pay_customs_duty. destruct p as [i amount ref]; simpl in *.
    destruct (db !! i) as [ci |]; [| reflexivity].
    destruct (CustomsStatus.eqb (customs_status ci) CustomsStatus.PAID); [reflexivity |].
    destruct (match customs_duty_amount ci with
              | Some due => Decimal_bool due && Decimal_lt amount due
              | None => false
              end); [reflexivity |].
    destruct ref as [[| a r] |]; simpl; apply lookup_insert_ne; congruence.
  - unfold check_shipping_status. destruct (db !! i) as [ci |]; [| reflexivity].
    simpl. apply lookup_insert_ne. congruence.
  - unfold schedule_inspection. destruct p as [i pref]; simpl in *.
    destruct (db !! i) as [ci |]; [| reflexivity].
    destruct (negb (CustomsStatus.eqb (customs_status ci) CustomsStatus.PAID));
      [reflexivity |].
    destruct (InspectionStatus.eqb (inspection_status ci) InspectionStatus.SCHEDULED);
      [reflexivity |].
    simpl. apply lookup_insert_ne. congruence.
  - unfold complete_inspection. destruct (db !! i) as [ci |]; [| reflexivity].
    simpl. apply lookup_insert_ne. congruence.
  - unfold release_container. destruct (db !! i) as [ci |]; [| reflexivity].
    destruct (negb (InspectionStatus.eqb (inspection_status ci) InspectionStatus.PASSED));
      [reflexivity |].
    simpl. apply lookup_insert_ne. congruence.
Qed.

Lemma row_step_refl c : row_step c c.
Proof.
  split; [apply same_document_refl |]. split; [| auto].
  exists []. split; [symmetry; apply app_nil_r | simpl; lia].
Qed.

Ltac row_step_tac :=
  split; [repeat split |]; split;
  [ first [ eexists [_]; split; [reflexivity | simpl; lia]
          | exists []; split; [simpl; symmetry; apply app_nil_r | simpl; lia] ]
  | simpl; auto ].

Lemma exec_row_step now call db id c :
  db !! id = Some c ->
  exists c', (exec now call db).2 !! id = Some c' /\ row_step c c'.
Proof.
  intros Hc. destruct (decide (addressed call = Some id)) as [Ha | Hne].
  2: { exists c. rewrite exec_other by exact Hne. split; [exact Hc | apply row_step_refl]. }
  destruct call as [fn fc | i | p | i | p | i | p | i passed | i]; simpl in *.
  - unfold upload_bill_of_lading.
    destruct (negb (endswith (lower fn) ".pdf")); [exists c; split; [exact Hc | apply row_step_refl] |].
    destruct (negb (success (parse_bill_of_lading fc fn)));
      [exists c; split; [exact Hc | apply row_step_refl] |].
    rewrite Ha, Hc. exists c. split; [exact Hc | apply row_step_refl].
  - unfold get_container_status. destruct (db !! i); exists c; (split; [exact Hc | apply row_step_refl]).
  - unfold validate_container. destruct p as [i force]; simpl in *.
    injection Ha as ->. rewrite Hc.
    destruct (force || negb (document_validated c));
      [| exists c; split; [exact Hc | apply row_step_refl]].
    simpl. rewrite lookup_insert_eq. eexists. split; [reflexivity |].
    destruct (no_errors _); simpl; row_step_tac.
  - injection Ha as ->. unfold check_customs_status. rewrite Hc.
    destruct (customs_duty_amount c) eqn:Hd;
      [exists c; split; [exact Hc | apply row_step_refl] |].
    destruct (match cargo_weight c with
              | Some cents => if cents =? 0 then Some FLAT_DUTY else duty_of_weight cents
              | None => Some FLAT_DUTY
              end) as [amount |]; [| exists c; split; [exact Hc | apply row_step_refl]].
    destruct (duty_column amount); [| exists c; split; [exact Hc | apply row_step_refl]].
    simpl. rewrite lookup_insert_eq. eexists. split; [reflexivity |].
    destruct (CustomsStatus.eqb (customs_status c) CustomsStatus.PENDING); simpl;
      (split; [repeat split |]; split;
       [exists []; split; [simpl; symmetry; apply app_nil_r | simpl; lia]
       | simpl; rewrite Hd; intros a E; discriminate E]).
  - unfold pay_customs_duty. destruct p as [i amount ref]; simpl in *.
    injection Ha as ->. rewrite Hc.
    destruct (CustomsStatus.eqb (customs_status c) CustomsStatus.PAID);
      [exists c; split; [exact Hc | apply row_step_refl] |].
    destruct (match customs_duty_amount c with
              | Some due => Decimal_bool due && Decimal_lt amount due
              | None => false
              end); [exists c; split; [exact Hc | apply row_step_refl] |].
    destruct ref as [[| a r] |]; simpl; rewrite lookup_insert_eq;
      (eexists; split; [reflexivity |]); row_step_tac.
  - injection Ha as ->. unfold check_shipping_status. rewrite Hc.
    simpl. rewrite lookup_insert_eq. eexists. split; [reflexivity |]. row_step_tac.
  - unfold schedule_inspection. destruct p as [i pref]; simpl in *.
    injection Ha as ->. rewrite Hc.
    destruct (negb (CustomsStatus.eqb (customs_status c) CustomsStatus.PAID));
      [exists c; split; [exact Hc | apply row_step_refl] |].
    destruct (InspectionStatus.eqb (inspection_status c) InspectionStatus.SCHEDULED);
      [exists c; split; [exact Hc | apply row_step_refl] |].
    simpl. rewrite lookup_insert_eq. eexists. split; [reflexivity |]. row_step_tac.
  - injection Ha as ->. unfold complete_inspection. rewrite Hc.
    simpl. rewrite lookup_insert_eq. eexists. split; [reflexivity |].
    destruct passed; row_step_tac.
  - injection Ha as ->. unfold release_container. rewrite Hc.
    destruct (negb (InspectionStatus.eqb (inspection_status c) InspectionStatus.PASSED));
      [exists c; split; [exact Hc | apply row_step_refl] |].
    simpl. rewrite lookup_insert_eq. eexists. split; [reflexivity |]. row_step_tac.
Qed.

Lemma run_row_step calls db id c :
  db !! id = Some c ->
  exists c',
    run calls db !! id = Some c' /\
    same_document c c' /\
    (exists new, logs c' = logs c ++ new /\ (length new <= length calls)%nat) /\
    (forall a, customs_duty_amount c = Some a -> customs_duty_amount c' = Some a).
Proof.
  revert db c. induction calls as [| [now call] rest IH]; intros db c Hc; simpl.
  - exists c. split; [exact Hc |]. split; [apply same_document_refl |]. split; [| auto].
    exists []. split; [symmetry; apply app_nil_r | simpl; lia].
  - destruct (exec_row_step now call db id c Hc) as (c1 & H1 & Hdoc1 & (n1 & Hl1 & Hn1) & Hd1).
    destruct (IH _ c1 H1) as (c' & H' & Hdoc & (n & Hl & Hn) & Hd).
    exists c'. split; [exact H' |]. split; [exact (same_document_trans _ _ _ Hdoc1 Hdoc) |].
    split; [| auto].
    exists (n1 ++ n). split; [rewrite Hl, Hl1, app_assoc; reflexivity |].
    rewrite length_app. lia.
Qed.

(** ** Invariants of the table *)

(** X1. The log of a container is append-only: after any sequence of
    requests the row is still there and its log is the old log followed by
    new entries, at most one per request. *)
Theorem logs_are_append_only db id c :
  db !! id = Some c ->
  forall calls,
    exists c' new,
      run calls db !! id = Some c' /\
      logs c' = logs c ++ new /\
      (length new <= length calls)%nat.
Proof.
  intros Hc calls.
  destruct (run_row_step calls db id c Hc) as (c' & H' & _ & (new & Hl & Hn) & _).
  exists c', new. repeat split; assumption.
Qed.

(** X2. No request rewrites what came from the document: [container_id],
    the vessel, importer, TIN, ports, cargo description and weight, the file
    name and [created_at] of a row are the same after any sequence of
    requests. *)
Theorem document_fields_never_change db id c :
  db !! id = Some c ->
  forall calls,
    exists c', run calls db !! id = Some c' /\ same_document c c'.
Proof.
  intros Hc calls.
  destruct (run_row_step calls db id c Hc) as (c' & H' & Hdoc & _).
  exists c'. split; assumption.
Qed.

(** X3. A duty amount is assessed once: when [customs_duty_amount] is set,
    no sequence of requests changes it. *)
Theorem duty_amount_never_reassessed db id c amount :
  db !! id = Some c ->
  customs_duty_amount c = Some amount ->
  forall calls,
    exists c', run calls db !! id = Some c' /\ customs_duty_amount c' = Some amount.
Proof.
  intros Hc Ha calls.
  destruct (run_row_step calls db id c Hc) as (c' & H' & _ & _ & Hd).
  exists c'. split; [exact H' | apply Hd; exact Ha].
Qed.

(** X4. Requests on other containers do not reach a row: a sequence of
    requests none of which addresses [id] leaves the entry of [id] in the
    table, present or absent, exactly as it was. *)
Theorem requests_on_others_leave_row db id calls :
  (forall now call, In (now, call) calls -> addressed call <> Some id) ->
  run calls db !! id = db !! id.
Proof.
  revert db. induction calls as [| [now call] rest IH]; intros db Hother; simpl.
  - reflexivity.
  - rewrite IH.
    + apply exec_other. apply (Hother now call). left. reflexivity.
    + intros now' call' Hin. apply (Hother now' call'). right. exact Hin.
Qed.

(** The table is left as it is by a request, other than an upload, whose
    container does not exist. *)
Lemma unknown_row_untouched now call db id :
  addressed call = Some id ->
  (forall file_name file_content, call <> Upload file_name file_content) ->
  db !! id = None ->
  (exec now call db).2 = db /\
  ((exec now call db).1 = NotFound \/
   (exists i, call = GetContainer i) /\
   (exec now call db).1 = Rejected 404 "Container not found").
Proof.
  intros Ha Hnot Hnone.
  destruct call as [fn fc | i | p | i | p | i | p | i passed | i]; simpl in *;
    try (exfalso; apply (Hnot fn fc); reflexivity);
    injection Ha as Ha.
  - subst. unfold get_container_status. rewrite Hnone. simpl. eauto.
  - unfold validate_container. rewrite Ha, Hnone. simpl. auto.
  - subst. unfold check_customs_status. rewrite Hnone. simpl. auto.
  - unfold pay_customs_duty. rewrite Ha, Hnone. simpl. auto.
  - subst. unfold check_shipping_status. rewrite Hnone. simpl. auto.
  - unfold schedule_inspection. rewrite Ha, Hnone. simpl. auto.
  - subst. unfold complete_inspection. rewrite Hnone. simpl. auto.
  - subst. unfold release_container. rewrite Hnone. simpl. auto.
Qed.

(** X5. A request by identifier on a container that does not exist changes
    nothing: the handlers that use [get_object_or_404] answer 404, and
    [get_container_status] answers its own 404 error body. *)
Theorem unknown_container_not_found now call db id :
  addressed call = Some id ->
  (forall file_name file_content, call <> Upload file_name file_content) ->
  db !! id = None ->
  (exec now call db).2 = db /\
  ((exec now call db).1 = NotFound \/
   (exists i, call = GetContainer i) /\
   (exec now call db).1 = Rejected 404 "Container not found").
Proof. exact (unknown_row_untouched now call db id). Qed.

(** X6. Rows stay under their own identifier: if every row of the table is
    stored under its [container_id], this is still so after any sequence of
    requests; in particular in every table built from the empty one. *)
Theorem rows_keyed_by_container_id db calls :
  keyed db -> keyed (run calls db).
Proof.
  revert db. induction calls as [| [now call] rest IH]; intros db Hk; simpl; [exact Hk |].
  apply IH. intros k c' Hc'.
  destruct (db !! k) as [c |] eqn:Hc.
  - destruct (exec_row_step now call db k c Hc) as (c1 & H1 & (Hid & _) & _).
    rewrite H1 in Hc'. injection Hc' as <-. rewrite Hid. apply (Hk k c Hc).
  - destruct (decide (addressed call = Some k)) as [Ha | Hne].
    2: { rewrite exec_other in Hc' by exact Hne. congruence. }
    destruct call as [fn fc | i | p | i | p | i | p | i passed | i].
    2-9: destruct (unknown_row_untouched now _ db k Ha ltac:(discriminate) Hc) as [Hdb _];
         rewrite Hdb in Hc'; congruence.
    simpl in Ha, Hc'. unfold upload_bill_of_lading in Hc'.
    destruct (negb (endswith (lower fn) ".pdf")); [simpl in Hc'; congruence |].
    destruct (negb (success (parse_bill_of_lading fc fn))); [simpl in Hc'; congruence |].
    rewrite Ha, Hc in Hc'.
    destruct (d_cargo_weight (data (parse_bill_of_lading fc fn))) as [w |];
      [destruct (weight_column w) |]; simpl in Hc'; try congruence;
      rewrite lookup_insert_eq in Hc'; injection Hc' as <-; reflexivity.
Qed.

(** ** Creation *)

(** X7. A successful upload stores one new row under the extracted
    identifier: [PENDING_VALIDATION], [DISCHARGED], customs [PENDING],
    inspection [NOT_SCHEDULED], no duty amount and no payment date, the
    uploaded file name, "Lagos, Nigeria" as port of discharge when the
    document gives none, and a log holding exactly the [document_upload]
    entry of actor [system]; the answer carries the identifier and
    [PENDING_VALIDATION]. *)
Theorem upload_creates_pending_container now file_name file_content db id :
  endswith (lower file_name) ".pdf" = true ->
  success (parse_bill_of_lading file_content file_name) = true ->
  d_container_id (data (parse_bill_of_lading file_content file_name)) = Some id ->
  db !! id = None ->
  (forall w, d_cargo_weight (data (parse_bill_of_lading file_content file_name)) = Some w ->
             exists cents, weight_column w = inl cents) ->
  exists c',
    upload_bill_of_lading now file_name file_content db =
      (Ok {| ContainerCreateSchema.container_id := id;
             ContainerCreateSchema.overall_status := OverallStatus.PENDING_VALIDATION;
             ContainerCreateSchema.message := "Document uploaded and parsed successfully" |},
       <[id := c']> db) /\
    container_id c' = id /\
    overall_status c' = OverallStatus.PENDING_VALIDATION /\
    shipping_status c' = ShippingStatus.DISCHARGED /\
    customs_status c' = CustomsStatus.PENDING /\
    inspection_status c' = InspectionStatus.NOT_SCHEDULED /\
    customs_duty_amount c' = None /\
    customs_paid_at c' = None /\
    original_filename c' = Some file_name /\
    port_of_discharge c' =
      Some (default "Lagos, Nigeria"
              (d_port_of_discharge (data (parse_bill_of_lading file_content file_name)))) /\
    created_at c' = now 0%nat /\
    logs c' = [ {| timestamp := isoformat (now 2%nat); actor := "system";
                   action := "document_upload";
                   details := "Bill of Lading uploaded: " +:+ file_name |} ].
Proof.
  intros Hpdf Hok Hid Hnew Hw. unfold upload_bill_of_lading.
  rewrite Hpdf, Hok. simpl. rewrite Hid, Hnew.
  destruct (d_cargo_weight (data (parse_bill_of_lading file_content file_name))) as [w |].
  - destruct (Hw w eq_refl) as (cents & ->). simpl.
    eexists. split; [reflexivity |]. simpl. repeat split; reflexivity.
  - simpl. eexists. split; [reflexivity |]. simpl. repeat split; reflexivity.
Qed.

(** X8. An upload that is refused stores nothing.  A file whose name does
    not end in [.pdf] (in any letter case) is refused with "Invalid file
    type"; a PDF that the parser could not read is refused with "Document
    parsing failed" and the parser's errors joined by "; "; and whenever
    the upload is not accepted the table is left as it is. *)
Theorem upload_refusals_store_nothing now file_name file_content db :
  (endswith (lower file_name) ".pdf" = false ->
     upload_bill_of_lading now file_name file_content db =
       (Error 400 {| ErrorSchema.error := "Invalid file type";
                     ErrorSchema.details := Some "Only PDF files are accepted" |}, db)) /\
  (endswith (lower file_name) ".pdf" = true ->
   success (parse_bill_of_lading file_content file_name) = false ->
     upload_bill_of_lading now file_name file_content db =
       (Error 400 {| ErrorSchema.error := "Document parsing failed";
                     ErrorSchema.details :=
                       Some (join "; " (errors (parse_bill_of_lading file_content file_name)))
                  |}, db)) /\
  (outcome (upload_bill_of_lading now file_name file_content db).1 <> Accepted ->
     (upload_bill_of_lading now file_name file_content db).2 = db).
Proof.
  unfold upload_bill_of_lading. split; [| split].
  - intros ->. reflexivity.
  - intros -> ->. reflexivity.
  - destruct (negb (endswith (lower file_name) ".pdf")); [reflexivity |].
    destruct (negb (success (parse_bill_of_lading file_content file_name))); [reflexivity |].
    destruct (d_container_id (data (parse_bill_of_lading file_content file_name)));
      [| reflexivity].
    destruct (db !! s); [reflexivity |].
    destruct (d_cargo_weight (data (parse_bill_of_lading file_content file_name))) as [w |];
      [destruct (weight_column w) |]; simpl; intros H; try reflexivity;
      exfalso; apply H; reflexivity.
Qed.

(** ** Inspection *)

(** X9. ScheduleInspection needs paid customs and succeeds once: with a
    [customs_status] other than [PAID] it is refused with "Customs not
    cleared" and the table is unchanged; and right after an accepted
    ScheduleInspection a second one is refused with "Already scheduled". *)
Theorem schedule_inspection_once now now' payload db c :
  db !! InspectionScheduleRequestSchema.container_id payload = Some c ->
  (customs_status c <> CustomsStatus.PAID ->
     schedule_inspection now payload db =
       (Error 400 {| ErrorSchema.error := "Customs not cleared";
                     ErrorSchema.details :=
                       Some "Customs duty must be paid before scheduling inspection" |},
        db)) /\
  (outcome (schedule_inspection now payload db).1 = Accepted ->
     schedule_inspection now' payload (schedule_inspection now payload db).2 =
       (Error 400 {| ErrorSchema.error := "Already scheduled";
                     ErrorSchema.details := Some "Inspection is already scheduled" |},
        (schedule_inspection now payload db).2)).
Proof.
  intros Hc. split.
  - intros Hne. apply CustomsStatus_eqb_neq in Hne.
    unfold schedule_inspection. rewrite Hc, Hne. reflexivity.
  - intros Hacc.
    assert (exists c', (schedule_inspection now payload db).2 =
                         <[InspectionScheduleRequestSchema.container_id payload := c']> db /\
                       customs_status c' = CustomsStatus.PAID /\
                       inspection_status c' = InspectionStatus.SCHEDULED)
      as (c' & Hfirst & Hpaid' & Hsched').
    { revert Hacc. unfold schedule_inspection. rewrite Hc.
      destruct (CustomsStatus.eqb (customs_status c) CustomsStatus.PAID) eqn:Hpaid; simpl;
        [| intros H; discriminate H].
      destruct (InspectionStatus.eqb (inspection_status c) InspectionStatus.SCHEDULED);
        simpl; [intros H; discriminate H |].
      intros _. eexists. split; [reflexivity |]. simpl.
      apply CustomsStatus_eqb_eq in Hpaid. split; [exact Hpaid | reflexivity]. }
    rewrite Hfirst. unfold schedule_inspection.
    rewrite lookup_insert_eq, Hpaid', Hsched'. reflexivity.
Qed.

(** X10. CompleteInspection has no guard, and it alone decides release:
    on any existing container, whatever its validation, customs and
    inspection state, CompleteInspection is accepted; after
    CompleteInspection(passed) a ReleaseContainer is accepted and the
    container is [RELEASED] and [READY_FOR_PICKUP] with its
    [customs_status] as it was; after CompleteInspection(failed) the
    container is [FAILED] and a ReleaseContainer is refused. *)
Theorem inspection_outcome_decides_release now now' id db c :
  db !! id = Some c ->
  (forall passed, outcome (complete_inspection now id passed db).1 = Accepted) /\
  (exists c',
     (release_container now' id (complete_inspection now id true db).2).2 !! id = Some c' /\
     outcome (release_container now' id (complete_inspection now id true db).2).1 = Accepted /\
     overall_status c' = OverallStatus.RELEASED /\
     shipping_status c' = ShippingStatus.READY_FOR_PICKUP /\
     inspection_status c' = InspectionStatus.PASSED /\
     customs_status c' = customs_status c /\
     document_validated c' = document_validated c) /\
  (exists c',
     (complete_inspection now id false db).2 !! id = Some c' /\
     overall_status c' = OverallStatus.FAILED /\
     inspection_status c' = InspectionStatus.FAILED /\
     release_container now' id (complete_inspection now id false db).2 =
       (Error 400 {| ErrorSchema.error := "Inspection not passed";
                     ErrorSchema.details :=
                       Some "Container must pass inspection before release" |},
        (complete_inspection now id false db).2)).
Proof.
  intros Hc. split; [| split].
  - intros passed. unfold complete_inspection. rewrite Hc. reflexivity.
  - unfold complete_inspection. rewrite Hc. simpl.
    unfold release_container. rewrite lookup_insert_eq. simpl.
    rewrite lookup_insert_eq. eexists. split; [reflexivity |]. simpl. repeat split.
  - unfold complete_inspection. rewrite Hc. simpl.
    rewrite lookup_insert_eq. eexists. split; [reflexivity |]. simpl.
    split; [reflexivity |]. split; [reflexivity |].
    unfold release_container. rewrite lookup_insert_eq. reflexivity.
Qed.

(** ** Reads *)

(** X12. CheckShippingStatus reports the stored shipping status, vessel
    and port, and changes nothing of the row but its log, which gets one
    [shipping_status_check] entry of actor [agent], and its save stamp. *)
Theorem check_shipping_status_only_logs now id db c :
  db !! id = Some c ->
  exists c' message,
    check_shipping_status now id db =
      (Ok {| ShippingStatusResponseSchema.container_id := container_id c;
             ShippingStatusResponseSchema.shipping_status := shipping_status c;
             ShippingStatusResponseSchema.vessel_name := vessel_name c;
             ShippingStatusResponseSchema.port_of_discharge := port_of_discharge c;
             ShippingStatusResponseSchema.message := message |},
       <[id := c']> db) /\
    set_logs (logs c) (set_updated_at (updated_at c) c') = c /\
    logs c' =
      logs c ++ [ {| timestamp := isoformat (now 0%nat); actor := "agent";
                     action := "shipping_status_check";
                     details := "Shipping status queried: " +:+
                                ShippingStatus.value (shipping_status c) |} ].
Proof.
  intros Hc. unfold check_shipping_status. rewrite Hc.
  eexists. eexists. split; [reflexivity |]. split; [| reflexivity].
  destruct c; reflexivity.
Qed.

(** X13. CheckCustomsStatus reports an amount due exactly when the
    customs status it reports is [PAYMENT_REQUIRED], and that status is the
    one of the stored row, so after payment no amount is reported.  The
    amount reported is the stored one when the row was assessed before the
    call; when the call itself assesses the row, the stored amount is the
    reported one quantized to hundredths by the column. *)
Theorem amount_due_iff_payment_required now id db body :
  (check_customs_status now id db).1 = Ok body ->
  ((exists a, CustomsStatusResponseSchema.amount_due body = Some a) <->
   CustomsStatusResponseSchema.customs_status body = CustomsStatus.PAYMENT_REQUIRED) /\
  exists c c',
    db !! id = Some c /\
    (check_customs_status now id db).2 !! id = Some c' /\
    customs_status c' = CustomsStatusResponseSchema.customs_status body /\
    (forall a, CustomsStatusResponseSchema.amount_due body = Some a ->
               match customs_duty_amount c with
               | Some _ => customs_duty_amount c' = Some a
               | None => duty_column a = customs_duty_amount c' /\
                         customs_duty_amount c' <> None
               end).
Proof.
  unfold check_customs_status. destruct (db !! id) as [c |] eqn:Hc; simpl;
    [| intros H; discriminate H].
  destruct (customs_duty_amount c) as [a0 |] eqn:Hd.
  - simpl. intros H. injection H as <-. simpl. rewrite Hd. split.
    + destruct (customs_status c); simpl; split;
        first [ intros (a & H); discriminate H | intros H; discriminate H
              | intros _; eauto | reflexivity ].
    + exists c, c. split; [reflexivity |]. split; [exact Hc |]. split; [reflexivity |].
      rewrite Hd. destruct (CustomsStatus.eqb _ _); intros a H; congruence.
  - destruct (match cargo_weight c with
              | Some cents => if cents =? 0 then Some FLAT_DUTY else duty_of_weight cents
              | None => Some FLAT_DUTY
              end) as [amount |]; simpl; [| intros H; discriminate H].
    destruct (duty_column amount) as [held |] eqn:Hheld; simpl; [| intros H; discriminate H].
    intros H. injection H as <-. simpl. rewrite lookup_insert_eq. split.
    + destruct (customs_status c) eqn:Hs; simpl; rewrite ?Hs; simpl; split;
        first [ intros (a & H); discriminate H | intros H; discriminate H
              | intros _; eauto | reflexivity ].
    + exists c. eexists. split; [reflexivity |]. split; [reflexivity |].
      split; [destruct (CustomsStatus.eqb (customs_status c) CustomsStatus.PENDING);
              reflexivity |].
      rewrite Hd.
      destruct (customs_status c) eqn:Hs; simpl; rewrite ?Hs; simpl; intros a H;
        try discriminate H; injection H as <-; (split; [exact Hheld | discriminate]).
Qed.

(** X18. CheckCustomsStatus always answers for a stored container whose
    weight has at most ten digits (what the column holds): the float
    product never overflows, so the call is accepted and the row has an
    amount afterwards. *)
Theorem check_customs_status_always_assesses now id db c :
  db !! id = Some c ->
  (forall cents, cargo_weight c = Some cents -> - 10 ^ 10 < cents < 10 ^ 10) ->
  outcome (check_customs_status now id db).1 = Accepted /\
  exists c' amount,
    (check_customs_status now id db).2 !! id = Some c' /\
    customs_duty_amount c' = Some amount.
Proof.
  intros Hc Hw. unfold check_customs_status. rewrite Hc.
  destruct (customs_duty_amount c) as [a0 |] eqn:Hd.
  - simpl. split; [reflexivity |]. exists c, a0. split; assumption.
  - assert (exists amount held,
              match cargo_weight c with
              | Some cents => if cents =? 0 then Some FLAT_DUTY else duty_of_weight cents
              | None => Some FLAT_DUTY
              end = Some amount /\ duty_column amount = Some held)
      as (amount & held & -> & ->).
    { destruct (cargo_weight c) as [cents |];
        [| exists FLAT_DUTY, 150000%Q; split; reflexivity].
      destruct (cents =? 0) eqn:Hz; [exists FLAT_DUTY, 150000%Q; split; reflexivity |].
      apply Z.eqb_neq in Hz.
      destruct (duty_column_exact cents Hz (Hw cents eq_refl)) as (v & Hv & Hheld).
      eauto. }
    simpl. split; [reflexivity |]. rewrite lookup_insert_eq.
    eexists. exists held. split; [reflexivity |].
    destruct (CustomsStatus.eqb (customs_status c) CustomsStatus.PENDING); reflexivity.
Qed.

(** ** Validation *)

Lemma no_errors_iff_rules d :
  no_errors (validate_container_data d) = true <->
    rule_id_required d = false /\ rule_id_format d = false /\ rule_tin_format d = false /\
    rule_vessel_missing d = false /\ rule_importer_missing d = false.
Proof.
  unfold validate_container_data, append_if.
  destruct (rule_id_required d), (rule_id_format d), (rule_tin_format d),
    (rule_vessel_missing d), (rule_importer_missing d); simpl;
    split; intros H; try discriminate H; try reflexivity;
    try (repeat split; reflexivity); destruct H as (?&?&?&?&?); discriminate.
Qed.

Lemma identifier_rules_iff d :
  rule_id_required d = false /\ rule_id_format d = false <->
    exists id, d_container_id d = Some id /\ id <> EmptyString /\
               (match_container_id id = true \/ startswith id "DEMO" = true).
Proof.
  unfold rule_id_required, rule_id_format.
  destruct (d_container_id d) as [[| a r] |]; cbn -[startswith match_container_id].
  - split; [intros [H _]; discriminate H | intros (id & E & Hne & _)].
    congruence.
  - split.
    + intros [_ Hf]. exists (String a r). split; [reflexivity |]. split; [discriminate |].
      destruct (match_container_id (String a r)) eqn:Hm; [left; reflexivity |].
      destruct (startswith (String a r) "DEMO") eqn:Hp; [right; reflexivity |].
      discriminate Hf.
    + intros (id & E & Hne & Hok). injection E as E. subst id. split; [reflexivity |].
      destruct Hok as [-> | ->]; [reflexivity |]. apply andb_false_r.
  - split; [intros [H _]; discriminate H | intros (id & E & _); discriminate E].
Qed.

Lemma tin_rule_iff d :
  rule_tin_format d = false <->
    d_tin d = None \/ d_tin d = Some EmptyString \/
    exists t, d_tin d = Some t /\ match_tin t = true.
Proof.
  unfold rule_tin_format. destruct (d_tin d) as [[| b t] |]; cbn -[match_tin].
  - split; auto.
  - split.
    + intros H. right. right. exists (String b t). split; [reflexivity |].
      destruct (match_tin (String b t)); [reflexivity | discriminate H].
    + intros [H | [H | (t' & H & Ht')]]; try discriminate H.
      injection H as H. subst t'. rewrite Ht'. reflexivity.
  - split; auto.
Qed.

(** X14. The document is valid exactly when the identifier is present,
    not empty, and matches [^[A-Z]{4}\d{7}$] or starts with [DEMO]; the TIN
    is absent, empty or matches [^\d{10,12}$]; and both the vessel name and
    the importer name are present and not empty.  The "recommended" vessel
    and importer names are thus required. *)
Theorem document_valid_iff d :
  no_errors (validate_container_data d) = true <->
    (exists id, d_container_id d = Some id /\ id <> EmptyString /\
                (match_container_id id = true \/ startswith id "DEMO" = true)) /\
    (d_tin d = None \/ d_tin d = Some EmptyString \/
     exists t, d_tin d = Some t /\ match_tin t = true) /\
    truthy (d_vessel_name d) = true /\
    truthy (d_importer_name d) = true.
Proof.
  rewrite no_errors_iff_rules, <- identifier_rules_iff, <- tin_rule_iff.
  unfold rule_vessel_missing, rule_importer_missing.
  rewrite !negb_false_iff. tauto.
Qed.

(** X15. The error list is always a selection of the five messages in
    rule order, without repetition; "Container ID is required" and the
    format message never occur together, so there are at most four errors. *)
Theorem validation_errors_shape d :
  sublist (validate_container_data d)
    [ERR_ID_REQUIRED; ERR_ID_FORMAT; ERR_TIN_FORMAT; ERR_VESSEL_MISSING;
     ERR_IMPORTER_MISSING] /\
  ~ (In ERR_ID_REQUIRED (validate_container_data d) /\
     In ERR_ID_FORMAT (validate_container_data d)) /\
  (length (validate_container_data d) <= 4)%nat.
Proof.
  assert (rule_id_required d && rule_id_format d = false) as Hex.
  { unfold rule_id_required, rule_id_format.
    destruct (d_container_id d) as [[| a r] |]; reflexivity. }
  unfold validate_container_data, append_if.
  destruct (rule_id_required d), (rule_id_format d); try discriminate Hex;
    destruct (rule_tin_format d), (rule_vessel_missing d), (rule_importer_missing d);
    simpl; (split; [repeat constructor | split; [| lia]]);
    intros [H1 H2]; simpl in H1, H2; intuition discriminate.
Qed.

(** The dictionary of the four fields that [validate_container] checks. *)
Lemma validate_container_settled now payload db c :
  db !! ValidationRequestSchema.container_id payload = Some c ->
  validation_errors c =
    validate_container_data
      {| d_container_id := Some (container_id c);
         d_vessel_name := vessel_name c;
         d_importer_name := importer_name c;
         d_tin := tin c;
         d_original_filename := None; d_importer_address := None;
         d_port_of_loading := None; d_port_of_discharge := None;
         d_cargo_description := None; d_cargo_weight := None |} ->
  document_validated c = no_errors (validation_errors c) ->
  (document_validated c = true -> overall_status c = OverallStatus.VALIDATED) ->
  exists c',
    (validate_container now payload db).2 !! ValidationRequestSchema.container_id payload
      = Some c' /\
    validation_errors c' = validation_errors c /\
    document_validated c' = document_validated c /\
    overall_status c' = overall_status c.
Proof.
  intros Hc Herr Hdv Hov.
  destruct (ValidationRequestSchema.force_revalidate payload || negb (document_validated c))
    eqn:Hrun.
  - destruct (validate_container_runs now payload db c Hc)
      as (c' & e & Hdb & Herr' & Hdv' & Hov' & _).
    { apply orb_true_iff in Hrun. destruct Hrun as [H | H]; [left; exact H | right].
      apply negb_true_iff. exact H. }
    exists c'. rewrite Hdb, lookup_insert_eq. split; [reflexivity |].
    assert (validation_errors c' = validation_errors c) as He by congruence.
    assert (document_validated c' = document_validated c) as Hd by congruence.
    split; [exact He |]. split; [exact Hd |].
    rewrite Hov', Hd. destruct (document_validated c) eqn:Hv; [| reflexivity].
    symmetry. apply Hov. reflexivity.
  - exists c. unfold validate_container. rewrite Hc, Hrun. simpl.
    split; [exact Hc |]. repeat split; reflexivity.
Qed.

(** X16. Validation is stable: after a validation has run on a container,
    any further ValidateContainer on it, forced or not, leaves
    [validation_errors], [document_validated] and [overall_status] as the
    first run set them. *)
Theorem revalidation_is_stable now now' payload payload' db c :
  db !! ValidationRequestSchema.container_id payload = Some c ->
  ValidationRequestSchema.container_id payload' =
    ValidationRequestSchema.container_id payload ->
  ValidationRequestSchema.force_revalidate payload = true \/ document_validated c = false ->
  exists c1 c2,
    (validate_container now payload db).2 !! ValidationRequestSchema.container_id payload
      = Some c1 /\
    (validate_container now' payload' (validate_container now payload db).2).2
      !! ValidationRequestSchema.container_id payload = Some c2 /\
    validation_errors c2 = validation_errors c1 /\
    document_validated c2 = document_validated c1 /\
    overall_status c2 = overall_status c1.
Proof.
  intros Hc Hid Hrun.
  destruct (validate_container_runs now payload db c Hc Hrun)
    as (c1 & e1 & Hdb1 & Herr1 & Hdv1 & Hov1 & _).
  assert (same_document c c1) as Hdoc.
  { destruct (exec_row_step now (Validate payload) db _ c Hc) as (c1' & H1' & Hd & _).
    simpl in H1'. rewrite Hdb1, lookup_insert_eq in H1'. injection H1' as <-. exact Hd. }
  destruct Hdoc as (Hcid & Hves & Himp & _ & Htin & _).
  assert ((validate_container now payload db).2
            !! ValidationRequestSchema.container_id payload' = Some c1) as Hc1.
  { rewrite Hid, Hdb1. apply lookup_insert_eq. }
  destruct (validate_container_settled now' payload' _ c1 Hc1)
    as (c2 & H2 & He & Hd & Ho).
  { rewrite Herr1, Hcid, Hves, Himp, Htin. reflexivity. }
  { exact Hdv1. }
  { intros Hv. rewrite Hov1, Hv. reflexivity. }
  exists c1, c2. rewrite Hid in H2.
  split; [rewrite Hdb1; apply lookup_insert_eq |]. repeat split; assumption.
Qed.

(** ** The whole workflow *)

(** X11. The operations compose into the clearance workflow: on a
    container whose customs are not paid and whose inspection is not
    scheduled, an accepted payment, ScheduleInspection,
    CompleteInspection(passed) and ReleaseContainer end with the container
    [RELEASED], [READY_FOR_PICKUP], customs [PAID], inspection [PASSED],
    and with exactly four entries added to its log, in this order:
    [customs_payment], [inspection_scheduled], [inspection_passed],
    [container_released]. *)
Theorem clearance_workflow n1 n2 n3 n4 pay schedule db id c :
  db !! id = Some c ->
  CustomsPaymentRequestSchema.container_id pay = id ->
  InspectionScheduleRequestSchema.container_id schedule = id ->
  customs_status c <> CustomsStatus.PAID ->
  inspection_status c <> InspectionStatus.SCHEDULED ->
  match customs_duty_amount c with
  | Some due => Decimal_bool due && Decimal_lt (CustomsPaymentRequestSchema.amount pay) due
  | None => false
  end = false ->
  exists c' e1 e2 e3 e4,
    run [(n1, Pay pay); (n2, Schedule schedule); (n3, Complete id true); (n4, Release id)] db
      !! id = Some c' /\
    overall_status c' = OverallStatus.RELEASED /\
    shipping_status c' = ShippingStatus.READY_FOR_PICKUP /\
    customs_status c' = CustomsStatus.PAID /\
    inspection_status c' = InspectionStatus.PASSED /\
    customs_paid_at c' = Some (n1 0%nat) /\
    logs c' = logs c ++ [e1; e2; e3; e4] /\
    map actor [e1; e2; e3; e4] = ["agent"; "agent"; "npa_inspector"; "agent"] /\
    map action [e1; e2; e3; e4] =
      ["customs_payment"; "inspection_scheduled"; "inspection_passed";
       "container_released"].
Proof.
  intros Hc Hp Hs Hnp Hns Hguard.
  apply CustomsStatus_eqb_neq in Hnp. apply InspectionStatus_eqb_neq in Hns.
  destruct pay as [pid amount ref], schedule as [sid pref]. simpl in Hp, Hs, Hguard.
  subst pid sid. simpl. unfold pay_customs_duty. simpl. rewrite Hc, Hnp, Hguard.
  destruct ref as [[| a r] |]; simpl; unfold schedule_inspection; simpl;
    rewrite lookup_insert_eq; simpl; rewrite Hns; simpl;
    unfold complete_inspection; rewrite lookup_insert_eq; simpl;
    unfold release_container; rewrite lookup_insert_eq; simpl;
    rewrite lookup_insert_eq;
    do 5 eexists; (split; [reflexivity |]); simpl;
    rewrite <- !app_assoc; simpl; repeat split; reflexivity.
Qed.

(** ** The two patterns *)

Lemma re_repeat_iff p n s r :
  re_repeat p n s = Some r <->
    exists l, length l = n /\ forallb p l = true /\
              s = String.string_of_list_ascii l +:+ r.
Proof.
  revert s. induction n as [| n IH]; intros s; simpl.
  - split.
    + intros E. injection E as ->. exists []. repeat split.
    + intros (l & Hl & _ & ->). destruct l; [reflexivity | discriminate Hl].
  - destruct s as [| c s'].
    + split; [intros E; discriminate E |].
      intros (l & Hl & _ & E). destruct l; [discriminate Hl | discriminate E].
    + destruct (p c) eqn:Hp.
      * rewrite IH. split.
        -- intros (l & Hl & Hall & ->). exists (c :: l). simpl. rewrite Hl, Hp, Hall.
           repeat split.
        -- intros (l & Hl & Hall & E). destruct l as [| a l]; [discriminate Hl |].
           simpl in Hl, Hall, E. change (String c s' = String a (String.string_of_list_ascii l +:+ r)) in E.
           injection E as -> ->. apply andb_true_iff in Hall. destruct Hall as [_ Hall].
           exists l. repeat split; [congruence | exact Hall].
      * split; [intros E; discriminate E |].
        intros (l & Hl & Hall & E). destruct l as [| a l]; [discriminate Hl |].
        simpl in Hall, E. change (String c s' = String a (String.string_of_list_ascii l +:+ r)) in E.
        injection E as -> ->. rewrite Hp in Hall. discriminate Hall.
Qed.






(** ** The amounts in the tables the engine builds *)

Ltac amount_kept c Hc :=
  first [ exists c; split; [exact Hc | left; first [reflexivity | assumption]]
        | rewrite lookup_insert_eq; eexists; split; [reflexivity | left; reflexivity] ].

(** A request keeps the amount of a row, or sets an amount that is not
    zero on a row that had none. *)
Lemma exec_amount now call db id c :
  db !! id = Some c ->
  exists c',
    (exec now call db).2 !! id = Some c' /\
    (customs_duty_amount c' = customs_duty_amount c \/
     customs_duty_amount c = None /\
     exists due, customs_duty_amount c' = Some due /\ ~ (due == 0)%Q).
Proof.
  intros Hc. destruct (decide (addressed call = Some id)) as [Ha | Hne].
  2: { exists c. rewrite exec_other by exact Hne. split; [exact Hc | left; reflexivity]. }
  destruct call as [fn fc | i | p | i | p | i | p | i passed | i]; simpl in *.
  - unfold upload_bill_of_lading.
    destruct (negb (endswith (lower fn) ".pdf")); [amount_kept c Hc |].
    destruct (negb (success (parse_bill_of_lading fc fn))); [amount_kept c Hc |].
    rewrite Ha, Hc. amount_kept c Hc.
  - unfold get_container_status. destruct (db !! i); amount_kept c Hc.
  - unfold validate_container. destruct p as [i force]; simpl in *.
    injection Ha as ->. rewrite Hc.
    destruct (force || negb (document_validated c)); [| amount_kept c Hc].
    simpl. destruct (no_errors _); simpl; amount_kept c Hc.
  - injection Ha as ->. unfold check_customs_status. rewrite Hc.
    destruct (customs_duty_amount c) eqn:Hd; [amount_kept c Hc |].
    destruct (match cargo_weight c with
              | Some cents => if cents =? 0 then Some FLAT_DUTY else duty_of_weight cents
              | None => Some FLAT_DUTY
              end) as [amount |] eqn:Hamount; [| amount_kept c Hc].
    destruct (duty_column amount) as [held |] eqn:Hheld; [| amount_kept c Hc].
    simpl. rewrite lookup_insert_eq. eexists. split; [reflexivity |].
    right. split; [reflexivity |]. exists held. split; [reflexivity |].
    assert (amount = FLAT_DUTY -> ~ (held == 0)%Q) as Hflat.
    { intros ->. rewrite duty_column_flat in Hheld. injection Hheld as <-.
      intros E. discriminate E. }
    destruct (cargo_weight c) as [cents |]; [| injection Hamount as <-; auto].
    destruct (cents =? 0) eqn:Hz; [injection Hamount as <-; auto |].
    apply Z.eqb_neq in Hz. exact (duty_column_nonzero cents amount held Hz Hamount Hheld).
  - unfold pay_customs_duty. destruct p as [i amount ref]; simpl in *.
    injection Ha as ->. rewrite Hc.
    destruct (CustomsStatus.eqb (customs_status c) CustomsStatus.PAID); [amount_kept c Hc |].
    destruct (match customs_duty_amount c with
              | Some due => Decimal_bool due && Decimal_lt amount due
              | None => false
              end); [amount_kept c Hc |].
    destruct ref as [[| a r] |]; simpl; amount_kept c Hc.
  - injection Ha as ->. unfold check_shipping_status. rewrite Hc. simpl. amount_kept c Hc.
  - unfold schedule_inspection. destruct p as [i pref]; simpl in *.
    injection Ha as ->. rewrite Hc.
    destruct (negb (CustomsStatus.eqb (customs_status c) CustomsStatus.PAID));
      [amount_kept c Hc |].
    destruct (InspectionStatus.eqb (inspection_status c) InspectionStatus.SCHEDULED);
      [amount_kept c Hc |].
    simpl. amount_kept c Hc.
  - injection Ha as ->. unfold complete_inspection. rewrite Hc. simpl.
    destruct passed; amount_kept c Hc.
  - injection Ha as ->. unfold release_container. rewrite Hc.
    destruct (negb (InspectionStatus.eqb (inspection_status c) InspectionStatus.PASSED));
      [amount_kept c Hc |].
    simpl. amount_kept c Hc.
Qed.

(** A row that a request creates has no amount yet. *)
Lemma exec_new_row now call db id c' :
  db !! id = None ->
  (exec now call db).2 !! id = Some c' ->
  customs_duty_amount c' = None.
Proof.
  intros Hnone. destruct (decide (addressed call = Some id)) as [Ha | Hne].
  2: { rewrite exec_other by exact Hne. rewrite Hnone. intros E. discriminate E. }
  destruct call as [fn fc | i | p | i | p | i | p | i passed | i].
  - simpl in *. unfold upload_bill_of_lading.
    destruct (negb (endswith (lower fn) ".pdf")); [simpl; congruence |].
    destruct (negb (success (parse_bill_of_lading fc fn))); [simpl; congruence |].
    rewrite Ha, Hnone.
    destruct (d_cargo_weight (data (parse_bill_of_lading fc fn))) as [w |];
      [destruct (weight_column w) |]; simpl; try congruence;
      rewrite lookup_insert_eq; intros E; injection E as <-; reflexivity.
  - rewrite (proj1 (unknown_row_untouched now _ db id Ha ltac:(discriminate) Hnone)). congruence.
  - rewrite (proj1 (unknown_row_untouched now _ db id Ha ltac:(discriminate) Hnone)). congruence.
  - rewrite (proj1 (unknown_row_untouched now _ db id Ha ltac:(discriminate) Hnone)). congruence.
  - rewrite (proj1 (unknown_row_untouched now _ db id Ha ltac:(discriminate) Hnone)). congruence.
  - rewrite (proj1 (unknown_row_untouched now _ db id Ha ltac:(discriminate) Hnone)). congruence.
  - rewrite (proj1 (unknown_row_untouched now _ db id Ha ltac:(discriminate) Hnone)). congruence.
  - rewrite (proj1 (unknown_row_untouched now _ db id Ha ltac:(discriminate) Hnone)). congruence.
  - rewrite (proj1 (unknown_row_untouched now _ db id Ha ltac:(discriminate) Hnone)). congruence.
Qed.

Lemma run_assessed_nonzero calls db :
  assessed_nonzero db -> assessed_nonzero (run calls db).
Proof.
  revert db. induction calls as [| [now call] rest IH]; intros db Hdb; [exact Hdb |].
  simpl. apply IH. intros id c' due Hc' Hdue.
  destruct (db !! id) as [c |] eqn:Hc.
  - destruct (exec_amount now call db id c Hc) as (c1 & H1 & [Hsame | (_ & d & Hd & Hnz)]).
    + rewrite H1 in Hc'. injection Hc' as <-. rewrite Hsame in Hdue.
      exact (Hdb id c due Hc Hdue).
    + rewrite H1 in Hc'. injection Hc' as <-. rewrite Hd in Hdue. injection Hdue as <-.
      exact Hnz.
  - rewrite (exec_new_row now call db id c' Hc Hc') in Hdue. discriminate Hdue.
Qed.

(** In every table that the engine builds from the empty one, an assessed
    amount is not zero. *)
Lemma reachable_assessed_nonzero db : reachable db -> assessed_nonzero db.
Proof.
  intros (calls & <-). apply run_assessed_nonzero.
  intros id c due Hc. rewrite lookup_empty in Hc. discriminate Hc.
Qed.

(** C3. In every table that the engine builds from the empty one, for a
    container with an assessed [customs_duty_amount] and a [customs_status]
    that is not [PAID]: a payment strictly below the amount is refused with
    "Insufficient payment" and the table is left as it is; a payment of the
    amount or more is accepted and sets [customs_status = PAID]; after it,
    whatever requests follow, every PayCustomsDuty on the container is
    refused with "Already paid" and changes nothing. *)
Theorem pay_customs_duty_guard now payload db c due :
  reachable db ->
  db !! CustomsPaymentRequestSchema.container_id payload = Some c ->
  customs_status c <> CustomsStatus.PAID ->
  customs_duty_amount c = Some due ->
  ((CustomsPaymentRequestSchema.amount payload < due)%Q ->
     pay_customs_duty now payload db =
       (Error 400 {| ErrorSchema.error := "Insufficient payment";
                     ErrorSchema.details := Some ("Amount due: " +:+ format_naira due) |},
        db)) /\
  ((due <= CustomsPaymentRequestSchema.amount payload)%Q ->
     exists c',
       (pay_customs_duty now payload db).2 =
         <[CustomsPaymentRequestSchema.container_id payload := c']> db /\
       outcome (pay_customs_duty now payload db).1 = Accepted /\
       customs_status c' = CustomsStatus.PAID /\
       forall calls now' payload',
         CustomsPaymentRequestSchema.container_id payload' =
           CustomsPaymentRequestSchema.container_id payload ->
         pay_customs_duty now' payload' (run calls (pay_customs_duty now payload db).2) =
           (Error 400 {| ErrorSchema.error := "Already paid";
                         ErrorSchema.details := Some "Customs duty has already been paid" |},
            run calls (pay_customs_duty now payload db).2)).
Proof.
  intros Hreach Hc Hne Hdue.
  apply (pay_customs_duty_guard_nonzero now payload db c due Hc Hne Hdue).
  exact (reachable_assessed_nonzero db Hreach _ c due Hc Hdue).
Qed.

End MoreProperties.

(** * Properties of the bill of lading parser *)

Lemma append_cons c (a b : string) : String c a +:+ b = String c (a +:+ b).
Proof. reflexivity. Qed.

Lemma append_nil_l (b : string) : EmptyString +:+ b = b.
Proof. reflexivity. Qed.

Ltac sapp := simpl in *; rewrite ?append_cons, ?append_nil_l in *; simpl in *.

Lemma append_assoc (a b c : string) : (a +:+ b) +:+ c = a +:+ (b +:+ c).
Proof. induction a as [| x a IH]; [reflexivity |]. rewrite !append_cons. now rewrite IH. Qed.

Lemma append_nil_r (a : string) : a +:+ EmptyString = a.
Proof. induction a as [| x a IH]; [reflexivity |]. rewrite append_cons. now rewrite IH. Qed.

Lemma length_append (a b : string) :
  String.length (a +:+ b) = (String.length a + String.length b)%nat.
Proof. induction a as [| x a IH]; [reflexivity |]. rewrite append_cons. simpl. now rewrite IH. Qed.

Lemma append_inv_length (a b a' b' : string) :
  a +:+ b = a' +:+ b' -> String.length a = String.length a' -> a = a' /\ b = b'.
Proof.
  revert a'. induction a as [| x a IH]; intros [| x' a'] E Hl; sapp;
    try discriminate Hl.
  - now split.
  - injection E as -> E. injection Hl as Hl. destruct (IH _ E Hl) as [-> ->]. now split.
Qed.

Lemma char_before_app prev pre c :
  char_before prev (pre +:+ String c EmptyString) = Some c.
Proof. revert prev. induction pre as [| x pre IH]; intros prev; sapp; auto. Qed.

(** [search] returns the match at the leftmost position that has one. *)
Lemma search_Some {A : Type} (m : option ascii -> string -> option A) prev s x :
  search m prev s = Some x <->
    exists pre post,
      s = pre +:+ post /\ m (char_before prev pre) post = Some x /\
      forall pre' post', s = pre' +:+ post' ->
        (String.length pre' < String.length pre)%nat ->
        m (char_before prev pre') post' = None.
Proof.
  revert prev. induction s as [| c s IH]; intros prev.
  - simpl. destruct (m prev EmptyString) as [y |] eqn:Hm.
    + split.
      * intros E. exists EmptyString, EmptyString. repeat split; [simpl; congruence |].
        intros pre' post' _ Hlt. simpl in Hlt. lia.
      * intros (pre & post & E & Hx & _).
        destruct pre; [| discriminate E]. sapp. subst post. congruence.
    + split; [intros E; discriminate E |].
      intros (pre & post & E & Hx & _).
      destruct pre; [| discriminate E]. sapp. subst post. congruence.
  - simpl. destruct (m prev (String c s)) as [y |] eqn:Hm.
    + split.
      * intros E. exists EmptyString, (String c s). repeat split; [simpl; congruence |].
        intros pre' post' _ Hlt. simpl in Hlt. lia.
      * intros (pre & post & E & Hx & Hleft).
        destruct pre as [| c' pre].
        -- sapp. subst post. congruence.
        -- specialize (Hleft EmptyString (String c s) eq_refl). simpl in Hleft.
           rewrite Hleft in Hm; [discriminate Hm | lia].
    + rewrite IH. split.
      * intros (pre & post & -> & Hx & Hleft).
        exists (String c pre), post. repeat split; [exact Hx |].
        intros pre' post' E Hlt. destruct pre' as [| c' pre'].
        -- rewrite append_nil_l in E. subst post'. exact Hm.
        -- rewrite !append_cons in E. injection E as <- E. simpl. apply Hleft; [exact E |].
           simpl in Hlt. lia.
      * intros (pre & post & E & Hx & Hleft). destruct pre as [| c' pre].
        -- rewrite append_nil_l in E. simpl in Hx. subst post. congruence.
        -- rewrite append_cons in E. injection E as <- E. exists pre, post. simpl in Hx.
           repeat split; [exact E | exact Hx |].
           intros pre' post' E' Hlt.
           apply (Hleft (String c pre') post'); [rewrite append_cons; now rewrite E' | simpl; lia].
Qed.

(** [search] finds nothing exactly when no position has a match. *)
Lemma search_None {A : Type} (m : option ascii -> string -> option A) prev s :
  search m prev s = None <->
    forall pre post, s = pre +:+ post -> m (char_before prev pre) post = None.
Proof.
  revert prev. induction s as [| c s IH]; intros prev; simpl.
  - destruct (m prev EmptyString) as [y |] eqn:Hm.
    + split; [intros E; discriminate E |]. intros H.
      specialize (H EmptyString EmptyString eq_refl). simpl in H. congruence.
    + split; [| reflexivity]. intros _ pre post E.
      destruct pre; [| discriminate E]. rewrite append_nil_l in E. subst post. exact Hm.
  - destruct (m prev (String c s)) as [y |] eqn:Hm.
    + split; [intros E; discriminate E |]. intros H.
      specialize (H EmptyString (String c s) eq_refl). simpl in H. congruence.
    + rewrite IH. split.
      * intros H pre post E. destruct pre as [| c' pre].
        -- rewrite append_nil_l in E. subst post. exact Hm.
        -- rewrite append_cons in E. injection E as <- E. simpl. now apply H.
      * intros H pre post E. apply (H (String c pre) post). rewrite append_cons. now rewrite E.
Qed.

Lemma upper_is_word c : is_upper_AZ c = true -> is_word c = true.
Proof. destruct c as [[] [] [] [] [] [] [] []]; vm_compute; congruence. Qed.

Lemma digit_is_word c : is_digit c = true -> is_word c = true.
Proof. destruct c as [[] [] [] [] [] [] [] []]; vm_compute; congruence. Qed.

Lemma boundary_word_after prev c r :
  is_word c = true ->
  boundary prev (String c r) = negb (match prev with Some p => is_word p | None => false end).
Proof. intros H. unfold boundary. rewrite H. now destruct (match prev with Some p => is_word p | None => false end). Qed.

Lemma boundary_word_before c s :
  is_word c = true -> boundary (Some c) s = negb (word_after s).
Proof. intros H. unfold boundary, word_after. rewrite H. reflexivity. Qed.

Lemma match_id_here_iff prev s id :
  match_id_here prev s = Some id <->
    exists post,
      s = id +:+ post /\ container_id_shape id = true /\
      word_char prev = false /\ word_after post = false.
Proof.
  split.
  - unfold match_id_here.
    destruct (boundary prev s) eqn:Hb; [| intros E; discriminate E].
    destruct (re_repeat is_upper_AZ 4 s) as [r |] eqn:H1; [| intros E; discriminate E].
    destruct (re_repeat is_digit 7 r) as [r' |] eqn:H2; [| intros E; discriminate E].
    destruct (boundary (String.get 10 s) r') eqn:Hb2; [| intros E; discriminate E].
    intros E. injection E as <-.
    apply re_repeat_iff in H1, H2.
    destruct H1 as (l1 & Hl1 & Ha1 & ->), H2 as (l2 & Hl2 & Ha2 & ->).
    destruct l1 as [| a1 [| a2 [| a3 [| a4 [| ? ?]]]]]; try discriminate Hl1.
    destruct l2 as [| d1 [| d2 [| d3 [| d4 [| d5 [| d6 [| d7 [| ? ?]]]]]]]];
      try discriminate Hl2.
    cbn [forallb] in Ha1, Ha2.
    repeat match goal with H : _ && _ = true |- _ => apply andb_true_iff in H; destruct H end.
    cbn [String.string_of_list_ascii] in *. repeat (rewrite append_cons in * || rewrite append_nil_l in *).
    exists r'. cbn [slice_to String.get] in *. repeat (rewrite append_cons || rewrite append_nil_l).
    split; [reflexivity |].
    rewrite boundary_word_after in Hb by now apply upper_is_word.
    rewrite boundary_word_before in Hb2 by now apply digit_is_word.
    apply negb_true_iff in Hb, Hb2.
    split; [| split; assumption].
    unfold container_id_shape. cbn [re_repeat].
    repeat match goal with H : _ = true |- _ => rewrite H; clear H end. reflexivity.
  - intros (post & -> & Hs & Hp & Ha). unfold container_id_shape in Hs.
    destruct (re_repeat is_upper_AZ 4 id) as [r |] eqn:H1; [| discriminate Hs].
    destruct (re_repeat is_digit 7 r) as [[| ? ?] |] eqn:H2; try discriminate Hs.
    apply re_repeat_iff in H1, H2.
    destruct H1 as (l1 & Hl1 & Ha1 & ->), H2 as (l2 & Hl2 & Ha2 & ->).
    destruct l1 as [| a1 [| a2 [| a3 [| a4 [| ? ?]]]]]; try discriminate Hl1.
    destruct l2 as [| d1 [| d2 [| d3 [| d4 [| d5 [| d6 [| d7 [| ? ?]]]]]]]];
      try discriminate Hl2.
    cbn [forallb] in Ha1, Ha2.
    repeat match goal with H : _ && _ = true |- _ => apply andb_true_iff in H; destruct H end.
    cbn [String.string_of_list_ascii] in *. repeat (rewrite append_cons in * || rewrite append_nil_l in *).
    unfold match_id_here.
    repeat (rewrite append_cons || rewrite append_nil_l).
    rewrite boundary_word_after by now apply upper_is_word.
    change (word_char prev) with (match prev with Some p => is_word p | None => false end) in Hp.
    rewrite Hp. cbn [negb re_repeat].
    repeat (match goal with H : ?p ?c = true |- context [?p ?c] => rewrite H end;
            cbn [re_repeat]).
    cbn [String.get slice_to].
    rewrite boundary_word_before by now apply digit_is_word. rewrite Ha. reflexivity.
Qed.

Lemma re_repeat_slice p n s r :
  re_repeat p n s = Some r ->
  s = slice_to n s +:+ r /\ all_chars p (slice_to n s) = true /\
  String.length (slice_to n s) = n.
Proof.
  revert s. induction n as [| n IH]; intros s; simpl.
  - intros E. injection E as <-. destruct s; repeat split.
  - destruct s as [| c s]; [intros E; discriminate E |].
    destruct (p c) eqn:Hp; [| intros E; discriminate E].
    intros E. destruct (IH _ E) as (E1 & E2 & E3).
    rewrite ?append_cons, <- E1. simpl. rewrite Hp, E2, E3. repeat split.
Qed.

Lemma re_repeat_append p t post :
  all_chars p t = true -> re_repeat p (String.length t) (t +:+ post) = Some post.
Proof.
  induction t as [| c t IH]; simpl; [reflexivity |].
  intros H. apply andb_true_iff in H. destruct H as [Hc Ht].
  rewrite ?append_cons, Hc. now apply IH.
Qed.

Lemma slice_to_append t post : slice_to (String.length t) (t +:+ post) = t.
Proof.
  induction t as [| c t IH]; simpl.
  - rewrite ?append_nil_l. now destruct post.
  - rewrite ?append_cons. now rewrite IH.
Qed.

Lemma get_last_of_run p t post :
  all_chars p t = true -> t <> EmptyString ->
  exists c, String.get (String.length t - 1) (t +:+ post) = Some c /\ p c = true.
Proof.
  induction t as [| c t IH]; simpl; [congruence |].
  intros H _. apply andb_true_iff in H. destruct H as [Hc Ht].
  rewrite ?append_cons. destruct t as [| c' t'].
  - exists c. simpl. now split.
  - destruct (IH Ht) as (x & Hx & Hpx); [discriminate |]. exists x. split; [| exact Hpx].
    simpl in Hx |- *. rewrite Nat.sub_0_r in Hx. exact Hx.
Qed.

Lemma match_digits_here_iff n s t :
  (0 < n)%nat ->
  match_digits_here n s = Some t <->
    exists post,
      s = t +:+ post /\ all_chars is_digit t = true /\ String.length t = n /\
      word_after post = false.
Proof.
  intros Hn. unfold match_digits_here. split.
  - destruct (re_repeat is_digit n s) as [r |] eqn:H1; [| intros E; discriminate E].
    destruct (re_repeat_slice _ _ _ _ H1) as (E1 & E2 & E3).
    destruct (get_last_of_run is_digit (slice_to n s) r E2) as (c & Hc & Hd).
    { intros E. rewrite E in E3. simpl in E3. lia. }
    rewrite E3, <- E1 in Hc. rewrite Hc.
    rewrite boundary_word_before by now apply digit_is_word.
    destruct (word_after r) eqn:Hr; [intros E; discriminate E |].
    intros E. injection E as <-. exists r. repeat split; assumption.
  - intros (post & -> & Hd & <- & Ha).
    rewrite re_repeat_append by exact Hd.
    destruct (get_last_of_run is_digit t post Hd) as (c & Hc & Hdc).
    { intros E. rewrite E in Hn. simpl in Hn. lia. }
    rewrite Hc, boundary_word_before by now apply digit_is_word.
    rewrite Ha, slice_to_append. reflexivity.
Qed.

(** A run of digits cut off by a character that is no word character is
    determined by the text. *)
Lemma digit_run_unique t post t' post' :
  t +:+ post = t' +:+ post' ->
  all_chars is_digit t = true -> all_chars is_digit t' = true ->
  word_after post = false -> word_after post' = false -> t = t'.
Proof.
  revert t'. induction t as [| c t IH]; intros [| c' t'] E Ht Ht' Ha Ha'.
  - reflexivity.
  - rewrite ?append_nil_l, ?append_cons in E. subst post. simpl in Ht', Ha.
    apply andb_true_iff in Ht'. destruct Ht' as [Hc _].
    rewrite (digit_is_word _ Hc) in Ha. discriminate Ha.
  - rewrite ?append_nil_l, ?append_cons in E. subst post'. simpl in Ht, Ha'.
    apply andb_true_iff in Ht. destruct Ht as [Hc _].
    rewrite (digit_is_word _ Hc) in Ha'. discriminate Ha'.
  - rewrite ?append_cons in E. injection E as -> E. simpl in Ht, Ht'.
    apply andb_true_iff in Ht, Ht'. destruct Ht as [_ Ht], Ht' as [_ Ht'].
    f_equal. now apply (IH t').
Qed.

Lemma tin_shape_iff t :
  tin_shape t = true <->
    all_chars is_digit t = true /\ (10 <= String.length t <= 12)%nat.
Proof.
  unfold tin_shape. rewrite !andb_true_iff, Nat.leb_le, Nat.leb_le. tauto.
Qed.

Lemma match_tin_here_iff prev s t :
  match_tin_here prev s = Some t <->
    exists post,
      s = t +:+ post /\ tin_shape t = true /\
      word_char prev = false /\ word_after post = false.
Proof.
  assert (Hfirst : forall t post, s = t +:+ post -> all_chars is_digit t = true ->
            (0 < String.length t)%nat -> boundary prev s = negb (word_char prev)).
  { intros [| c t'] post -> Hd Hl; [simpl in Hl; lia |].
    simpl in Hd. apply andb_true_iff in Hd. destruct Hd as [Hc _].
    rewrite ?append_cons. now apply boundary_word_after, digit_is_word. }
  unfold match_tin_here. split.
  - destruct (boundary prev s) eqn:Hb; [| intros E; discriminate E].
    intros E.
    assert (exists n, (10 <= n <= 12)%nat /\ match_digits_here n s = Some t) as (n & Hn & Hm).
    { destruct (match_digits_here 12 s) eqn:H12; [exists 12%nat; split; [lia | congruence] |].
      destruct (match_digits_here 11 s) eqn:H11; [exists 11%nat; split; [lia | congruence] |].
      exists 10%nat. split; [lia | exact E]. }
    apply match_digits_here_iff in Hm; [| lia].
    destruct Hm as (post & -> & Hd & Hl & Ha). exists post.
    assert (Hb' := Hfirst t post eq_refl Hd ltac:(lia)).
    symmetry in Hb'. apply negb_true_iff in Hb'.
    rewrite tin_shape_iff. repeat split; try assumption; lia.
  - intros (post & -> & Hs & Hp & Ha). apply tin_shape_iff in Hs. destruct Hs as [Hd Hl].
    rewrite (Hfirst t post eq_refl Hd) by lia. rewrite Hp. cbn [negb].
    assert (Hsame : forall n t', (0 < n)%nat ->
              match_digits_here n (t +:+ post) = Some t' -> t' = t).
    { intros n t' Hn Hm. apply match_digits_here_iff in Hm; [| exact Hn].
      destruct Hm as (post' & E & Hd' & _ & Ha').
      symmetry. now apply (digit_run_unique t post t' post'). }
    assert (Hhere : match_digits_here (String.length t) (t +:+ post) = Some t).
    { apply match_digits_here_iff; [lia |]. exists post. repeat split; assumption. }
    destruct (match_digits_here 12 (t +:+ post)) as [t' |] eqn:H12.
    { f_equal. apply (Hsame 12%nat); [lia | exact H12]. }
    destruct (match_digits_here 11 (t +:+ post)) as [t' |] eqn:H11.
    { f_equal. apply (Hsame 11%nat); [lia | exact H11]. }
    assert (String.length t = 10%nat) as <-; [| exact Hhere].
    assert (String.length t = 10 \/ String.length t = 11 \/ String.length t = 12)%nat
      as [E | [E | E]] by lia; [exact E | |]; rewrite E in Hhere; congruence.
Qed.

(** What [re.search] returns for a pattern [\b...\b] whose matches are the
    whole words with a given shape. *)
Lemma search_whole_word (m : option ascii -> string -> option string)
    (shape : string -> bool) :
  (forall prev s w,
     m prev s = Some w <->
       exists post, s = w +:+ post /\ shape w = true /\
                    word_char prev = false /\ word_after post = false) ->
  forall text,
    (forall w,
       search m None text = Some w <->
         shape w = true /\
         exists pre post,
           whole_word_at text pre w post /\
           forall pre' w' post',
             shape w' = true -> whole_word_at text pre' w' post' ->
             (String.length pre <= String.length pre')%nat) /\
    (search m None text = None <->
       forall pre w post, shape w = true -> ~ whole_word_at text pre w post).
Proof.
  intros Hm text. split.
  - intros w. rewrite search_Some. split.
    + intros (pre & post0 & -> & Hx & Hleft). apply Hm in Hx.
      destruct Hx as (post & -> & Hs & Hp & Ha). split; [exact Hs |].
      exists pre, post. split; [repeat split; assumption |].
      intros pre' w' post' Hs' (E & Hp' & Ha').
      destruct (Nat.le_gt_cases (String.length pre) (String.length pre')) as [Hle | Hlt];
        [exact Hle |].
      specialize (Hleft pre' (w' +:+ post') E Hlt).
      assert (m (char_before None pre') (w' +:+ post') = Some w') as Hsome.
      { apply Hm. exists post'. repeat split; assumption. }
      congruence.
    + intros (Hs & pre & post & (-> & Hp & Ha) & Hleft).
      exists pre, (w +:+ post). split; [reflexivity |]. split.
      * apply Hm. exists post. repeat split; assumption.
      * intros pre' post0 E Hlt.
        destruct (m (char_before None pre') post0) as [w' |] eqn:Hw'; [| reflexivity].
        apply Hm in Hw'. destruct Hw' as (post' & -> & Hs' & Hp' & Ha').
        specialize (Hleft pre' w' post' Hs' (conj E (conj Hp' Ha'))). lia.
  - rewrite search_None. split.
    + intros Hnone pre w post Hs (-> & Hp & Ha).
      specialize (Hnone pre (w +:+ post) eq_refl).
      assert (m (char_before None pre) (w +:+ post) = Some w) as Hsome.
      { apply Hm. exists post. repeat split; assumption. }
      congruence.
    + intros Hnone pre post0 ->.
      destruct (m (char_before None pre) post0) as [w |] eqn:Hw; [| reflexivity].
      apply Hm in Hw. destruct Hw as (post & -> & Hs & Hp & Ha).
      destruct (Hnone pre w post Hs). repeat split; assumption.
Qed.




Lemma rstrip_prefix s : exists w, s = rstrip s +:+ w /\ all_chars is_space w = true.
Proof.
  induction s as [| c r (w & E & Hw)]; [exists EmptyString; now split |].
  simpl. destruct (rstrip r) as [| a b] eqn:Hr.
  - rewrite append_nil_l in E. subst w. destruct (is_space c) eqn:Hc.
    + exists (String c r). simpl. rewrite Hc, Hw. now split.
    + exists r. now split.
  - exists w. rewrite append_cons, <- E. now split.
Qed.

Lemma rstrip_idem s : rstrip (rstrip s) = rstrip s.
Proof.
  induction s as [| c r IH]; [reflexivity |].
  simpl. destruct (rstrip r) as [| a b] eqn:Hr.
  - destruct (is_space c) eqn:Hc; [reflexivity |]. simpl. now rewrite Hc.
  - change (match rstrip (String a b) with
            | EmptyString => if is_space c then EmptyString else String c EmptyString
            | String _ _ as r' => String c r'
            end = String c (String a b)).
    now rewrite IH.
Qed.

Lemma rstrip_head c r :
  is_space c = false -> exists r', rstrip (String c r) = String c r'.
Proof.
  intros Hc. simpl. destruct (rstrip r) as [| a b]; rewrite ?Hc; eauto.
Qed.

Lemma lstrip_suffix s : exists w, s = w +:+ lstrip s.
Proof.
  induction s as [| c r (w & E)]; [exists EmptyString; reflexivity |].
  simpl. destruct (is_space c).
  - exists (String c w). rewrite append_cons. now rewrite <- E.
  - exists EmptyString. reflexivity.
Qed.

Lemma lstrip_head s :
  lstrip s = EmptyString \/ exists c r, lstrip s = String c r /\ is_space c = false.
Proof.
  induction s as [| c r IH]; [now left |].
  simpl. destruct (is_space c) eqn:Hc; [exact IH |]. right. eauto.
Qed.

Lemma lstrip_nonspace c r : is_space c = false -> lstrip (String c r) = String c r.
Proof. intros Hc. simpl. now rewrite Hc. Qed.

Lemma strip_idem s : strip (strip s) = strip s.
Proof.
  unfold strip. destruct (lstrip_head s) as [-> | (c & r & -> & Hc)]; [reflexivity |].
  destruct (rstrip_head c r Hc) as (r' & E). rewrite E at 1.
  rewrite (lstrip_nonspace _ _ Hc), <- E. apply rstrip_idem.
Qed.

Lemma occurs_in_refl s : occurs_in s s.
Proof. exists EmptyString, EmptyString. now rewrite append_nil_l, append_nil_r. Qed.

Lemma occurs_in_trans a b c : occurs_in a b -> occurs_in b c -> occurs_in a c.
Proof.
  intros (p1 & q1 & ->) (p2 & q2 & ->). exists (p2 +:+ p1), (q1 +:+ q2).
  now rewrite !append_assoc.
Qed.

Lemma occurs_in_suffix a b : occurs_in b (a +:+ b).
Proof. exists a, EmptyString. now rewrite append_nil_r. Qed.

Lemma occurs_in_prefix a b : occurs_in a (a +:+ b).
Proof. exists EmptyString, b. reflexivity. Qed.

Lemma strip_occurs s : occurs_in (strip s) s.
Proof.
  unfold strip. destruct (lstrip_suffix s) as (w & E).
  destruct (rstrip_prefix (lstrip s)) as (w' & E' & _).
  apply occurs_in_trans with (lstrip s).
  - rewrite E' at 2. apply occurs_in_prefix.
  - rewrite E at 2. apply occurs_in_suffix.
Qed.

Lemma all_chars_app p a b :
  all_chars p (a +:+ b) = all_chars p a && all_chars p b.
Proof.
  induction a as [| c a IH]; [reflexivity |].
  rewrite append_cons. simpl. now rewrite IH, andb_assoc.
Qed.

Lemma all_chars_occurs p v s : occurs_in v s -> all_chars p s = true -> all_chars p v = true.
Proof.
  intros (pre & post & ->). rewrite !all_chars_app, !andb_true_iff. tauto.
Qed.

Lemma no_blank_line_tail c s : no_blank_line (String c s) = true -> no_blank_line s = true.
Proof. destruct s as [| b r]; [reflexivity |]. cbn [no_blank_line]. rewrite andb_true_iff. tauto. Qed.

Lemma no_blank_line_suffix a b : no_blank_line (a +:+ b) = true -> no_blank_line b = true.
Proof.
  induction a as [| c a IH]; [now rewrite append_nil_l |].
  rewrite append_cons. intros H. apply IH. now apply no_blank_line_tail in H.
Qed.

Lemma no_blank_line_prefix a b : no_blank_line (a +:+ b) = true -> no_blank_line a = true.
Proof.
  induction a as [| c a IH]; [reflexivity |].
  rewrite append_cons. destruct a as [| c' a'].
  - reflexivity.
  - rewrite append_cons in *. cbn [no_blank_line]. rewrite !andb_true_iff.
    intros [H1 H2]. split; [exact H1 | now apply IH].
Qed.

Lemma no_blank_line_occurs v s :
  occurs_in v s -> no_blank_line s = true -> no_blank_line v = true.
Proof.
  intros (pre & post & ->) H. apply no_blank_line_suffix in H.
  now apply no_blank_line_prefix in H.
Qed.

Lemma match_label_suffix label s r : match_label label s = Some r -> occurs_in r s.
Proof.
  revert s. induction label as [| l label IH]; intros s; simpl.
  - intros E. injection E as ->. apply occurs_in_refl.
  - destruct s as [| c s]; [intros E; discriminate E |].
    destruct (Ascii.eqb (lower_char c) (lower_char l)); [| intros E; discriminate E].
    intros E. apply IH in E. apply occurs_in_trans with s; [exact E |].
    apply (occurs_in_suffix (String c EmptyString) s).
Qed.

Lemma spaces_then_suffix {A : Type} (k : string -> option A) s x :
  spaces_then k s = Some x -> exists rest, occurs_in rest s /\ k rest = Some x.
Proof.
  induction s as [| c r IH]; simpl.
  - intros E. exists EmptyString. split; [apply occurs_in_refl | exact E].
  - assert (Hhere : k (String c r) = Some x ->
              exists rest, occurs_in rest (String c r) /\ k rest = Some x).
    { intros E. exists (String c r). split; [apply occurs_in_refl | exact E]. }
    destruct (is_space c); [| exact Hhere].
    destruct (spaces_then k r) as [y |] eqn:Hr; [| exact Hhere].
    intros E. destruct (IH E) as (rest & Ho & Hk). exists rest. split; [| exact Hk].
    apply occurs_in_trans with r; [exact Ho |].
    apply (occurs_in_suffix (String c EmptyString) r).
Qed.

(** The lazy group always finds an end in a text that is not empty. *)
Lemma lazy_group_total stop acc s :
  stop EmptyString = true -> s <> EmptyString -> lazy_group stop acc s <> None.
Proof.
  intros Hstop. revert acc. induction s as [| c r IH]; intros acc Hs; [congruence |].
  simpl. destruct (stop r) eqn:Hr; [discriminate |].
  apply IH. intros ->. congruence.
Qed.

Lemma spaces_then_total stop s :
  stop EmptyString = true -> s <> EmptyString ->
  spaces_then (lazy_group stop EmptyString) s <> None.
Proof.
  intros Hstop. induction s as [| a s IH]; intros Hs; [congruence |].
  pose proof (lazy_group_total stop EmptyString (String a s) Hstop Hs) as Hk.
  cbn [spaces_then]. destruct (is_space a); [| exact Hk].
  destruct (spaces_then (lazy_group stop EmptyString) s); [discriminate | exact Hk].
Qed.

Lemma spaces_then_lazy_group stop s g :
  stop EmptyString = true ->
  spaces_then (lazy_group stop EmptyString) s = Some g ->
  (exists c, is_space c = true /\ g = String c EmptyString) \/
  (exists c r, occurs_in (String c r) s /\ is_space c = false /\
               lazy_group stop EmptyString (String c r) = Some g).
Proof.
  intros Hstop. induction s as [| c r IH]; simpl; [intros E; discriminate E |].
  destruct (is_space c) eqn:Hc.
  - destruct (spaces_then (lazy_group stop EmptyString) r) as [y |] eqn:Hr.
    + intros E. destruct (IH E) as [H | (c' & r' & Ho & Hc' & Hg)]; [now left |].
      right. exists c', r'. split; [| now split].
      apply occurs_in_trans with r; [exact Ho |].
      apply (occurs_in_suffix (String c EmptyString) r).
    + assert (r = EmptyString) as ->.
      { destruct r as [| c' r']; [reflexivity |]. exfalso.
        apply (spaces_then_total stop (String c' r') Hstop); [discriminate | exact Hr]. }
      rewrite Hstop. intros E. injection E as <-. left. exists c. now split.
  - intros E. right. exists c, r. split; [apply occurs_in_refl | now split].
Qed.

Lemma prefix_cons a b p s :
  String.prefix (String a p) (String b s) = Ascii.eqb a b && String.prefix p s.
Proof.
  cbn [String.prefix]. destruct (ascii_dec a b) as [-> | Hne].
  - now rewrite Ascii.eqb_refl.
  - apply Ascii.eqb_neq in Hne. now rewrite Hne.
Qed.

Lemma prefix_nil s : String.prefix EmptyString s = true.
Proof. now destruct s. Qed.

Lemma startswith_newline c r :
  startswith (String c r) (String newline EmptyString) = Ascii.eqb newline c.
Proof. unfold startswith. now rewrite prefix_cons, prefix_nil, andb_true_r. Qed.

Lemma startswith_blank_line c c' r :
  startswith (String c (String c' r)) (String newline (String newline EmptyString)) =
  Ascii.eqb newline c && Ascii.eqb newline c'.
Proof. unfold startswith. now rewrite !prefix_cons, prefix_nil, andb_true_r. Qed.

Lemma nonspace_not_newline c : is_space c = false -> Ascii.eqb newline c = false.
Proof.
  intros Hc. destruct (Ascii.eqb_spec newline c) as [<- |]; [| reflexivity].
  vm_compute in Hc. discriminate Hc.
Qed.

(** After its first character the single-line group has no line break. *)
Lemma lazy_group_line acc s g :
  lazy_group stop_line acc s = Some g ->
  exists c body rest,
    g = acc +:+ String c body /\ s = String c body +:+ rest /\
    all_chars not_newline body = true.
Proof.
  revert acc. induction s as [| c r IH]; intros acc; simpl; [intros E; discriminate E |].
  destruct (stop_line r) eqn:Hr.
  - intros E. injection E as <-. exists c, EmptyString, r. repeat split.
  - intros E. destruct (IH _ E) as (c' & body & rest & -> & -> & Hb).
    exists c, (String c' body), rest. rewrite append_assoc. repeat split.
    simpl. rewrite Hb, andb_true_r. unfold stop_line in Hr.
    rewrite append_cons, startswith_newline in Hr. apply orb_false_iff in Hr.
    unfold not_newline. rewrite Ascii.eqb_sym. now destruct Hr as [-> _].
Qed.

(** The multi-line group has no blank line when it does not start with one. *)
Lemma lazy_group_paragraph acc s g :
  startswith s (String newline (String newline EmptyString)) = false ->
  lazy_group stop_paragraph acc s = Some g ->
  exists body rest,
    g = acc +:+ body /\ s = body +:+ rest /\ no_blank_line body = true.
Proof.
  revert acc. induction s as [| c r IH]; intros acc Hs; simpl; [intros E; discriminate E |].
  destruct (stop_paragraph r) eqn:Hr.
  - intros E. injection E as <-. exists (String c EmptyString), r. repeat split.
  - intros E. unfold stop_paragraph in Hr. apply orb_false_iff in Hr.
    destruct Hr as [Hr _]. destruct (IH _ Hr E) as (body & rest & -> & -> & Hb).
    exists (String c body), rest. rewrite append_assoc. repeat split.
    destruct body as [| c' body']; [reflexivity |].
    rewrite append_cons in Hs. rewrite startswith_blank_line in Hs.
    change (negb (Ascii.eqb c newline && Ascii.eqb c' newline)
            && no_blank_line (String c' body') = true).
    rewrite Hb, andb_true_r.
    rewrite (Ascii.eqb_sym c), (Ascii.eqb_sym c'). now rewrite Hs.
Qed.

Lemma strip_space c : is_space c = true -> strip (String c EmptyString) = EmptyString.
Proof. intros Hc. unfold strip. simpl. now rewrite Hc. Qed.

Lemma match_field_here_group label stop s g :
  stop EmptyString = true ->
  match_field_here label stop s = Some g ->
  (exists c, is_space c = true /\ g = String c EmptyString) \/
  (exists c r, occurs_in (String c r) s /\ is_space c = false /\
               lazy_group stop EmptyString (String c r) = Some g).
Proof.
  intros Hstop. unfold match_field_here.
  destruct (match_label label s) as [r |] eqn:Hl; [| intros E; discriminate E].
  intros E. apply spaces_then_suffix in E. destruct E as (r1 & Ho1 & E).
  destruct r1 as [| c r2]; [discriminate E |].
  destruct (Ascii.eqb c ":"); [| discriminate E].
  apply (spaces_then_lazy_group stop r2 g Hstop) in E.
  destruct E as [E | (c' & r' & Ho & Hc & Hg)]; [now left |].
  right. exists c', r'. split; [| now split].
  apply occurs_in_trans with r2; [exact Ho |].
  apply occurs_in_trans with (String c r2);
    [apply (occurs_in_suffix (String c EmptyString) r2) |].
  apply occurs_in_trans with r; [exact Ho1 |].
  now apply match_label_suffix with label.
Qed.

(** X23. The value that [extract_field] returns is trimmed (stripping it
    again changes nothing), is a piece of the text, and holds no line break
    when the field is single-line and no blank line when it is multi-line,
    for every label read as plain text (letters and spaces, as at all the
    call sites). *)
Theorem extract_field_value (text label : string) (multiline : bool) (v : string) :
  extract_field text label multiline = Some v ->
  strip v = v /\ occurs_in v text /\
  (if multiline then no_blank_line v else all_chars not_newline v) = true.
Proof.
  unfold extract_field.
  destruct (search _ None text) as [g |] eqn:Hs; [| intros E; discriminate E].
  intros E. injection E as <-. split; [apply strip_idem |].
  apply search_Some in Hs. destruct Hs as (pre & post & -> & Hm & _).
  apply match_field_here_group in Hm; [| now destruct multiline].
  destruct Hm as [(c & Hc & ->) | (c & r & Ho & Hc & Hg)].
  - rewrite (strip_space c Hc). split; [| now destruct multiline].
    exists EmptyString, (pre +:+ post). reflexivity.
  - assert (Hpost : occurs_in (String c r) (pre +:+ post)).
    { apply occurs_in_trans with post; [exact Ho | apply occurs_in_suffix]. }
    destruct multiline.
    + apply lazy_group_paragraph in Hg.
      * destruct Hg as (body & rest & -> & E & Hb). rewrite append_nil_l. split.
        -- apply occurs_in_trans with body; [apply strip_occurs |].
           apply occurs_in_trans with (String c r); [| exact Hpost].
           rewrite E. apply occurs_in_prefix.
        -- apply (no_blank_line_occurs _ body); [apply strip_occurs | exact Hb].
      * destruct r as [| c' r'];
          [unfold startswith; now rewrite prefix_cons, (nonspace_not_newline c Hc) |].
        rewrite startswith_blank_line, (nonspace_not_newline c Hc). reflexivity.
    + apply lazy_group_line in Hg.
      destruct Hg as (c0 & body & rest & -> & E & Hb). rewrite append_nil_l.
      rewrite append_cons in E. injection E as <- E. split.
      * apply occurs_in_trans with (String c body); [apply strip_occurs |].
        apply occurs_in_trans with (String c r); [| exact Hpost].
        rewrite E. apply (occurs_in_prefix (String c body) rest).
      * apply (all_chars_occurs _ _ (String c body)); [apply strip_occurs |].
        simpl. rewrite Hb, andb_true_r. unfold not_newline.
        rewrite Ascii.eqb_sym, (nonspace_not_newline c Hc). reflexivity.
Qed.

Section ParserProperties.

Context {PL : PdfLibrary}.

Lemma container_id_shape_facts id :
  container_id_shape id = true ->
  String.length id = 11%nat /\ match_container_id id = true /\ id <> EmptyString.
Proof.
  unfold container_id_shape, match_container_id.
  destruct (re_repeat is_upper_AZ 4 id) as [r |] eqn:H1; [| intros E; discriminate E].
  destruct (re_repeat is_digit 7 r) as [[| ? ?] |] eqn:H2; try (intros E; discriminate E).
  intros _. apply re_repeat_slice in H1, H2.
  destruct H1 as (E1 & _ & L1), H2 as (E2 & _ & L2).
  rewrite append_nil_r in E2. split; [| split; [reflexivity |]].
  - rewrite E1, length_append, L1, E2, L2. reflexivity.
  - intros ->. discriminate L1.
Qed.

Lemma tin_shape_facts t :
  tin_shape t = true ->
  (10 <= String.length t <= 12)%nat /\ match_tin t = true /\ t <> EmptyString.
Proof.
  intros H. apply tin_shape_iff in H. destruct H as [Hd Hl]. split; [exact Hl |]. split.
  - assert (Hn : re_repeat_end is_digit (String.length t) t = true).
    { unfold re_repeat_end. rewrite <- (append_nil_r t) at 2.
      now rewrite (re_repeat_append is_digit t EmptyString Hd). }
    unfold match_tin.
    assert (String.length t = 10 \/ String.length t = 11 \/ String.length t = 12)%nat
      as [E | [E | E]] by lia; rewrite E in Hn; rewrite Hn;
      rewrite ?orb_true_r; reflexivity.
  - intros ->. simpl in Hl. lia.
Qed.

Lemma extract_container_id_shape text id :
  extract_container_id text = Some id -> container_id_shape id = true.
Proof.
  intros H.
  apply (proj1 (search_whole_word match_id_here container_id_shape
                  match_id_here_iff text) id) in H.
  exact (proj1 H).
Qed.

Lemma extract_tin_shape text t : extract_tin text = Some t -> tin_shape t = true.
Proof.
  intros H.
  apply (proj1 (search_whole_word match_tin_here tin_shape match_tin_here_iff text) t) in H.
  exact (proj1 H).
Qed.

Lemma digit_char_is_digit n : is_digit (digit_char n) = true.
Proof.
  unfold digit_char. pose proof (Z.mod_pos_bound n 10 ltac:(lia)) as Hn.
  assert (n mod 10 = 0 \/ n mod 10 = 1 \/ n mod 10 = 2 \/ n mod 10 = 3 \/ n mod 10 = 4 \/
          n mod 10 = 5 \/ n mod 10 = 6 \/ n mod 10 = 7 \/ n mod 10 = 8 \/ n mod 10 = 9)
    as H by lia.
  repeat destruct H as [H | H]; rewrite H; reflexivity.
Qed.

Lemma format_07d_digits n :
  String.length (format_07d n) = 7%nat /\ all_chars is_digit (format_07d n) = true.
Proof.
  split; [reflexivity |]. unfold format_07d. cbn [all_chars].
  rewrite !digit_char_is_digit. reflexivity.
Qed.

Lemma slice_to_length n s : (String.length (slice_to n s) <= n)%nat.
Proof.
  revert s. induction n as [| n IH]; intros [| c s]; simpl; try lia.
  specialize (IH s). lia.
Qed.

Lemma stored_fits n value : fits n (stored n value) = true.
Proof.
  destruct value as [[| c v] |]; try reflexivity.
  cbn [stored fits]. apply Nat.leb_le, slice_to_length.
Qed.

Lemma stored_truthy n value : (0 < n)%nat -> truthy (stored n value) = truthy value.
Proof.
  intros Hn. destruct value as [[| c v] |]; try reflexivity.
  destruct n; [lia | reflexivity].
Qed.

Lemma strip_length_truthy text :
  negb (truthy (Some text)) || (String.length (strip text) <? 50)%nat =
  (String.length (strip text) <? 50)%nat.
Proof. destruct text; reflexivity. Qed.

(** What every successful parse looks like. *)
Lemma parse_success file_content filename :
  success (BillOfLadingParser.parse_bill_of_lading file_content filename) = true ->
  exists text id,
    BillOfLadingParser.extract_text_from_pdf file_content = inl text /\
    (50 <= String.length (strip text))%nat /\
    d_container_id (data (BillOfLadingParser.parse_bill_of_lading file_content filename))
      = Some id /\
    ((extract_container_id text = Some id /\ container_id_shape id = true /\
      errors (BillOfLadingParser.parse_bill_of_lading file_content filename) = []) \/
     (extract_container_id text = None /\
      id = "DEMO" +:+ format_07d (str_hash (slice_to 100 text) mod 10000000) /\
      errors (BillOfLadingParser.parse_bill_of_lading file_content filename)
        = [ERR_NO_CONTAINER_ID])) /\
    exists vessel importer address pol pod description,
      d_vessel_name (data (BillOfLadingParser.parse_bill_of_lading file_content filename))
        = stored 120 vessel /\
      d_importer_name (data (BillOfLadingParser.parse_bill_of_lading file_content filename))
        = stored 200 importer /\
      d_importer_address (data (BillOfLadingParser.parse_bill_of_lading file_content filename))
        = stored 500 address /\
      d_tin (data (BillOfLadingParser.parse_bill_of_lading file_content filename))
        = stored_whole (extract_tin text) /\
      d_port_of_loading (data (BillOfLadingParser.parse_bill_of_lading file_content filename))
        = stored 100 pol /\
      d_port_of_discharge (data (BillOfLadingParser.parse_bill_of_lading file_content filename))
        = stored 100 pod /\
      d_cargo_description (data (BillOfLadingParser.parse_bill_of_lading file_content filename))
        = stored 1000 description.
Proof.
  unfold BillOfLadingParser.parse_bill_of_lading.
  destruct (BillOfLadingParser.extract_text_from_pdf file_content) as [text | exn];
    [| intros E; discriminate E].
  rewrite strip_length_truthy.
  destruct (String.length (strip text) <? 50)%nat eqn:Hlen; [intros E; discriminate E |].
  apply Nat.ltb_ge in Hlen. intros _.
  destruct (extract_container_id text) as [id |] eqn:Hid.
  - pose proof (extract_container_id_shape text id Hid) as Hs.
    destruct (container_id_shape_facts id Hs) as (_ & _ & Hne).
    destruct id as [| c id']; [congruence |].
    exists text, (String c id'). cbn [data d_container_id errors].
    split; [reflexivity |]. split; [exact Hlen |]. split; [reflexivity |].
    split; [left; repeat split; assumption |].
    cbn [d_vessel_name d_importer_name d_importer_address d_tin d_port_of_loading
           d_port_of_discharge d_cargo_description].
    do 6 eexists. repeat split; reflexivity.
  - eexists text, _. cbn [data d_container_id errors].
    split; [reflexivity |]. split; [exact Hlen |]. split; [reflexivity |].
    split; [right; split; [exact Hid | split; reflexivity] |].
    cbn [d_vessel_name d_importer_name d_importer_address d_tin d_port_of_loading
           d_port_of_discharge d_cargo_description].
    do 6 eexists. repeat split; reflexivity.
Qed.

(** On parsed data the identifier rules and the TIN rule do not fire. *)
Lemma parsed_rules file_content filename :
  success (BillOfLadingParser.parse_bill_of_lading file_content filename) = true ->
  let d := data (BillOfLadingParser.parse_bill_of_lading file_content filename) in
  rule_id_required d = false /\ rule_id_format d = false /\ rule_tin_format d = false.
Proof.
  intros Hok d.
  destruct (parse_success file_content filename Hok)
    as (text & id & _ & _ & Hid & Hcase & _ & _ & _ & _ & _ & _ & _ & _ & _ & Htin & _).
  fold d in Hid, Htin.
  unfold rule_id_required, rule_id_format, rule_tin_format. rewrite Hid, Htin.
  split; [| split].
  - destruct Hcase as [(_ & Hs & _) | (_ & -> & _)]; [| reflexivity].
    destruct (container_id_shape_facts id Hs) as (_ & _ & Hne).
    destruct id; [congruence | reflexivity].
  - destruct Hcase as [(_ & Hs & _) | (_ & -> & _)].
    + destruct (container_id_shape_facts id Hs) as (_ & Hm & Hne).
      destruct id as [| c id']; [congruence |]. now rewrite Hm.
    + set (digits := format_07d _).
      assert (Hd : startswith ("DEMO" +:+ digits) "DEMO" = true) by reflexivity.
      change ("DEMO" +:+ digits) with (String "D" ("EMO" +:+ digits)) in Hd |- *.
      cbv beta iota. rewrite Hd. apply andb_false_r.
  - destruct (extract_tin text) as [t |] eqn:Ht; [| reflexivity].
    apply extract_tin_shape in Ht. destruct (tin_shape_facts t Ht) as (_ & Hm & Hne).
    destruct t as [| c t']; [congruence |]. cbn [stored_whole]. now rewrite Hm.
Qed.

Lemma names_only_errors d :
  rule_id_required d = false -> rule_id_format d = false -> rule_tin_format d = false ->
  validate_container_data d =
    (if truthy (d_vessel_name d) then [] else [ERR_VESSEL_MISSING]) ++
    (if truthy (d_importer_name d) then [] else [ERR_IMPORTER_MISSING]) /\
  no_errors (validate_container_data d) =
    truthy (d_vessel_name d) && truthy (d_importer_name d).
Proof.
  intros H1 H2 H3.
  unfold validate_container_data, append_if, rule_vessel_missing, rule_importer_missing.
  rewrite H1, H2, H3.
  destruct (truthy (d_vessel_name d)), (truthy (d_importer_name d)); split; reflexivity.
Qed.

End ParserProperties.

Section UploadThroughParser.

Context {PL : PdfLibrary} (RT : Runtime).

(** X24. A document that cannot be read is refused and nothing is stored.
    When the PDF library raises, the upload answers 400 "Document parsing
    failed" with the detail "Parsing error: Failed to parse PDF: " followed
    by the library's message; when the pages hold fewer than 50 characters
    once surrounding white space is removed, it answers the same 400 with
    "Document appears to be empty or unreadable"; every other document gets
    past the parser. *)
Theorem unreadable_document_refused (now : nat -> @datetime (with_parser RT PL))
    (file_name file_content : string)
    (db : gmap string (@Container (with_parser RT PL))) :
  endswith (lower file_name) ".pdf" = true ->
  (forall exn,
     page_texts file_content = inr exn ->
     upload_bill_of_lading (RT := with_parser RT PL) now file_name file_content db =
       (Error 400 {| ErrorSchema.error := "Document parsing failed";
                     ErrorSchema.details :=
                       Some ("Parsing error: Failed to parse PDF: " +:+ exn) |}, db)) /\
  (forall text,
     BillOfLadingParser.extract_text_from_pdf file_content = inl text ->
     (String.length (strip text) < 50)%nat ->
     upload_bill_of_lading (RT := with_parser RT PL) now file_name file_content db =
       (Error 400 {| ErrorSchema.error := "Document parsing failed";
                     ErrorSchema.details := Some ERR_UNREADABLE |}, db)) /\
  (forall text,
     BillOfLadingParser.extract_text_from_pdf file_content = inl text ->
     (50 <= String.length (strip text))%nat ->
     success (BillOfLadingParser.parse_bill_of_lading file_content file_name) = true).
Proof.
  intros Hpdf. repeat split.
  - intros exn Hexn. unfold upload_bill_of_lading. rewrite Hpdf.
    cbn [negb parse_bill_of_lading with_parser].
    unfold BillOfLadingParser.parse_bill_of_lading,
      BillOfLadingParser.extract_text_from_pdf.
    rewrite Hexn. reflexivity.
  - intros text Htext Hlen. unfold upload_bill_of_lading. rewrite Hpdf.
    cbn [negb parse_bill_of_lading with_parser].
    unfold BillOfLadingParser.parse_bill_of_lading. rewrite Htext, strip_length_truthy.
    apply Nat.ltb_lt in Hlen. rewrite Hlen. reflexivity.
  - intros text Htext Hlen.
    unfold BillOfLadingParser.parse_bill_of_lading. rewrite Htext, strip_length_truthy.
    apply Nat.ltb_ge in Hlen. rewrite Hlen.
    now destruct (extract_container_id text) as [[| ? ?] |].
Qed.

(** X25. A parse that succeeds always yields an identifier of eleven
    characters.  It is the identifier found in the text, and then the parser
    reports no error; or, when the text holds none, the made-up one, "DEMO"
    followed by seven digits, together with the one error "Container ID not
    found in document", and the parse still counts as a success. *)
Theorem parsed_identifier (file_content filename : string) :
  success (BillOfLadingParser.parse_bill_of_lading file_content filename) = true ->
  exists text id,
    BillOfLadingParser.extract_text_from_pdf file_content = inl text /\
    d_container_id (data (BillOfLadingParser.parse_bill_of_lading file_content filename))
      = Some id /\
    String.length id = 11%nat /\
    ((extract_container_id text = Some id /\
      errors (BillOfLadingParser.parse_bill_of_lading file_content filename) = []) \/
     (extract_container_id text = None /\
      errors (BillOfLadingParser.parse_bill_of_lading file_content filename)
        = [ERR_NO_CONTAINER_ID] /\
      exists digits,
        id = "DEMO" +:+ digits /\ String.length digits = 7%nat /\
        all_chars is_digit digits = true)).
Proof.
  intros Hok.
  destruct (parse_success file_content filename Hok)
    as (text & id & Htext & _ & Hid & Hcase & _).
  exists text, id. split; [exact Htext |]. split; [exact Hid |].
  destruct Hcase as [(Hfound & Hs & Herr) | (Hnone & -> & Herr)].
  - split; [apply (container_id_shape_facts id Hs) |]. left. now split.
  - split; [reflexivity |]. right. split; [exact Hnone |]. split; [exact Herr |].
    eexists. split; [reflexivity |]. apply format_07d_digits.
Qed.

(** X26. On what the parser extracts, validation can only miss the names:
    the identifier rules and the TIN rule never fire, so the error list is
    the vessel message when no vessel name was found, followed by the
    importer message when no importer name was found; the parser's own
    "Container ID not found in document" is never among them. *)
Theorem parsed_document_validation (file_content filename : string) :
  success (BillOfLadingParser.parse_bill_of_lading file_content filename) = true ->
  validate_container_data
    (data (BillOfLadingParser.parse_bill_of_lading file_content filename)) =
    (if truthy (d_vessel_name
                  (data (BillOfLadingParser.parse_bill_of_lading file_content filename)))
     then [] else [ERR_VESSEL_MISSING]) ++
    (if truthy (d_importer_name
                  (data (BillOfLadingParser.parse_bill_of_lading file_content filename)))
     then [] else [ERR_IMPORTER_MISSING]).
Proof.
  intros Hok. destruct (parsed_rules file_content filename Hok) as (H1 & H2 & H3).
  exact (proj1 (names_only_errors _ H1 H2 H3)).
Qed.

(** X27. What the parser extracts fits the columns of the [Container]
    table: the identifier in 20 characters, the vessel name in 120, the
    importer name in 200, the TIN in 50, both ports in 100; the address is
    cut at 500 characters and the cargo description at 1000. *)
Theorem parsed_fields_fit_columns (file_content filename : string) :
  success (BillOfLadingParser.parse_bill_of_lading file_content filename) = true ->
  let d := data (BillOfLadingParser.parse_bill_of_lading file_content filename) in
  fits max_length_container_id (d_container_id d) = true /\
  fits max_length_vessel_name (d_vessel_name d) = true /\
  fits max_length_importer_name (d_importer_name d) = true /\
  fits max_length_tin (d_tin d) = true /\
  fits max_length_port_of_loading (d_port_of_loading d) = true /\
  fits max_length_port_of_discharge (d_port_of_discharge d) = true /\
  fits 500 (d_importer_address d) = true /\
  fits 1000 (d_cargo_description d) = true.
Proof.
  intros Hok d.
  destruct (parse_success file_content filename Hok)
    as (text & id & _ & _ & Hid & Hcase & vessel & importer & address & pol & pod & descr
        & Hv & Hi & Ha & Htin & Hpol & Hpod & Hdescr).
  fold d in Hid, Hv, Hi, Ha, Htin, Hpol, Hpod, Hdescr.
  rewrite Hid, Hv, Hi, Ha, Htin, Hpol, Hpod, Hdescr.
  repeat split; try apply stored_fits.
  - assert (String.length id = 11%nat) as Hl.
    { destruct Hcase as [(_ & Hs & _) | (_ & -> & _)];
        [apply (container_id_shape_facts id Hs) | reflexivity]. }
    cbn [fits]. rewrite Hl. reflexivity.
  - destruct (extract_tin text) as [t |] eqn:Ht; [| reflexivity].
    apply extract_tin_shape in Ht. destruct (tin_shape_facts t Ht) as (Hl & _ & Hne).
    destruct t as [| c t']; [congruence |]. cbn [stored_whole fits].
    apply Nat.leb_le. unfold max_length_tin. lia.
Qed.

(** X28. With the parser in place the upload handler answers 500 only
    because of the weight: whenever the answer is a 500, the document gave
    a weight that the weight column refused, the detail is the column's
    message and nothing was stored.  The missing-key failure on
    [data["container_id"]] cannot happen. *)
Theorem upload_server_error_only_from_weight
    (now : nat -> @datetime (with_parser RT PL)) (file_name file_content : string)
    (db db' : gmap string (@Container (with_parser RT PL))) (e : ErrorSchema.t) :
  upload_bill_of_lading (RT := with_parser RT PL) now file_name file_content db =
    (Error 500 e, db') ->
  exists w exn,
    d_cargo_weight (data (BillOfLadingParser.parse_bill_of_lading file_content file_name))
      = Some w /\
    @weight_column RT w = inr exn /\
    e = {| ErrorSchema.error := "Server error"; ErrorSchema.details := Some exn |} /\
    db' = db.
Proof.
  unfold upload_bill_of_lading.
  destruct (endswith (lower file_name) ".pdf"); [| intros E; discriminate E].
  cbn [negb parse_bill_of_lading with_parser].
  destruct (success (BillOfLadingParser.parse_bill_of_lading file_content file_name))
    eqn:Hok; [| intros E; discriminate E].
  destruct (parse_success file_content file_name Hok) as (text & id & _ & _ & Hid & _).
  cbn [negb]. rewrite Hid.
  destruct (db !! id); [intros E; discriminate E |].
  destruct (d_cargo_weight
              (data (BillOfLadingParser.parse_bill_of_lading file_content file_name)))
    as [w |]; [| intros E; discriminate E].
  cbn [weight_column with_parser].
  destruct (@weight_column RT w) as [cents | exn] eqn:Hw; [intros E; discriminate E |].
  intros E. injection E as <- <-. exists w, exn. repeat split. exact Hw.
Qed.

(** X29. Uploading a readable document through the parser: when the file
    name ends in [.pdf], the parse succeeds, the parsed identifier is not in
    the table and the weight, if any, is accepted by its column, the upload
    is accepted and the stored row carries the parsed identifier and names;
    it is marked [document_validated] exactly when both a vessel name and an
    importer name were found, and its validation errors are the messages of
    the missing names only, also when the identifier is a made-up one. *)
Theorem upload_through_parser_validates
    (now : nat -> @datetime (with_parser RT PL)) (file_name file_content : string)
    (db : gmap string (@Container (with_parser RT PL))) (id : string) :
  endswith (lower file_name) ".pdf" = true ->
  success (BillOfLadingParser.parse_bill_of_lading file_content file_name) = true ->
  d_container_id (data (BillOfLadingParser.parse_bill_of_lading file_content file_name))
    = Some id ->
  db !! id = None ->
  (forall w,
     d_cargo_weight (data (BillOfLadingParser.parse_bill_of_lading file_content file_name))
       = Some w ->
     exists cents, @weight_column RT w = inl cents) ->
  exists c',
    upload_bill_of_lading (RT := with_parser RT PL) now file_name file_content db =
      (Ok {| ContainerCreateSchema.container_id := id;
             ContainerCreateSchema.overall_status := OverallStatus.PENDING_VALIDATION;
             ContainerCreateSchema.message := "Document uploaded and parsed successfully" |},
       <[id := c']> db) /\
    container_id c' = id /\
    vessel_name c' =
      d_vessel_name (data (BillOfLadingParser.parse_bill_of_lading file_content file_name)) /\
    importer_name c' =
      d_importer_name
        (data (BillOfLadingParser.parse_bill_of_lading file_content file_name)) /\
    document_validated c' = truthy (vessel_name c') && truthy (importer_name c') /\
    validation_errors c' =
      (if truthy (vessel_name c') then [] else [ERR_VESSEL_MISSING]) ++
      (if truthy (importer_name c') then [] else [ERR_IMPORTER_MISSING]).
Proof.
  intros Hpdf Hok Hid Hnew Hw.
  destruct (parsed_rules file_content file_name Hok) as (H1 & H2 & H3).
  destruct (names_only_errors _ H1 H2 H3) as [Herrs Hvalid].
  unfold upload_bill_of_lading. rewrite Hpdf.
  cbn [negb parse_bill_of_lading with_parser]. rewrite Hok. cbn [negb].
  rewrite Hid, Hnew.
  destruct (d_cargo_weight
              (data (BillOfLadingParser.parse_bill_of_lading file_content file_name)))
    as [w |].
  - destruct (Hw w eq_refl) as (cents & Hcents). cbn [weight_column with_parser].
    rewrite Hcents. eexists. split; [reflexivity |].
    cbn. repeat split; assumption.
  - eexists. split; [reflexivity |]. cbn. repeat split; assumption.
Qed.

End UploadThroughParser.







(** * Worked instances of the further properties *)

Lemma logs_are_append_only_witness :
  row (single assessed_container) SAMPLE_ID = Some assessed_container /\
  exists c' new,
    row (run polling (single assessed_container)) SAMPLE_ID = Some c' /\
    logs c' = logs assessed_container ++ new /\
    (length new <= 3)%nat.
Proof.
  split; [reflexivity |].
  exact (logs_are_append_only (RT := sample_runtime) (single assessed_container) SAMPLE_ID
           assessed_container eq_refl polling).
Defined.

Lemma document_fields_never_change_witness :
  row (single assessed_container) SAMPLE_ID = Some assessed_container /\
  exists c',
    row (run scenario (single assessed_container)) SAMPLE_ID = Some c' /\
    same_document assessed_container c'.
Proof.
  split; [reflexivity |].
  exact (document_fields_never_change (RT := sample_runtime) (single assessed_container)
           SAMPLE_ID assessed_container eq_refl scenario).
Defined.

Lemma duty_amount_never_reassessed_witness :
  row (single assessed_container) SAMPLE_ID = Some assessed_container /\
  customs_duty_amount assessed_container = Some 185000%Q /\
  exists c',
    row (run scenario (single assessed_container)) SAMPLE_ID = Some c' /\
    customs_duty_amount c' = Some 185000%Q.
Proof.
  split; [reflexivity |]. split; [reflexivity |].
  exact (duty_amount_never_reassessed (RT := sample_runtime) (single assessed_container)
           SAMPLE_ID assessed_container 185000%Q eq_refl eq_refl scenario).
Defined.

Lemma requests_on_others_leave_row_witness :
  (forall now call, In (now, call) elsewhere ->
     addressed (RT := sample_runtime) call <> Some SAMPLE_ID) /\
  row (run elsewhere (single assessed_container)) SAMPLE_ID
    = row (single assessed_container) SAMPLE_ID.
Proof.
  assert (forall now call, In (now, call) elsewhere ->
            addressed (RT := sample_runtime) call <> Some SAMPLE_ID) as H.
  { intros now call [E | [E | []]]; injection E as _ <-; discriminate. }
  split; [exact H |].
  exact (requests_on_others_leave_row (RT := sample_runtime) (single assessed_container)
           SAMPLE_ID elsewhere H).
Defined.

Lemma unknown_container_not_found_witness :
  row empty_db SAMPLE_ID = None /\
  (exec sample_clock (Release SAMPLE_ID) empty_db).2 = empty_db /\
  (exec sample_clock (Release SAMPLE_ID) empty_db).1 = NotFound.
Proof.
  split; [reflexivity |].
  destruct (unknown_container_not_found (RT := sample_runtime) sample_clock
              (Release SAMPLE_ID) empty_db SAMPLE_ID eq_refl ltac:(discriminate) eq_refl)
    as [Hdb [Hnf | [[i Hi] _]]].
  - split; assumption.
  - discriminate Hi.
Defined.

Lemma rows_keyed_by_container_id_witness :
  keyed empty_db /\ keyed (run scenario empty_db).
Proof.
  assert (keyed empty_db) as H.
  { intros k c Hc. unfold empty_db in Hc. rewrite lookup_empty in Hc. discriminate Hc. }
  split; [exact H |].
  exact (rows_keyed_by_container_id (RT := sample_runtime) empty_db scenario H).
Defined.

Lemma upload_creates_pending_container_witness :
  row empty_db SAMPLE_ID = None /\
  exists c',
    (upload_bill_of_lading sample_clock "bill.pdf" "%PDF-1.4" empty_db).2
      = <[SAMPLE_ID := c']> empty_db /\
    overall_status c' = OverallStatus.PENDING_VALIDATION /\
    port_of_discharge c' = Some "Lagos, Nigeria" /\
    length (logs c') = 1%nat.
Proof.
  split; [reflexivity |].
  destruct (upload_creates_pending_container (RT := sample_runtime) sample_clock "bill.pdf"
              "%PDF-1.4" empty_db SAMPLE_ID eq_refl eq_refl eq_refl eq_refl)
    as (c' & Hup & _ & Hov & _ & _ & _ & _ & _ & _ & Hport & _ & Hlogs).
  { intros w E. injection E as <-. exists 1850000. vm_compute. reflexivity. }
  exists c'. rewrite Hup, Hlogs. repeat split; assumption.
Defined.

Lemma schedule_inspection_once_witness :
  row (single inspected_container) SAMPLE_ID = Some inspected_container /\
  schedule_inspection sample_clock schedule_request
    (schedule_inspection sample_clock schedule_request (single inspected_container)).2 =
    (Error 400 {| ErrorSchema.error := "Already scheduled";
                  ErrorSchema.details := Some "Inspection is already scheduled" |},
     (schedule_inspection sample_clock schedule_request (single inspected_container)).2).
Proof.
  split; [reflexivity |].
  apply (proj2 (schedule_inspection_once (RT := sample_runtime) sample_clock sample_clock
                  schedule_request (single inspected_container) inspected_container
                  eq_refl)).
  reflexivity.
Defined.

Lemma inspection_outcome_decides_release_witness :
  row (single (sample_container SAMPLE_ID None)) SAMPLE_ID
    = Some (sample_container SAMPLE_ID None) /\
  customs_status (sample_container SAMPLE_ID None) = CustomsStatus.PENDING /\
  exists c',
    row (release_container sample_clock SAMPLE_ID
           (complete_inspection sample_clock SAMPLE_ID true
              (single (sample_container SAMPLE_ID None))).2).2 SAMPLE_ID = Some c' /\
    overall_status c' = OverallStatus.RELEASED /\
    customs_status c' = CustomsStatus.PENDING.
Proof.
  split; [reflexivity |]. split; [reflexivity |].
  destruct (proj1 (proj2 (inspection_outcome_decides_release (RT := sample_runtime)
                            sample_clock sample_clock SAMPLE_ID
                            (single (sample_container SAMPLE_ID None))
                            (sample_container SAMPLE_ID None) eq_refl)))
    as (c' & Hrow & _ & Hov & _ & _ & Hcs & _).
  exists c'. repeat split; assumption.
Defined.

Lemma clearance_workflow_witness :
  row (single assessed_container) SAMPLE_ID = Some assessed_container /\
  exists c',
    row (run [ (sample_clock, Pay (pay_request 185000));
               (sample_clock, Schedule schedule_request);
               (sample_clock, Complete SAMPLE_ID true);
               (sample_clock, Release SAMPLE_ID) ] (single assessed_container)) SAMPLE_ID
      = Some c' /\
    overall_status c' = OverallStatus.RELEASED /\
    map action (logs c') =
      ["customs_payment"; "inspection_scheduled"; "inspection_passed";
       "container_released"].
Proof.
  split; [reflexivity |].
  destruct (clearance_workflow (RT := sample_runtime) sample_clock sample_clock sample_clock
              sample_clock (pay_request 185000) schedule_request
              (single assessed_container) SAMPLE_ID assessed_container
              eq_refl eq_refl eq_refl ltac:(discriminate) ltac:(discriminate) eq_refl)
    as (c' & e1 & e2 & e3 & e4 & Hrow & Hov & _ & _ & _ & _ & Hlogs & _ & Hact).
  exists c'. split; [exact Hrow |]. split; [exact Hov |].
  rewrite Hlogs. exact Hact.
Defined.

Lemma check_shipping_status_only_logs_witness :
  row (single assessed_container) SAMPLE_ID = Some assessed_container /\
  exists c',
    (check_shipping_status sample_clock SAMPLE_ID (single assessed_container)).2
      = <[SAMPLE_ID := c']> (single assessed_container) /\
    set_logs (logs assessed_container)
      (set_updated_at (updated_at assessed_container) c') = assessed_container.
Proof.
  split; [reflexivity |].
  destruct (check_shipping_status_only_logs (RT := sample_runtime) sample_clock SAMPLE_ID
              (single assessed_container) assessed_container eq_refl)
    as (c' & message & Hreply & Hsame & _).
  exists c'. rewrite Hreply. split; [reflexivity | exact Hsame].
Defined.

Lemma amount_due_iff_payment_required_witness :
  exists body,
    (check_customs_status sample_clock SAMPLE_ID (single assessed_container)).1 = Ok body /\
    CustomsStatusResponseSchema.amount_due body = Some 185000%Q /\
    CustomsStatusResponseSchema.customs_status body = CustomsStatus.PAYMENT_REQUIRED.
Proof.
  eexists. split; [reflexivity |]. split; [reflexivity |].
  apply (proj1 (amount_due_iff_payment_required (RT := sample_runtime) sample_clock SAMPLE_ID
                  (single assessed_container) _ eq_refl)).
  eexists. reflexivity.
Defined.

Lemma check_customs_status_always_assesses_witness :
  row (single (sample_container SAMPLE_ID (Some 110))) SAMPLE_ID
    = Some (sample_container SAMPLE_ID (Some 110)) /\
  outcome (check_customs_status sample_clock SAMPLE_ID
             (single (sample_container SAMPLE_ID (Some 110)))).1 = Accepted.
Proof.
  split; [reflexivity |].
  apply (check_customs_status_always_assesses (RT := sample_runtime) sample_clock SAMPLE_ID
           (single (sample_container SAMPLE_ID (Some 110)))
           (sample_container SAMPLE_ID (Some 110)) eq_refl).
  intros cents E. injection E as <-. split; reflexivity.
Defined.

Lemma revalidation_is_stable_witness :
  row (single (sample_container SAMPLE_ID None)) SAMPLE_ID
    = Some (sample_container SAMPLE_ID None) /\
  exists c1 c2,
    row (validate_container sample_clock (validate_request SAMPLE_ID true)
           (single (sample_container SAMPLE_ID None))).2 SAMPLE_ID = Some c1 /\
    row (validate_container sample_clock (validate_request SAMPLE_ID false)
           (validate_container sample_clock (validate_request SAMPLE_ID true)
              (single (sample_container SAMPLE_ID None))).2).2 SAMPLE_ID = Some c2 /\
    validation_errors c2 = validation_errors c1 /\
    document_validated c2 = document_validated c1 /\
    overall_status c2 = overall_status c1.
Proof.
  split; [reflexivity |].
  exact (revalidation_is_stable (RT := sample_runtime) sample_clock sample_clock
           (validate_request SAMPLE_ID true) (validate_request SAMPLE_ID false)
           (single (sample_container SAMPLE_ID None)) (sample_container SAMPLE_ID None)
           eq_refl eq_refl (or_introl eq_refl)).
Defined.

Lemma pay_customs_duty_guard_witness :
  (customs_duty_amount <$> row (run (take 3 scenario) empty_db) SAMPLE_ID)
    = Some (Some 185000%Q) /\
  pay_customs_duty sample_clock (pay_request 100000) (run (take 3 scenario) empty_db) =
    (Error 400 {| ErrorSchema.error := "Insufficient payment";
                  ErrorSchema.details := Some "Amount due: NGN" |},
     run (take 3 scenario) empty_db).
Proof.
  split; [vm_compute; reflexivity |].
  destruct (row (run (take 3 scenario) empty_db) SAMPLE_ID) as [c |] eqn:Hc;
    [| vm_compute in Hc; discriminate Hc].
  assert (customs_status c <> CustomsStatus.PAID /\ customs_duty_amount c = Some 185000%Q)
    as [Hs Hd].
  { vm_compute in Hc. injection Hc as <-. split; [discriminate | reflexivity]. }
  apply (proj1 (pay_customs_duty_guard (RT := sample_runtime) sample_clock
                  (pay_request 100000) (run (take 3 scenario) empty_db) c 185000%Q
                  (ex_intro _ (take 3 scenario) eq_refl) Hc Hs Hd)).
  reflexivity.
Defined.

(** * Worked instances of the properties of the parser *)




Lemma extract_field_value_witness :
  extract_field sample_text "Vessel Name" false = Some "MV Lagos Star" /\
  strip "MV Lagos Star" = "MV Lagos Star" /\
  occurs_in "MV Lagos Star" sample_text /\
  all_chars not_newline "MV Lagos Star" = true.
Proof.
  assert (H : extract_field sample_text "Vessel Name" false = Some "MV Lagos Star")
    by (vm_compute; reflexivity).
  split; [exact H |].
  exact (extract_field_value sample_text "Vessel Name" false "MV Lagos Star" H).
Defined.

Lemma unreadable_document_refused_witness :
  endswith (lower "Bill.PDF") ".pdf" = true /\
  upload_bill_of_lading (RT := parser_runtime) sample_clock "Bill.PDF" "not a document"
    parser_db =
    (Error 400 {| ErrorSchema.error := "Document parsing failed";
                  ErrorSchema.details :=
                    Some "Parsing error: Failed to parse PDF: cannot open broken document" |},
     parser_db).
Proof.
  split; [reflexivity |].
  exact (proj1 (unreadable_document_refused (PL := sample_pdf) sample_runtime sample_clock
                  "Bill.PDF" "not a document" parser_db eq_refl)
           "cannot open broken document" eq_refl).
Defined.

Lemma parsed_identifier_witness :
  success (BillOfLadingParser.parse_bill_of_lading (PL := sample_pdf) SAMPLE_PDF "bill.pdf")
    = true /\
  exists text id,
    BillOfLadingParser.extract_text_from_pdf (PL := sample_pdf) SAMPLE_PDF = inl text /\
    d_container_id
      (data (BillOfLadingParser.parse_bill_of_lading (PL := sample_pdf) SAMPLE_PDF "bill.pdf"))
      = Some id /\
    String.length id = 11%nat.
Proof.
  assert (H : success (BillOfLadingParser.parse_bill_of_lading (PL := sample_pdf)
                         SAMPLE_PDF "bill.pdf") = true) by (vm_compute; reflexivity).
  split; [exact H |].
  destruct (parsed_identifier (PL := sample_pdf) SAMPLE_PDF "bill.pdf" H)
    as (text & id & Htext & Hid & Hlen & _).
  exists text, id. repeat split; assumption.
Defined.

Lemma parsed_document_validation_witness :
  success (BillOfLadingParser.parse_bill_of_lading (PL := sample_pdf) SAMPLE_PDF "bill.pdf")
    = true /\
  validate_container_data
    (data (BillOfLadingParser.parse_bill_of_lading (PL := sample_pdf) SAMPLE_PDF "bill.pdf"))
    = [].
Proof.
  assert (H : success (BillOfLadingParser.parse_bill_of_lading (PL := sample_pdf)
                         SAMPLE_PDF "bill.pdf") = true) by (vm_compute; reflexivity).
  split; [exact H |].
  rewrite (parsed_document_validation (PL := sample_pdf) SAMPLE_PDF "bill.pdf" H).
  vm_compute. reflexivity.
Defined.

Lemma parsed_fields_fit_columns_witness :
  success (BillOfLadingParser.parse_bill_of_lading (PL := sample_pdf) SAMPLE_PDF "bill.pdf")
    = true /\
  fits max_length_vessel_name
    (d_vessel_name
       (data (BillOfLadingParser.parse_bill_of_lading (PL := sample_pdf) SAMPLE_PDF
                "bill.pdf"))) = true.
Proof.
  assert (H : success (BillOfLadingParser.parse_bill_of_lading (PL := sample_pdf)
                         SAMPLE_PDF "bill.pdf") = true) by (vm_compute; reflexivity).
  split; [exact H |].
  exact (proj1 (proj2 (parsed_fields_fit_columns (PL := sample_pdf) SAMPLE_PDF "bill.pdf" H))).
Defined.

Lemma upload_server_error_only_from_weight_witness :
  (upload_bill_of_lading (RT := parser_runtime) sample_clock "heavy.pdf" HEAVY_PDF
     parser_db).1 =
    Error 500 {| ErrorSchema.error := "Server error";
                 ErrorSchema.details := Some "[<class 'decimal.InvalidOperation'>]" |} /\
  exists w exn,
    d_cargo_weight
      (data (BillOfLadingParser.parse_bill_of_lading (PL := sample_pdf) HEAVY_PDF "heavy.pdf"))
      = Some w /\
    sample_weight_column w = inr exn.
Proof.
  assert (H : (upload_bill_of_lading (RT := parser_runtime) sample_clock "heavy.pdf"
                 HEAVY_PDF parser_db).1 =
              Error 500 {| ErrorSchema.error := "Server error";
                           ErrorSchema.details :=
                             Some "[<class 'decimal.InvalidOperation'>]" |})
    by (vm_compute; reflexivity).
  split; [exact H |].
  destruct (upload_bill_of_lading (RT := parser_runtime) sample_clock "heavy.pdf" HEAVY_PDF
              parser_db) as [reply db'] eqn:Hup.
  cbn [fst] in H. subst reply.
  destruct (upload_server_error_only_from_weight (PL := sample_pdf) sample_runtime
              sample_clock "heavy.pdf" HEAVY_PDF parser_db db' _ Hup)
    as (w & exn & Hw & Hcol & _).
  exists w, exn. split; assumption.
Defined.

Lemma upload_through_parser_validates_witness :
  parser_row parser_db "MSKU1234567" = None /\
  exists c',
    parser_row (upload_bill_of_lading (RT := parser_runtime) sample_clock "bill.pdf"
                  SAMPLE_PDF parser_db).2 "MSKU1234567" = Some c' /\
    vessel_name c' = Some "MV Lagos Star" /\
    importer_name c' = Some "Acme Imports Ltd" /\
    document_validated c' = true /\
    validation_errors c' = [].
Proof.
  split; [reflexivity |].
  destruct (upload_through_parser_validates (PL := sample_pdf) sample_runtime sample_clock
              "bill.pdf" SAMPLE_PDF parser_db "MSKU1234567")
    as (c' & Hup & _ & Hv & Hi & Hdoc & Herrs).
  - reflexivity.
  - vm_compute. reflexivity.
  - vm_compute. reflexivity.
  - reflexivity.
  - intros w E. vm_compute in E. injection E as <-. exists 1850050. vm_compute. reflexivity.
  - exists c'. change parser_runtime with (with_parser sample_runtime sample_pdf).
    rewrite Hup. unfold parser_row. cbn [snd]. rewrite lookup_insert_eq.
    assert (Hv' : vessel_name c' = Some "MV Lagos Star") by (rewrite Hv; vm_compute; reflexivity).
    assert (Hi' : importer_name c' = Some "Acme Imports Ltd")
      by (rewrite Hi; vm_compute; reflexivity).
    rewrite Hdoc, Herrs, Hv', Hi'. repeat split.
Defined.

